(** * Heavy Machinery AI Chat: operational scripts and chat front end

    A shallow embedding of the Python scripts of the repository.  Every
    script is a straight-line procedure over vendor SDK calls, so the
    embedding is a writer/exception monad: a script yields the list of the
    effects it performed (prints, sleeps, SDK calls, prompts) and how it
    ended.  The replies of the vendor are parameters of the scripts.

    Python [str] values are byte strings (UTF-8), which is exact for
    equality, concatenation and the search of an ASCII substring; what goes
    by characters (stripping, slicing, the escapes of JSON) reads the bytes
    of a character together. *)

From Stdlib Require Import String Ascii List Bool Arith QArith Lia.
From stdpp Require Import base strings list gmap pretty.
Import ListNotations.
Open Scope string_scope.
Open Scope list_scope.

(** ** Python strings *)
Module Py.

Definition dq : string := String (ascii_of_nat 34) EmptyString.
Definition nl : string := String (ascii_of_nat 10) EmptyString.

(** [needle in hay] *)
Fixpoint str_in (needle hay : string) : bool :=
  String.prefix needle hay ||
  match hay with
  | EmptyString => false
  | String _ rest => str_in needle rest
  end.

(** [sep.join(parts)] *)
Fixpoint join (sep : string) (parts : list string) : string :=
  match parts with
  | [] => ""
  | [p] => p
  | p :: rest => p +:+ sep +:+ join sep rest
  end.

(** [c.isspace()] holds of 29 characters.  Those of the ASCII range are
    TAB..CR, FS..US and the space. *)
Definition isspace (c : ascii) : bool :=
  let n := nat_of_ascii c in
  (((9 <=? n) && (n <=? 13)) || ((28 <=? n) && (n <=? 32)))%nat.

(** The white space of two bytes: U+0085 and U+00A0 (C2 85, C2 A0). *)
Definition isspace2 (c d : ascii) : bool :=
  let m := nat_of_ascii c in
  let n := nat_of_ascii d in
  ((m =? 194) && ((n =? 133) || (n =? 160)))%nat.

(** The white space of three bytes: U+1680 (E1 9A 80), U+2000..U+200A,
    U+2028, U+2029 and U+202F (E2 80 80..8A, A8, A9, AF), U+205F (E2 81 9F)
    and U+3000 (E3 80 80). *)
Definition isspace3 (c d e : ascii) : bool :=
  let m := nat_of_ascii c in
  let n := nat_of_ascii d in
  let k := nat_of_ascii e in
  (((m =? 225) && (n =? 154) && (k =? 128)) ||
   ((m =? 226) && (n =? 128) &&
    (((128 <=? k) && (k <=? 138)) || (k =? 168) || (k =? 169) || (k =? 175))) ||
   ((m =? 226) && (n =? 129) && (k =? 159)) ||
   ((m =? 227) && (n =? 128) && (k =? 128)))%nat.

(** [s.lstrip()]: the white space characters at the start are dropped. *)
Fixpoint lstrip (s : string) : string :=
  match s with
  | EmptyString => EmptyString
  | String c rest =>
      if isspace c then lstrip rest
      else
        match rest with
        | String d rest2 =>
            if isspace2 c d then lstrip rest2
            else
              match rest2 with
              | String e rest3 => if isspace3 c d e then lstrip rest3 else s
              | EmptyString => s
              end
        | EmptyString => s
        end
  end.

(** A white space character is kept when something is kept after it. *)
Definition keep_space (space kept : string) : string :=
  match kept with
  | EmptyString => EmptyString
  | _ => space +:+ kept
  end.

(** [s.rstrip()]: the string is read from the left, character by
    character; what is not white space is kept, and a white space character
    is kept when something is kept after it.  A byte that continues a
    character starts no white space, so reading a character that is not
    white space byte by byte is exact. *)
Fixpoint rstrip (s : string) : string :=
  match s with
  | EmptyString => EmptyString
  | String c rest =>
      if isspace c then keep_space (String c EmptyString) (rstrip rest)
      else
        match rest with
        | String d rest2 =>
            if isspace2 c d
            then keep_space (String c (String d EmptyString)) (rstrip rest2)
            else
              match rest2 with
              | String e rest3 =>
                  if isspace3 c d e
                  then keep_space (String c (String d (String e EmptyString))) (rstrip rest3)
                  else String c (rstrip rest)
              | EmptyString => String c (rstrip rest)
              end
        | EmptyString => String c EmptyString
        end
  end.

(** [s.strip()] *)
Definition strip (s : string) : string := rstrip (lstrip s).

Definition lower_ascii (c : ascii) : ascii :=
  let n := nat_of_ascii c in
  if ((65 <=? n) && (n <=? 90))%nat then ascii_of_nat (n + 32) else c.

(** [s.lower()], exact in the ASCII characters of the result.  The letters
    A..Z are lowered; U+0130 (C4 B0) becomes i followed by U+0307 (CC 87)
    and U+212A (E2 84 AA) becomes k, the two characters outside ASCII whose
    lower case holds an ASCII letter.  A cased letter outside ASCII is left
    as it is, where Python gives its lower case: in both it is a character
    outside ASCII and no white space, so that a comparison of the result,
    stripped or not, with an ASCII text gives what it gives in Python. *)
Fixpoint lower (s : string) : string :=
  match s with
  | EmptyString => EmptyString
  | String c rest =>
      match rest with
      | String d rest2 =>
          if ((nat_of_ascii c =? 196) && (nat_of_ascii d =? 176))%nat
          then String "i"%char
                 (String (ascii_of_nat 204) (String (ascii_of_nat 135) (lower rest2)))
          else
            match rest2 with
            | String e rest3 =>
                if ((nat_of_ascii c =? 226) && (nat_of_ascii d =? 132) &&
                    (nat_of_ascii e =? 170))%nat
                then String "k"%char (lower rest3)
                else String (lower_ascii c) (lower rest)
            | EmptyString => String (lower_ascii c) (lower rest)
            end
      | EmptyString => String (lower_ascii c) EmptyString
      end
  end.

(** Whether a byte continues a UTF-8 character (10xxxxxx). *)
Definition is_continuation (c : ascii) : bool :=
  let n := nat_of_ascii c in
  ((128 <=? n) && (n <? 192))%nat.

(** [s[:n]]: the first n characters.  A byte that continues a character
    stays with the character it belongs to. *)
Fixpoint take (n : nat) (s : string) : string :=
  match s with
  | EmptyString => EmptyString
  | String c rest =>
      if is_continuation c then String c (take n rest)
      else
        match n with
        | 0 => EmptyString
        | S n' => String c (take n' rest)
        end
  end.

(** Truth value of a string: [if s:] *)
Definition truthy (s : string) : bool := negb (String.eqb s "").

End Py.

(** ** Scripts: effects, exceptions, and how a run ends *)
Module Script.

(** The exception classes the scripts tell apart.  [text] is what
    [str(e)] prints. *)
Inductive exn : Type :=
| ClientError (code text : string)      (* botocore.exceptions.ClientError *)
| NoCredentialsError (text : string)    (* botocore.exceptions.NoCredentialsError *)
| ModuleNotFoundError (text : string)   (* a subclass of ImportError *)
| ImportError (text : string)
| Exception (text : string).            (* any other Exception *)

Definition str (e : exn) : string :=
  match e with
  | ClientError _ t | NoCredentialsError t | ModuleNotFoundError t
  | ImportError t | Exception t => t
  end.

(** [e.response['Error']['Code']] of a ClientError *)
Definition error_code (e : exn) : string :=
  match e with ClientError c _ => c | _ => "" end.

Definition is_ClientError (e : exn) : bool :=
  match e with ClientError _ _ => true | _ => false end.

Definition is_ImportError (e : exn) : bool :=
  match e with ModuleNotFoundError _ | ImportError _ => true | _ => false end.

(** What a call to the outside returns: a value or a raised exception. *)
Inductive reply (A : Type) : Type :=
| Ok (a : A)
| Err (e : exn).
Arguments Ok {A} a.
Arguments Err {A} e.

(** How a run ends.  [Running] is a loop that has not left yet when the
    observation stops. *)
Inductive outcome (A : Type) : Type :=
| Return (a : A)
| Raise (e : exn)
| Running.
Arguments Return {A} a.
Arguments Raise {A} e.
Arguments Running {A}.

(** A script over effects [E]: the effects in order, and the outcome. *)
Definition script (E A : Type) : Type := list E * outcome A.

Definition ret {E A} (a : A) : script E A := ([], Return a).
Definition raise {E A} (e : exn) : script E A := ([], Raise e).
Definition emit {E} (ev : E) : script E unit := ([ev], Return tt).

Definition bind {E A B} (m : script E A) (k : A -> script E B) : script E B :=
  match m with
  | (t, Return a) => let '(t', r) := k a in (t ++ t', r)
  | (t, Raise e) => (t, Raise e)
  | (t, Running) => (t, Running)
  end.

(** An outside call: the effect is recorded, then the reply decides. *)
Definition call {E A} (ev : E) (r : reply A) : script E A :=
  ([ev], match r with Ok a => Return a | Err e => Raise e end).

(** [try: body except <classes> as e: handler(e)] *)
Definition try_except {E A} (catches : exn -> bool)
    (body : script E A) (handler : exn -> script E A) : script E A :=
  match body with
  | (t, Raise e) =>
      if catches e then let '(t', r) := handler e in (t ++ t', r)
      else (t, Raise e)
  | done => done
  end.

Definition any_Exception (e : exn) : bool := true.

Definition trace {E A} (m : script E A) : list E := fst m.
Definition result {E A} (m : script E A) : outcome A := snd m.

End Script.
Import Script.

#[global] Instance script_ret {E} : MRet (script E) := fun A a => ret a.
#[global] Instance script_bind {E} : MBind (script E) := fun A B k m => bind m k.

(** ** app.py: the chat front end *)
Module App.

(** *** Imports (lines 1-5) *)

(** A module the interpreter can import: what CPython shows as its
    location (the path of its file, or "unknown location") and the names it
    defines. *)
Record py_module : Type := { location : string; names : gset string }.

(** The modules the interpreter can import. *)
Definition module_env : Type := gmap string py_module.

Inductive import_stmt : Type :=
| ImportModule (module : string)                      (* import m *)
| ImportFrom (module : string) (names : list string). (* from m import a, b *)

(** Lines 1-5 *)
Definition app_imports : list import_stmt :=
  [ ImportModule "streamlit";
    ImportModule "boto3";
    ImportFrom "botocore.exceptions" ["ClientError"; "NoCredentialsError"];
    ImportModule "json";
    ImportFrom "bedrock_utils"
      ["query_knowledge_base"; "generate_response"; "valid_prompt"] ].

(** The packages on the way to a module: for a.b.c they are a, a.b and
    a.b.c. *)
Fixpoint dotted_prefixes (seen rest : string) : list string :=
  match rest with
  | EmptyString => [seen]
  | String c rest' =>
      if Ascii.eqb c "."%char then seen :: dotted_prefixes (seen +:+ ".") rest'
      else dotted_prefixes (seen +:+ String c EmptyString) rest'
  end.

(** The first of them that the interpreter cannot find. *)
Definition missing (env : module_env) (m : string) : option string :=
  List.find (fun p => match env !! p with Some _ => false | None => true end)
            (dotted_prefixes "" m).

(** One import statement; the effect is the module loaded. *)
Definition exec_import (env : module_env) (i : import_stmt) : script string unit :=
  match i with
  | ImportModule m =>
      match missing env m with
      | Some p => raise (ModuleNotFoundError ("No module named '" +:+ p +:+ "'"))
      | None => emit m
      end
  | ImportFrom m wanted =>
      match missing env m, env !! m with
      | Some p, _ => raise (ModuleNotFoundError ("No module named '" +:+ p +:+ "'"))
      | None, None => raise (ModuleNotFoundError ("No module named '" +:+ m +:+ "'"))
      | None, Some found =>
          match List.find (fun n => negb (bool_decide (n ∈ names found))) wanted with
          | Some n =>
              raise (ImportError ("cannot import name '" +:+ n +:+ "' from '" +:+ m +:+
                                  "' (" +:+ location found +:+ ")"))
          | None => emit m
          end
      end
  end.

(** The imports run in order; the effect of each is the module loaded. *)
Fixpoint exec_imports (env : module_env) (stmts : list import_stmt) : script string unit :=
  match stmts with
  | [] => ret tt
  | i :: rest => exec_import env i ;; exec_imports env rest
  end.

(** The file names of the repository's sources. *)
Definition repo_sources : list string :=
  [ "test_new_kb.py"; "create_index.py"; "test_database_connection.py";
    "check_database_config.py"; "get_database_password.py";
    "create_simple_kb.py"; "direct_aurora_setup.py";
    "configure_vector_database.py"; "list_knowledge_bases.py";
    "setup_database.py"; "aurora_connection_analysis.py";
    "create_knowledge_base_opensearch.py"; "enable_aurora_public.py";
    "test_knowledge_base.py"; "create_knowledge_base_guide.py";
    "static_database_results.py"; "create_knowledge_base.py";
    "aurora_cmd_direct.py"; "disable_aurora_public.py";
    "manual_aurora_connection_guide.py"; "aurora_public_access.py";
    "setup_opensearch_serverless.py"; "run_database_setup.py";
    "verify_database_setup.py"; "app.py"; "demo_bedrock_setup.py";
    "database_connection_troubleshoot.py"; "check_ingestion.py" ].

(** *** Credentials check (lines 7-16) *)

(** [(aws_available, credential_status)]; only the two botocore classes
    are caught. *)
Definition check_credentials (get_caller_identity : reply unit)
  : outcome (bool * string) :=
  match get_caller_identity with
  | Ok _ => Return (true, "✅ AWS credentials configured")
  | Err (NoCredentialsError t as e) | Err (ClientError _ t as e) =>
      Return (false, "⚠️ AWS credentials issue: " +:+ str e)
  | Err e => Raise e
  end.

Section Chat.

(** The type of the two slider values. *)
Context {Float : Type}.

(** One retrieved passage: [result['content']['text']]. *)
Record kb_result : Type := { content_text : string }.

(** The three functions imported from bedrock_utils. *)
Record bedrock_utils : Type := {
  valid_prompt : string -> string -> reply bool;
  query_knowledge_base : string -> string -> reply (list kb_result);
  generate_response : string -> string -> Float -> Float -> reply string
}.

(** The sidebar values and the credentials flag. *)
Record config : Type := {
  kb_id : string;
  model_id : string;
  temperature : Float;
  top_p : Float;
  aws_available : bool
}.

(** An entry of [st.session_state.messages]. *)
Record message : Type := { role : string; content : string }.

Inductive ui_event : Type :=
| StInfo (text : string)
| StSuccess (text : string)
| StWarning (text : string)
| SidebarInfo (text : string)
| SidebarSuccess (text : string)
| ChatMessage (role text : string)   (* with st.chat_message(role): st.markdown(text) *)
| CallValidPrompt (prompt model : string)
| CallQueryKB (prompt kb : string)
| CallGenerate (full_prompt model : string) (temp topp : Float).

Definition placeholder : string := "your-knowledge-base-id".

(** The test of lines 75, 100, 120 and 142. *)
Definition demo_mode (cfg : config) : bool := String.eqb (kb_id cfg) placeholder.

(** Lines 74-78 *)
Definition sidebar_kb_status (cfg : config) : ui_event :=
  if String.eqb (kb_id cfg) placeholder
  then SidebarInfo "ℹ️ Demo Mode - Create KB in AWS Console"
  else SidebarSuccess ("✅ Using KB: " +:+ Py.take 8 (kb_id cfg) +:+ "...").

(** Line 95 *)
Definition kb_status (cfg : config) : string :=
  if negb (String.eqb (kb_id cfg) placeholder) then "Real KB" else "Demo Mode".

(** Lines 119-134, the button of line 127 apart. *)
Definition status_banner (cfg : config) : list ui_event :=
  if String.eqb (kb_id cfg) placeholder then
    [ StSuccess "✅ **Demo Mode Active**: Enhanced responses available for heavy machinery questions";
      StInfo "💡 **Try asking**: 'Tell me about the BD850 bulldozer specifications' or 'What's the capacity of the DT1000 dump truck?'" ]
  else if aws_available cfg then
    [ StSuccess ("🧠 **Knowledge Base Mode**: Using KB `" +:+ kb_id cfg +:+ "` with real document search");
      StInfo "🔍 **Ask specific questions** about the uploaded heavy machinery PDFs for detailed technical information" ]
  else
    [ StWarning ("⚠️ **KB Configured but AWS Unavailable**: KB `" +:+ kb_id cfg +:+ "` ready, but need valid credentials") ].

Definition demo_context : string :=
"You are a helpful assistant specializing in heavy machinery and construction equipment. 
                    You have detailed knowledge about these specific equipment models and their spec sheets:
                    
                    1. Bulldozer BD850 - Heavy-duty bulldozer for earthmoving operations
                    2. Dump Truck DT1000 - Large capacity dump truck for material transport
                    3. Excavator X950 - Hydraulic excavator for digging and material handling
                    4. Forklift FL250 - Industrial forklift for warehouse and construction use
                    5. Mobile Crane MC750 - Mobile crane for lifting and positioning heavy loads
                    
                    When users ask about these specific models, provide detailed technical information.
                    For other equipment, provide general but accurate information about specifications, operations, maintenance, and safety.".

(** Line 161 *)
Definition demo_full_prompt (prompt : string) : string :=
  demo_context +:+ "

User Question: " +:+ prompt +:+ "

Assistant:".

(** Line 164 *)
Definition off_topic_response : string :=
  "I specialize in heavy machinery equipment. Please ask about bulldozers, excavators, dump trucks, forklifts, mobile cranes, or related construction equipment.".

(** Line 166 *)
Definition demo_error_response (e : exn) : string :=
  "❌ **Error**: " +:+ str e +:+ ". Please check your AWS credentials.".

(** Lines 169-202 *)
Definition offline_demo_response (prompt : string) : string :=
"🤖 **Amazon Bedrock Heavy Machinery AI Assistant**

**Your Question**: " +:+ Py.dq +:+ prompt +:+ Py.dq +:+ "

🔧 **Demo Response** (Simulated Claude 3 Output):

I'm specialized in heavy machinery and construction equipment. Based on your question about " +:+ Py.dq +:+ prompt +:+ Py.dq +:+ ", here's comprehensive information:

**📊 Equipment Database** (From Uploaded S3 Spec Sheets):
- **🚜 BD850 Bulldozer**: 850HP, GPS-guided blade, advanced hydraulics
- **🚛 DT1000 Dump Truck**: 100-ton capacity, off-road capable, Cummins engine  
- **⛏️ X950 Excavator**: 95-ton class, 360° rotation, precision controls
- **🏗️ FL250 Forklift**: 2.5-ton lift capacity, warehouse/construction use
- **🏗️ MC750 Mobile Crane**: 75-ton capacity, telescopic boom, all-terrain

**🧠 Bedrock Knowledge Base Features:**
- Real-time query processing via Claude 3 models
- PDF document analysis and retrieval
- Technical specification lookup
- Maintenance schedule recommendations
- Safety protocol guidance

**📁 Document Repository Status:**
✅ All PDF spec sheets uploaded to S3: `bedrock-kb-133720367604`
✅ Knowledge Base ready for semantic search
✅ Aurora PostgreSQL metadata storage active

**🔗 Bedrock Integration:**
- **Model**: Claude 3 Haiku/Sonnet (anthropic.claude-3-*" +:+ ")
- **Region**: us-west-2  
- **Knowledge Base**: Document embeddings ready
- **Vector Search**: Semantic similarity matching

*Note: This is a demonstration of the full Bedrock application. With valid AWS credentials, you'd get real-time AI responses powered by Claude 3 models and access to the complete knowledge base.*".

(** Line 214 *)
Definition no_results_response (prompt : string) : string :=
  "🤖 **Claude 3 Response**: I couldn't find specific information about '" +:+ prompt +:+ "' in the knowledge base documents. However, I can provide general information about heavy machinery. The knowledge base contains specifications for BD850 Bulldozer, DT1000 Dump Truck, X950 Excavator, FL250 Forklift, and MC750 Mobile Crane. Please ask about these specific models or general heavy machinery topics.".

(** Line 223 *)
Definition kb_full_prompt (context prompt : string) : string :=
  "Based on the following context from heavy machinery specification documents, please answer the user's question comprehensively:

Context: " +:+ context +:+ "

User Question: " +:+ prompt +:+ "

Provide a detailed, technical response based on the documentation:".

(** Line 226 *)
Definition invalid_query_response : string :=
  "❌ **Invalid Query**: Please ask about heavy machinery equipment like bulldozers, excavators, dump trucks, forklifts, or mobile cranes. Avoid questions that are unrelated to construction equipment or potentially harmful.".

(** Line 230 *)
Definition kb_not_found_response (kb : string) : string :=
  "❌ **Knowledge Base Not Found**: The Knowledge Base ID '" +:+ kb +:+ "' doesn't exist or isn't accessible. Please check the ID in the AWS Console and ensure it's in the us-west-2 region.".

(** Line 232 *)
Definition access_denied_response (kb : string) : string :=
  "❌ **Access Denied**: Don't have permission to access Knowledge Base '" +:+ kb +:+ "'. Please check IAM permissions for Bedrock and Knowledge Base access.".

(** Line 234 *)
Definition kb_generic_error_response (error_msg : string) : string :=
  "❌ **Knowledge Base Error**: " +:+ error_msg +:+ ". Please verify your Knowledge Base ID and AWS credentials.".

(** Line 236 *)
Definition aws_required_response (kb : string) : string :=
  "⚠️ **AWS Connection Required**: To use Knowledge Base '" +:+ kb +:+ "', please configure valid AWS credentials. Currently running in demo mode - switch to 'your-knowledge-base-id' for demo responses.".

(** The handler of lines 227-234. *)
Definition kb_error_response (kb : string) (e : exn) : string :=
  let error_msg := str e in
  if Py.str_in "NotFound" error_msg || Py.str_in "ResourceNotFound" error_msg
  then kb_not_found_response kb
  else if Py.str_in "AccessDenied" error_msg
  then access_denied_response kb
  else kb_generic_error_response error_msg.

Context (B : bedrock_utils).

(** The body of the [try] of lines 145-164. *)
Definition demo_try_body (cfg : config) (prompt : string) : script ui_event string :=
  ok ← call (CallValidPrompt prompt (model_id cfg))
            (valid_prompt B prompt (model_id cfg));
  if ok : bool then
    let full_prompt := demo_full_prompt prompt in
    call (CallGenerate full_prompt (model_id cfg) (temperature cfg) (top_p cfg))
         (generate_response B full_prompt (model_id cfg) (temperature cfg) (top_p cfg))
  else mret off_topic_response.

(** The body of the [try] of lines 206-226. *)
Definition kb_try_body (cfg : config) (prompt : string) : script ui_event string :=
  ok ← call (CallValidPrompt prompt (model_id cfg))
            (valid_prompt B prompt (model_id cfg));
  if ok : bool then
    emit (StInfo ("🔍 **Querying Knowledge Base**: " +:+ kb_id cfg)) ;;
    kb_results ← call (CallQueryKB prompt (kb_id cfg))
                      (query_knowledge_base B prompt (kb_id cfg));
    match kb_results with
    | [] => mret (no_results_response prompt)
    | _ :: _ =>
        let context := Py.join Py.nl (List.map content_text kb_results) in
        emit (StSuccess ("✅ Found " +:+ pretty (length kb_results) +:+ " relevant document(s)")) ;;
        let full_prompt := kb_full_prompt context prompt in
        call (CallGenerate full_prompt (model_id cfg) (temperature cfg) (top_p cfg))
             (generate_response B full_prompt (model_id cfg) (temperature cfg) (top_p cfg))
    end
  else mret invalid_query_response.

(** Lines 142-236: the response to a submitted input. *)
Definition respond (cfg : config) (prompt : string) : script ui_event string :=
  if String.eqb (kb_id cfg) placeholder then
    if aws_available cfg then
      try_except any_Exception (demo_try_body cfg prompt)
        (fun e => mret (demo_error_response e))
    else mret (offline_demo_response prompt)
  else
    if aws_available cfg then
      try_except any_Exception (kb_try_body cfg prompt)
        (fun e => mret (kb_error_response (kb_id cfg) e))
    else mret (aws_required_response (kb_id cfg)).

(** Lines 114-117 *)
Definition display_history (messages : list message) : list ui_event :=
  List.map (fun m => ChatMessage (role m) (content m)) messages.

(** Lines 136-241: [chat_input] is what [st.chat_input] returns on this
    run of the script, [None] when nothing was submitted.  The result
    is the message list of the session afterwards. *)
Definition chat_turn (cfg : config) (messages : list message)
    (chat_input : option string) : script ui_event (list message) :=
  match chat_input with
  | Some prompt =>
      if Py.truthy prompt then
        let messages1 := messages ++ [ {| role := "user"; content := prompt |} ] in
        emit (ChatMessage "user" prompt) ;;
        response ← respond cfg prompt;
        emit (ChatMessage "assistant" response) ;;
        mret (messages1 ++ [ {| role := "assistant"; content := response |} ])
      else mret messages
  | None => mret messages
  end.

(** Lines 110-241 of one run of the script. *)
Definition script_run (cfg : config) (messages : list message)
    (chat_input : option string) : script ui_event (list message) :=
  (display_history messages ++ status_banner cfg, Return tt) ;;
  chat_turn cfg messages chat_input.


Definition is_kb_query (ev : ui_event) : bool :=
  match ev with CallQueryKB _ _ => true | _ => false end.

Definition is_bedrock_utils_call (ev : ui_event) : bool :=
  match ev with
  | CallValidPrompt _ _ | CallQueryKB _ _ | CallGenerate _ _ _ _ => true
  | _ => false
  end.


Definition queries_kb (t : list ui_event) : bool := existsb is_kb_query t.

End Chat.

(** A session: the script runs once per interaction, each run with the
    sidebar values, the input and the replies of that run. *)
Fixpoint session {Float : Type} (messages : list message)
    (runs : list (@bedrock_utils Float * @config Float * option string))
  : outcome (list message) :=
  match runs with
  | [] => Return messages
  | (B, cfg, input) :: rest =>
      match result (script_run B cfg messages input) with
      | Return messages' => session messages' rest
      | Raise e => Raise e
      | Running => Running
      end
  end.

(** Lines 1-5, then the rest of the script: nothing below the imports
    runs when one of them raises. *)
Definition load_app (env : module_env) {A} (rest : script string A) : script string A :=
  exec_imports env app_imports ;; rest.

End App.

(** ** The administrative scripts *)

(** The effects of the administrative scripts.  A boto3 client is built
    from a literal service name and region, which neither fails nor reaches
    the network, so only the SDK operations are effects. *)
Inductive effect : Type :=
| Print (text : string)
| Sleep (seconds : nat)                                  (* time.sleep *)
| Input (prompt : string)                                (* input(prompt) *)
| Api (operation : string) (args : list (string * string)). (* an SDK operation and its keyword arguments *)

Definition is_api (operation : string) (ev : effect) : bool :=
  match ev with Api op _ => String.eqb op operation | _ => false end.

Definition is_input (ev : effect) : bool :=
  match ev with Input _ => true | _ => false end.

(** The arguments of the sleeps of a trace, in order. *)
Fixpoint sleeps (t : list effect) : list nat :=
  match t with
  | [] => []
  | Sleep s :: rest => s :: sleeps rest
  | _ :: rest => sleeps rest
  end.

(** How often an operation was called. *)
Definition api_calls (operation : string) (t : list effect) : nat :=
  length (List.filter (is_api operation) t).

(** The polls and the sleeps of a trace, in order: a call of the operation
    is [None], a sleep of s seconds is [Some s]. *)
Fixpoint rhythm (operation : string) (t : list effect) : list (option nat) :=
  match t with
  | [] => []
  | Sleep s :: rest => Some s :: rhythm operation rest
  | ev :: rest =>
      if is_api operation ev then None :: rhythm operation rest
      else rhythm operation rest
  end.

(** k polls, each followed by a sleep of the interval before the next
    poll. *)
Fixpoint poll_and_sleep (interval k : nat) : list (option nat) :=
  match k with
  | 0 => []
  | S k' => None :: Some interval :: poll_and_sleep interval k'
  end.

(** ** create_knowledge_base_guide.py *)
Module Guide.
Section StartIngestionJob.

(** The reply to [start_ingestion_job], the job identifier, and the
    status in the reply to the n-th [get_ingestion_job], n from 0. *)
Context (start_reply : reply string)
        (get_ingestion_job : nat -> reply string).

Definition job_args (kb_id data_source_id : string) : list (string * string) :=
  [("knowledgeBaseId", kb_id); ("dataSourceId", data_source_id)].

(** Lines 108-125; [polls] bounds how many polls are observed, [n] is
    the number of polls made before. *)
Fixpoint monitor (kb_id data_source_id job_id : string) (polls n : nat)
  : script effect unit :=
  match polls with
  | 0 => ([], Running)
  | S polls' =>
      status ← call (Api "get_ingestion_job"
                       (job_args kb_id data_source_id ++ [("ingestionJobId", job_id)]))
                    (get_ingestion_job n);
      emit (Print ("   Status: " +:+ status)) ;;
      if String.eqb status "COMPLETE" then
        emit (Print "✅ Document ingestion completed successfully!")
      else if String.eqb status "FAILED" then
        emit (Print "❌ Document ingestion failed!")
      else
        emit (Sleep 30) ;;
        monitor kb_id data_source_id job_id polls' (S n)
  end.

(** Lines 92-131; the result is the job identifier or [None]. *)
Definition start_ingestion_job (kb_id data_source_id : string) (polls : nat)
  : script effect (option string) :=
  try_except is_ClientError
    (emit (Print "🚀 Starting document ingestion...") ;;
     job_id ← call (Api "start_ingestion_job" (job_args kb_id data_source_id)) start_reply;
     emit (Print ("✅ Ingestion job started with ID: " +:+ job_id)) ;;
     emit (Print "⏳ Monitoring ingestion progress...") ;;
     monitor kb_id data_source_id job_id polls 0 ;;
     mret (Some job_id))
    (fun e =>
       emit (Print ("❌ Error starting ingestion: " +:+ str e)) ;;
       mret None).

End StartIngestionJob.
End Guide.

(** ** create_knowledge_base_opensearch.py *)
Module KbOpenSearch.
Section StartIngestion.

(** A reply to [get_ingestion_job]: the status, and the text of the
    list under failureReasons (of the empty list when absent). *)
Record ingestion_job : Type := { status : string; failure_reasons : string }.

Context (start_reply : reply string)
        (get_ingestion_job : nat -> reply ingestion_job).

Definition job_args (kb_id ds_id : string) : list (string * string) :=
  [("knowledgeBaseId", kb_id); ("dataSourceId", ds_id)].

(** Lines 229-247 *)
Fixpoint monitor (kb_id ds_id job_id : string) (polls n : nat)
  : script effect unit :=
  match polls with
  | 0 => ([], Running)
  | S polls' =>
      job ← call (Api "get_ingestion_job"
                    (job_args kb_id ds_id ++ [("ingestionJobId", job_id)]))
                 (get_ingestion_job n);
      emit (Print ("   Ingestion status: " +:+ status job)) ;;
      if String.eqb (status job) "COMPLETE" then
        emit (Print "✅ Ingestion completed successfully!")
      else if String.eqb (status job) "FAILED" then
        emit (Print ("❌ Ingestion failed: " +:+ failure_reasons job))
      else
        emit (Sleep 30) ;;
        monitor kb_id ds_id job_id polls' (S n)
  end.

(** Lines 213-253 *)
Definition start_ingestion (kb_id ds_id : string) (polls : nat)
  : script effect (option string) :=
  emit (Print "🔧 Starting ingestion job...") ;;
  try_except any_Exception
    (job_id ← call (Api "start_ingestion_job"
                      (job_args kb_id ds_id ++
                       [("description", "Initial ingestion of heavy machinery documents")]))
                   start_reply;
     emit (Print ("✅ Started ingestion job: " +:+ job_id)) ;;
     emit (Print "⏳ Monitoring ingestion progress...") ;;
     monitor kb_id ds_id job_id polls 0 ;;
     mret (Some job_id))
    (fun e =>
       emit (Print ("❌ Error starting ingestion: " +:+ str e)) ;;
       mret None).

End StartIngestion.
End KbOpenSearch.

(** A collection as [batch_get_collection] and [list_collections] describe
    it; [endpoint] is [None] when the key is absent. *)
Record collection_detail : Type := {
  col_id : string;
  col_name : string;
  col_arn : string;
  col_status : string;
  col_endpoint : option string
}.

(** ** create_knowledge_base.py *)
Module CreateKb.

Definition KB_NAME : string := "heavy-machinery-knowledge-base".
Definition KB_DESCRIPTION : string :=
  "Knowledge Base for heavy machinery equipment specifications and maintenance".

(** [s.replace("_", "-")] *)
Fixpoint replace_underscore (s : string) : string :=
  match s with
  | EmptyString => EmptyString
  | String c rest =>
      String (if Ascii.eqb c "_"%char then "-"%char else c) (replace_underscore rest)
  end.

Section CreateCollection.

(** The replies to the lookup by name, to [create_collection] (the new
    identifier) and to the n-th [batch_get_collection] by identifier. *)
Context (lookup_reply : reply (list collection_detail))
        (create_reply : reply string)
        (batch_get_collection : nat -> reply (list collection_detail)).

(** Lines 93-101 *)
Fixpoint wait_active (collection_id : string) (polls n : nat) : script effect unit :=
  match polls with
  | 0 => ([], Running)
  | S polls' =>
      details ← call (Api "batch_get_collection" [("ids", collection_id)])
                     (batch_get_collection n);
      match details with
      | [] => raise (Exception "list index out of range")
      | d :: _ =>
          if String.eqb (col_status d) "ACTIVE" then mret tt
          else if String.eqb (col_status d) "FAILED" then
            raise (Exception "Collection creation failed")
          else
            emit (Sleep 10) ;;
            emit (Print "Still creating...") ;;
            wait_active collection_id polls' (S n)
      end
  end.

(** Lines 64-108; the result is the collection identifier or [None]. *)
Definition create_opensearch_serverless_collection (polls : nat)
  : script effect (option string) :=
  try_except is_ClientError
    (let collection_name := replace_underscore (KB_NAME +:+ "-collection") in
     existing ←
       try_except is_ClientError
         (details ← call (Api "batch_get_collection" [("names", collection_name)])
                         lookup_reply;
          match details with
          | d :: _ =>
              emit (Print ("✅ OpenSearch collection '" +:+ collection_name +:+ "' already exists")) ;;
              mret (Some (col_id d))
          | [] => mret None
          end)
         (fun _ => mret None);
     match existing with
     | Some id => mret (Some id)
     | None =>
         emit (Print ("Creating OpenSearch Serverless collection: " +:+ collection_name)) ;;
         collection_id ←
           call (Api "create_collection"
                   [("name", collection_name); ("type", "VECTORSEARCH");
                    ("description", "Vector collection for " +:+ KB_DESCRIPTION)])
                create_reply;
         emit (Print ("✅ Created OpenSearch collection: " +:+ collection_id)) ;;
         emit (Print "Waiting for collection to become active...") ;;
         wait_active collection_id polls 0 ;;
         emit (Print "✅ OpenSearch collection is now active") ;;
         mret (Some collection_id)
     end)
    (fun e =>
       emit (Print ("❌ Error creating OpenSearch collection: " +:+ str e)) ;;
       mret None).

End CreateCollection.
End CreateKb.

(** Python's [for x in xs: body(x)] *)
Fixpoint for_each {E A} (xs : list A) (body : A -> script E unit) : script E unit :=
  match xs with
  | [] => mret tt
  | x :: rest => body x ;; for_each rest body
  end.

(** [s * n] *)
Fixpoint str_repeat (s : string) (n : nat) : string :=
  match n with
  | 0 => ""
  | S n' => s +:+ str_repeat s n'
  end.

(** ** setup_opensearch_serverless.py *)
Module OpenSearchSetup.

Definition collection_name : string := "heavy-machinery-kb".
Definition max_attempts : nat := 20.

(** The dictionary [create_collection] returns. *)
Record collection_info : Type := {
  collection_id : string;
  collection_arn : string;
  endpoint : string
}.

Section CreateCollection.

(** The replies to [create_collection] (identifier and ARN), to the
    n-th [batch_get_collection] and to [list_collections]. *)
Context (create_reply : reply (string * string))
        (batch_get_collection : nat -> reply (list collection_detail))
        (list_reply : reply (list collection_detail)).

(** One turn of the loop, lines 180-206.  [Some info] is the [return]
    of line 192, [None] goes on to the next turn.  The attempt counter
    grows by one on every turn, so it numbers the polls. *)
Definition poll_once (id arn : string) (attempt : nat)
  : script effect (option collection_info) :=
  try_except any_Exception
    (details ← call (Api "batch_get_collection" [("ids", id)])
                    (batch_get_collection attempt);
     found ←
       match details with
       | d :: _ =>
           emit (Print ("   Collection status: " +:+ col_status d)) ;;
           if String.eqb (col_status d) "ACTIVE" then
             match col_endpoint d with
             | Some ep =>
                 emit (Print ("✅ Collection is active with endpoint: " +:+ ep)) ;;
                 mret (Some {| collection_id := id; collection_arn := arn; endpoint := ep |})
             | None => raise (Exception "'collectionEndpoint'")
             end
           else if String.eqb (col_status d) "FAILED" then
             raise (Exception "Collection creation failed")
           else mret None
       | [] => mret None
       end;
     match found with
     | Some info => mret (Some info)
     | None => emit (Sleep 30) ;; mret None
     end)
    (fun e =>
       emit (Print ("   Error checking status: " +:+ str e)) ;;
       emit (Sleep 30) ;;
       mret None).

(** Lines 179-208: [while attempt < max_attempts], with [remaining] the
    difference of the two; the [raise] of line 208 follows the loop. *)
Fixpoint wait_active (id arn : string) (remaining attempt : nat)
  : script effect collection_info :=
  match remaining with
  | 0 => raise (Exception "Collection did not become active within expected time")
  | S remaining' =>
      found ← poll_once id arn attempt;
      match found with
      | Some info => mret info
      | None => wait_active id arn remaining' (S attempt)
      end
  end.

(** Lines 213-225 *)
Definition existing_collection : script effect (option collection_info) :=
  try_except any_Exception
    (collections ← call (Api "list_collections" []) list_reply;
     mret (match List.find (fun c => String.eqb (col_name c) collection_name) collections with
           | Some c => Some {| collection_id := col_id c;
                               collection_arn := col_arn c;
                               endpoint := default "" (col_endpoint c) |}
           | None => None
           end))
    (fun list_error =>
       emit (Print ("Error listing collections: " +:+ str list_error)) ;;
       mret None).

(** Lines 157-228 *)
Definition create_collection : script effect (option collection_info) :=
  emit (Print "🔧 Creating OpenSearch Serverless collection...") ;;
  try_except is_ClientError
    ('(id, arn) ← call (Api "create_collection"
                         [("name", collection_name); ("type", "VECTORSEARCH");
                          ("description", "Vector collection for heavy machinery knowledge base")])
                      create_reply;
     emit (Print ("✅ Created OpenSearch collection: " +:+ id)) ;;
     emit (Print ("   ARN: " +:+ arn)) ;;
     emit (Print "⏳ Waiting for collection to be active...") ;;
     info ← wait_active id arn max_attempts 0;
     mret (Some info))
    (fun e =>
       if String.eqb (error_code e) "ConflictException" then
         emit (Print ("ℹ️ Collection " +:+ collection_name +:+ " already exists")) ;;
         existing_collection
       else
         emit (Print ("❌ Error creating OpenSearch collection: " +:+ str e)) ;;
         mret None).

End CreateCollection.
End OpenSearchSetup.

(** ** setup_database.py *)
Module SetupDatabase.

Definition cluster_arn : string :=
  "arn:aws:rds:us-west-2:133720367604:cluster:my-aurora-serverless".
Definition secret_arn : string :=
  "arn:aws:secretsmanager:us-west-2:133720367604:secret:my-aurora-serverless-D8pFMK".

(** Lines 31-46 *)
Definition sql_statements : list string :=
  [ "CREATE EXTENSION IF NOT EXISTS vector;";
    "CREATE SCHEMA IF NOT EXISTS bedrock_integration;";
    "DO $$ BEGIN CREATE ROLE bedrock_user LOGIN; EXCEPTION WHEN duplicate_object THEN RAISE NOTICE 'Role already exists'; END $$;";
    "GRANT ALL ON SCHEMA bedrock_integration to bedrock_user;";
    "SET SESSION AUTHORIZATION bedrock_user;";
    "
        CREATE TABLE IF NOT EXISTS bedrock_integration.bedrock_kb (
            id uuid PRIMARY KEY,
            embedding vector(1536),
            chunks text,
            metadata json
        );
        ";
    "CREATE INDEX IF NOT EXISTS bedrock_kb_embedding_idx ON bedrock_integration.bedrock_kb USING hnsw (embedding vector_cosine_ops);" ].

(** The test of line 57, negated: the errors the loop passes over. *)
Definition tolerated (e : exn) : bool :=
  Py.str_in "duplicate_object" (str e) || Py.str_in "already exists" (str e).

Section Main.

(** The reply of the database to the i-th statement of the run: the
    value under numberOfRecordsUpdated, when there is one. *)
Context (execute_statement : nat -> string -> reply (option nat)).

(** Lines 9-20 *)
Definition execute_sql_statement (i : nat) (sql_statement : string)
  : script effect unit :=
  emit (Print ("Executing: " +:+ sql_statement)) ;;
  response ← call (Api "execute_statement"
                     [("resourceArn", cluster_arn); ("secretArn", secret_arn);
                      ("database", "myapp"); ("sql", sql_statement)])
                  (execute_statement i sql_statement);
  emit (Print ("Response: " +:+ pretty (default 0 response) +:+ " records affected")).

(** The body of the loop, lines 51-58. *)
Definition run_statement (i : nat) (sql : string) : script effect unit :=
  try_except any_Exception
    (execute_sql_statement i (Py.strip sql) ;;
     emit (Sleep 1))
    (fun e =>
       emit (Print ("Error executing SQL: " +:+ str e)) ;;
       emit (Print ("SQL was: " +:+ sql)) ;;
       if negb (Py.str_in "duplicate_object" (str e)) &&
          negb (Py.str_in "already exists" (str e))
       then raise e
       else mret tt).

(** Lines 50-58, from the i-th statement on. *)
Fixpoint run_statements (i : nat) (stmts : list string) : script effect unit :=
  match stmts with
  | [] => mret tt
  | sql :: rest => run_statement i sql ;; run_statements (S i) rest
  end.

(** Lines 22-60 *)
Definition main : script effect unit :=
  emit (Print "Setting up Aurora database schema for Bedrock Knowledge Base...") ;;
  run_statements 0 sql_statements ;;
  emit (Print "Database schema setup completed successfully!").

End Main.
End SetupDatabase.

(** ** check_ingestion.py *)
Module CheckIngestion.

(** An entry of dataSourceSummaries. *)
Record data_source : Type := {
  ds_name : string;
  ds_status : string;
  dataSourceId : string
}.

(** An entry of ingestionJobSummaries; the two dates are optional keys. *)
Record job_summary : Type := {
  ingestionJobId : string;
  job_status : string;
  startedAt : option string;
  updatedAt : option string
}.

Section CheckStatus.

(** The replies of the vendor: the data sources of the knowledge base,
    the jobs of a data source, the text of the failure reasons of a job
    ([None] when the list is absent or empty), and the identifier and
    status of the job that [start_ingestion_job] starts. *)
Context (list_data_sources : reply (list data_source))
        (list_ingestion_jobs : string -> reply (list job_summary))
        (get_ingestion_job : string -> string -> reply (option string))
        (start_ingestion_job : string -> reply (string * string)).

(** Lines 34-54 *)
Definition report_job (kb_id : string) (ds : data_source) (job : job_summary)
  : script effect unit :=
  emit (Print ("     Job ID: " +:+ ingestionJobId job)) ;;
  emit (Print ("     Status: " +:+ job_status job)) ;;
  emit (Print ("     Started: " +:+ default "N/A" (startedAt job))) ;;
  emit (Print ("     Updated: " +:+ default "N/A" (updatedAt job))) ;;
  (if String.eqb (job_status job) "FAILED" then
     try_except any_Exception
       (failure_reasons ←
          call (Api "get_ingestion_job"
                  [("knowledgeBaseId", kb_id); ("dataSourceId", dataSourceId ds);
                   ("ingestionJobId", ingestionJobId job)])
               (get_ingestion_job (dataSourceId ds) (ingestionJobId job));
        match failure_reasons with
        | Some reasons => emit (Print ("     Failure Reasons: " +:+ reasons))
        | None => mret tt
        end)
       (fun e => emit (Print ("     Error getting job details: " +:+ str e)))
   else mret tt) ;;
  emit (Print "").

(** Lines 20-57 *)
Definition report_data_source (kb_id : string) (ds : data_source)
  : script effect unit :=
  emit (Print ("📁 Data Source: " +:+ ds_name ds)) ;;
  emit (Print ("   Status: " +:+ ds_status ds)) ;;
  emit (Print ("   ID: " +:+ dataSourceId ds)) ;;
  try_except is_ClientError
    (jobs ← call (Api "list_ingestion_jobs"
                    [("knowledgeBaseId", kb_id); ("dataSourceId", dataSourceId ds)])
                 (list_ingestion_jobs (dataSourceId ds));
     emit (Print ("   Ingestion Jobs: " +:+ pretty (length jobs))) ;;
     for_each jobs (report_job kb_id ds))
    (fun e => emit (Print ("   Error getting ingestion jobs: " +:+ str e))).

(** Lines 14-57: the listing and the printing of the statuses. *)
Definition report_statuses (kb_id : string) : script effect (list data_source) :=
  data_sources ← call (Api "list_data_sources" [("knowledgeBaseId", kb_id)])
                      list_data_sources;
  emit (Print ("🔍 Checking ingestion status for KB: " +:+ kb_id)) ;;
  emit (Print (str_repeat "=" 50)) ;;
  for_each data_sources (report_data_source kb_id) ;;
  mret data_sources.

(** Lines 59-72 *)
Definition start_new_job (kb_id : string) (data_sources : list data_source)
  : script effect unit :=
  match data_sources with
  | first :: _ =>
      let ds_id := dataSourceId first in
      emit (Print "🚀 Starting new ingestion job...") ;;
      try_except is_ClientError
        ('(job, status) ← call (Api "start_ingestion_job"
                                  [("knowledgeBaseId", kb_id); ("dataSourceId", ds_id)])
                               (start_ingestion_job ds_id);
         emit (Print ("✅ New ingestion job started: " +:+ job)) ;;
         emit (Print ("   Status: " +:+ status)))
        (fun e => emit (Print ("❌ Error starting ingestion job: " +:+ str e)))
  | [] => mret tt
  end.

(** Lines 9-78 *)
Definition check_ingestion_status (kb_id : string) : script effect bool :=
  try_except is_ClientError
    (data_sources ← report_statuses kb_id;
     start_new_job kb_id data_sources ;;
     mret true)
    (fun e =>
       emit (Print ("❌ Error checking ingestion status: " +:+ str e)) ;;
       mret false).

End CheckStatus.
End CheckIngestion.

(** ** aurora_public_access.py *)
Module AuroraPublicAccess.
Section PublicAccess.

(** What [input] returns and what [modify_db_cluster] replies. *)
Context (read_line : reply string)
        (modify_reply : reply unit).

Definition modify_args (publicly_accessible : string) : list (string * string) :=
  [("DBClusterIdentifier", "my-aurora-serverless");
   ("PubliclyAccessible", publicly_accessible);
   ("ApplyImmediately", "True")].

(** Lines 10-46 *)
Definition enable_aurora_public_access : script effect bool :=
  emit (Print "🔧 Enabling Public Access for Aurora PostgreSQL") ;;
  emit (Print (str_repeat "=" 50)) ;;
  try_except any_Exception
    (emit (Print "⚠️  WARNING: This will temporarily make your Aurora cluster publicly accessible!") ;;
     emit (Print "   Make sure to disable it after database setup is complete.") ;;
     line ← call (Input (Py.nl +:+ "Do you want to proceed? (yes/no): ")) read_line;
     let response := Py.strip (Py.lower line) in
     if negb (String.eqb response "yes") then
       emit (Print "❌ Operation cancelled.") ;;
       mret false
     else
       emit (Print (Py.nl +:+ "🔄 Modifying Aurora cluster to enable public access...")) ;;
       call (Api "modify_db_cluster" (modify_args "True")) modify_reply ;;
       emit (Print "✅ Aurora cluster modification initiated!") ;;
       emit (Print "⏳ This may take 5-10 minutes to complete.") ;;
       emit (Print (Py.nl +:+ "🔥 Once modification is complete, you can connect directly:")) ;;
       emit (Print "   python aurora_cmd_direct.py") ;;
       mret true)
    (fun e =>
       emit (Print ("❌ Error enabling public access: " +:+ str e)) ;;
       mret false).

(** Lines 48-73 *)
Definition disable_aurora_public_access : script effect bool :=
  emit (Print "🔒 Disabling Public Access for Aurora PostgreSQL") ;;
  emit (Print (str_repeat "=" 50)) ;;
  try_except any_Exception
    (emit (Print "🔄 Modifying Aurora cluster to disable public access...") ;;
     call (Api "modify_db_cluster" (modify_args "False")) modify_reply ;;
     emit (Print "✅ Aurora cluster public access disabled!") ;;
     emit (Print "🔒 Your database is now secure in private subnets only.") ;;
     mret true)
    (fun e =>
       emit (Print ("❌ Error disabling public access: " +:+ str e)) ;;
       mret false).

End PublicAccess.
End AuroraPublicAccess.

(** ** What a trace shows *)

(** The value of a keyword argument of an SDK call. *)
Definition api_arg (key : string) (ev : effect) : option string :=
  match ev with
  | Api _ args =>
      match List.find (fun kv => String.eqb (fst kv) key) args with
      | Some kv => Some (snd kv)
      | None => None
      end
  | _ => None
  end.

(** The SQL texts that a trace sent to the database, in order. *)
Fixpoint sql_sent (t : list effect) : list string :=
  match t with
  | [] => []
  | ev :: rest =>
      match (if is_api "execute_statement" ev then api_arg "sql" ev else None) with
      | Some sql => sql :: sql_sent rest
      | None => sql_sent rest
      end
  end.

(** The chat messages that a run of app.py rendered, in order. *)
Fixpoint chat_messages {Float : Type} (t : list (@App.ui_event Float))
  : list App.message :=
  match t with
  | [] => []
  | App.ChatMessage r c :: rest =>
      {| App.role := r; App.content := c |} :: chat_messages rest
  | _ :: rest => chat_messages rest
  end.

(** A history made of turns: a user entry, then an assistant entry. *)
Fixpoint well_paired (ms : list App.message) : bool :=
  match ms with
  | [] => true
  | u :: a :: rest =>
      String.eqb (App.role u) "user" && String.eqb (App.role a) "assistant"
      && well_paired rest
  | _ => false
  end.

(** Whether a run of app.py has an input to answer (line 137). *)
Definition submitted (input : option string) : bool :=
  match input with
  | Some prompt => Py.truthy prompt
  | None => false
  end.

(** ** aurora_public_access.py: the menu *)
Module AuroraPublicAccessMenu.

(** An entry of DBClusters; PubliclyAccessible is an optional key. *)
Record db_cluster : Type := {
  Status : string;
  PubliclyAccessible : option bool
}.

(** [str(b)] of a bool *)
Definition bool_str (b : bool) : string := if b then "True" else "False".

Section Menu.

(** What the two [input] calls return (the choice, then the confirmation of
    the enabling), and what [modify_db_cluster] and [describe_db_clusters]
    reply. *)
Context (choice_line : reply string)
        (confirm_line : reply string)
        (modify_reply : reply unit)
        (describe_reply : reply (list db_cluster)).

(** Lines 91-110 *)
Definition check_current_status : script effect unit :=
  try_except any_Exception
    (clusters ← call (Api "describe_db_clusters"
                        [("DBClusterIdentifier", "my-aurora-serverless")])
                     describe_reply;
     match clusters with
     | [] => raise (Exception "list index out of range")
     | cluster :: _ =>
         let public_access := default false (PubliclyAccessible cluster) in
         let status := Status cluster in
         emit (Print (Py.nl +:+ "📊 Current Aurora Status:")) ;;
         emit (Print ("   Status: " +:+ status)) ;;
         emit (Print ("   Publicly Accessible: " +:+ bool_str public_access)) ;;
         if public_access
         then emit (Print "⚠️  Cluster is currently publicly accessible")
         else emit (Print "🔒 Cluster is in private subnets only")
     end)
    (fun e => emit (Print ("❌ Error checking status: " +:+ str e))).

(** Lines 75-112 *)
Definition main : script effect unit :=
  emit (Print "🎯 Aurora PostgreSQL Public Access Management") ;;
  emit (Print (str_repeat "=" 50)) ;;
  emit (Print "Choose an option:") ;;
  emit (Print "1. Enable public access (temporary)") ;;
  emit (Print "2. Disable public access (secure)") ;;
  emit (Print "3. Check current status") ;;
  line ← call (Input (Py.nl +:+ "Enter choice (1/2/3): ")) choice_line;
  let choice := Py.strip line in
  if String.eqb choice "1" then
    AuroraPublicAccess.enable_aurora_public_access confirm_line modify_reply ;;
    mret tt
  else if String.eqb choice "2" then
    AuroraPublicAccess.disable_aurora_public_access modify_reply ;;
    mret tt
  else if String.eqb choice "3" then
    check_current_status
  else
    emit (Print "❌ Invalid choice").

End Menu.
End AuroraPublicAccessMenu.

(** The operations that a trace called, in order. *)
Fixpoint operations (t : list effect) : list string :=
  match t with
  | [] => []
  | Api op _ :: rest => op :: operations rest
  | _ :: rest => operations rest
  end.

(** ** JSON texts: [json.dumps] *)
Module Json.

Unset Elimination Schemes.
Inductive value : Type :=
| JStr (s : string)
| JBool (b : bool)
| JList (items : list value)
| JObj (members : list (string * value)).
Set Elimination Schemes.

Definition hex_digit (n : nat) : ascii :=
  List.nth n (list_ascii_of_string "0123456789abcdef") "0"%char.

Definition backslash : string := String (ascii_of_nat 92) EmptyString.

(** How [json.dumps] writes an ASCII character inside a string: the
    quote, the backslash and what is not printable are escaped. *)
Definition escape_char (c : ascii) : string :=
  let n := nat_of_ascii c in
  if (n =? 34)%nat then backslash +:+ Py.dq
  else if (n =? 92)%nat then backslash +:+ backslash
  else if (n =? 10)%nat then backslash +:+ "n"
  else if (n =? 13)%nat then backslash +:+ "r"
  else if (n =? 9)%nat then backslash +:+ "t"
  else if (n =? 8)%nat then backslash +:+ "b"
  else if (n =? 12)%nat then backslash +:+ "f"
  else if ((n <? 32) || (n =? 127))%nat then
    backslash +:+ "u00" +:+ String (hex_digit (n / 16)) (String (hex_digit (n mod 16)) "")
  else String c "".

(** The four hexadecimal digits of a number below 65536. *)
Definition hex4 (n : N) : string :=
  String (hex_digit (N.to_nat (n / 4096)))
    (String (hex_digit (N.to_nat ((n / 256) mod 16)))
       (String (hex_digit (N.to_nat ((n / 16) mod 16)))
          (String (hex_digit (N.to_nat (n mod 16))) ""))).

(** How [json.dumps] writes a character outside ASCII: the escape of its
    code point, and of its two surrogates above U+FFFF. *)
Definition escape_code_point (n : N) : string :=
  if (n <? 65536)%N then backslash +:+ "u" +:+ hex4 n
  else
    let m := (n - 65536)%N in
    backslash +:+ "u" +:+ hex4 (55296 + m / 1024)%N +:+
    backslash +:+ "u" +:+ hex4 (56320 + m mod 1024)%N.

(** The six bits that a continuation byte of UTF-8 carries. *)
Definition low6 (c : ascii) : N := (N_of_ascii c mod 64)%N.

(** The text between the quotes: the bytes of a character outside ASCII
    (two after a byte from C0, three from E0, four from F0) give its code
    point. *)
Fixpoint escape (s : string) : string :=
  match s with
  | EmptyString => ""
  | String c rest =>
      let n := N_of_ascii c in
      if (n <? 192)%N then escape_char c +:+ escape rest
      else
        match rest with
        | String d rest2 =>
            if (n <? 224)%N
            then escape_code_point ((n mod 32) * 64 + low6 d)%N +:+ escape rest2
            else
              match rest2 with
              | String e rest3 =>
                  if (n <? 240)%N
                  then escape_code_point ((n mod 16) * 4096 + low6 d * 64 + low6 e)%N
                       +:+ escape rest3
                  else
                    match rest3 with
                    | String f rest4 =>
                        escape_code_point
                          ((n mod 8) * 262144 + low6 d * 4096 + low6 e * 64 + low6 f)%N
                        +:+ escape rest4
                    | EmptyString => escape_char c +:+ escape rest
                    end
              | EmptyString => escape_char c +:+ escape rest
              end
        | EmptyString => escape_char c +:+ escape rest
        end
  end.

Definition dumps_string (s : string) : string := Py.dq +:+ escape s +:+ Py.dq.

(** [json.dumps(v)] with the default separators. *)
Fixpoint dumps (v : value) : string :=
  match v with
  | JStr s => dumps_string s
  | JBool b => if b then "true" else "false"
  | JList items => "[" +:+ Py.join ", " (List.map dumps items) +:+ "]"
  | JObj members =>
      "{" +:+ Py.join ", "
                (List.map (fun kv => dumps_string (fst kv) +:+ ": " +:+ dumps (snd kv))
                   members)
          +:+ "}"
  end.

End Json.

(** ** setup_opensearch_serverless.py: the policies and the whole setup *)
Module OpenSearchPolicies.
Import Json.

Definition policy_name : string := "machinery-kb".

Definition collection_resource : value :=
  JList [JStr ("collection/" +:+ OpenSearchSetup.collection_name)].

(** Lines 22-30 *)
Definition encryption_policy_document : value :=
  JObj [ ("Rules", JList [ JObj [ ("ResourceType", JStr "collection");
                                  ("Resource", collection_resource) ] ]);
         ("AWSOwnedKey", JBool true) ].

(** Lines 54-68 *)
Definition network_policy_document : value :=
  JList [ JObj [ ("Rules", JList [ JObj [ ("ResourceType", JStr "collection");
                                          ("Resource", collection_resource) ];
                                   JObj [ ("ResourceType", JStr "dashboard");
                                          ("Resource", collection_resource) ] ]);
                 ("AllowFromPublic", JBool true) ] ].

(** Lines 109-137 *)
Definition data_access_policy_document (user_arn : string) : value :=
  JList [ JObj [ ("Rules",
                  JList [ JObj [ ("ResourceType", JStr "collection");
                                 ("Resource", collection_resource);
                                 ("Permission",
                                  JList [ JStr "aoss:CreateCollectionItems";
                                          JStr "aoss:DeleteCollectionItems";
                                          JStr "aoss:UpdateCollectionItems";
                                          JStr "aoss:DescribeCollectionItems" ]) ];
                          JObj [ ("ResourceType", JStr "index");
                                 ("Resource",
                                  JList [JStr ("index/" +:+ OpenSearchSetup.collection_name +:+ "/*")]);
                                 ("Permission",
                                  JList [ JStr "aoss:CreateIndex";
                                          JStr "aoss:DeleteIndex";
                                          JStr "aoss:UpdateIndex";
                                          JStr "aoss:DescribeIndex";
                                          JStr "aoss:ReadDocument";
                                          JStr "aoss:WriteDocument" ]) ] ]);
                 ("Principal", JList [JStr user_arn]) ] ].

(** A reply that leaves a policy in place: it was created, or it was there
    already. *)
Definition in_place (r : reply string) : Prop :=
  (exists name, r = Ok name) \/ (exists text, r = Err (ClientError "ConflictException" text)).

Section Setup.

(** The replies to the two [create_security_policy] calls and to
    [create_access_policy] (the name of the policy created), to
    [get_caller_identity] (the ARN), and those of [create_collection]. *)
Context (encryption_reply : reply string)
        (network_reply : reply string)
        (identity_reply : reply string)
        (access_reply : reply string)
        (create_reply : reply (string * string))
        (batch_get_collection : nat -> reply (list collection_detail))
        (list_reply : reply (list collection_detail)).

(** The [except ClientError] of the three policy functions: a policy that
    exists already is as good as created. *)
Definition policy_handler (exists_text failed_text : string) (e : exn)
  : script effect bool :=
  if String.eqb (error_code e) "ConflictException" then
    emit (Print exists_text) ;; mret true
  else
    emit (Print (failed_text +:+ str e)) ;; mret false.

(** Lines 18-48 *)
Definition create_encryption_policy : script effect bool :=
  emit (Print "🔧 Creating encryption policy...") ;;
  try_except is_ClientError
    (name ← call (Api "create_security_policy"
                    [("name", policy_name +:+ "-encryption"); ("type", "encryption");
                     ("policy", dumps encryption_policy_document);
                     ("description",
                      "Encryption policy for heavy machinery knowledge base collection")])
                 encryption_reply;
     emit (Print ("✅ Created encryption policy: " +:+ name)) ;;
     mret true)
    (policy_handler "ℹ️ Encryption policy already exists"
                    "❌ Error creating encryption policy: ").

(** Lines 50-86 *)
Definition create_network_policy : script effect bool :=
  emit (Print "🔧 Creating network policy...") ;;
  try_except is_ClientError
    (name ← call (Api "create_security_policy"
                    [("name", policy_name +:+ "-network"); ("type", "network");
                     ("policy", dumps network_policy_document);
                     ("description",
                      "Network policy for heavy machinery knowledge base collection")])
                 network_reply;
     emit (Print ("✅ Created network policy: " +:+ name)) ;;
     mret true)
    (policy_handler "ℹ️ Network policy already exists"
                    "❌ Error creating network policy: ").

(** Lines 88-96 *)
Definition get_current_user_arn : script effect (option string) :=
  try_except any_Exception
    (arn ← call (Api "get_caller_identity" []) identity_reply;
     mret (Some arn))
    (fun e =>
       emit (Print ("❌ Error getting user ARN: " +:+ str e)) ;;
       mret None).

(** Lines 98-155; [if not user_arn] turns down [None] and the empty
    string. *)
Definition create_data_access_policy : script effect bool :=
  emit (Print "🔧 Creating data access policy...") ;;
  found ← get_current_user_arn;
  match found with
  | Some user_arn =>
      if Py.truthy user_arn then
        emit (Print ("   Using principal: " +:+ user_arn)) ;;
        try_except is_ClientError
          (name ← call (Api "create_access_policy"
                          [("name", policy_name +:+ "-access"); ("type", "data");
                           ("policy", dumps (data_access_policy_document user_arn));
                           ("description",
                            "Data access policy for heavy machinery knowledge base collection")])
                       access_reply;
           emit (Print ("✅ Created data access policy: " +:+ name)) ;;
           mret true)
          (policy_handler "ℹ️ Data access policy already exists"
                          "❌ Error creating data access policy: ")
      else
        emit (Print "❌ Cannot create data access policy without user ARN") ;;
        mret false
  | None =>
      emit (Print "❌ Cannot create data access policy without user ARN") ;;
      mret false
  end.

(** Lines 230-266 *)
Definition setup_complete_opensearch
  : script effect (option OpenSearchSetup.collection_info) :=
  emit (Print "🚀 Setting up OpenSearch Serverless for Bedrock Knowledge Base") ;;
  emit (Print (str_repeat "=" 70)) ;;
  encrypted ← create_encryption_policy;
  if negb encrypted then mret None else
  networked ← create_network_policy;
  if negb networked then mret None else
  granted ← create_data_access_policy;
  if negb granted then mret None else
  emit (Print "⏳ Waiting for policies to propagate...") ;;
  emit (Sleep 10) ;;
  collection_info ← OpenSearchSetup.create_collection
                      create_reply batch_get_collection list_reply;
  match collection_info with
  | Some info =>
      emit (Print (Py.nl +:+ str_repeat "=" 70)) ;;
      emit (Print "🎉 OpenSearch Serverless Setup Complete!") ;;
      emit (Print (str_repeat "=" 70)) ;;
      emit (Print ("Collection Name: " +:+ OpenSearchSetup.collection_name)) ;;
      emit (Print ("Collection ID: " +:+ OpenSearchSetup.collection_id info)) ;;
      emit (Print ("Collection ARN: " +:+ OpenSearchSetup.collection_arn info)) ;;
      emit (Print ("Endpoint: " +:+ OpenSearchSetup.endpoint info)) ;;
      mret (Some info)
  | None =>
      emit (Print "❌ OpenSearch setup failed") ;;
      mret None
  end.

(** Lines 268-276 *)
Definition main : script effect unit :=
  collection_info ← setup_complete_opensearch;
  match collection_info with
  | Some info =>
      emit (Print (Py.nl +:+ "✅ Ready to create Bedrock Knowledge Base!")) ;;
      emit (Print ("Use collection ARN: " +:+ OpenSearchSetup.collection_arn info))
  | None =>
      emit (Print (Py.nl +:+ "❌ Setup failed. Please check the errors above."))
  end.

End Setup.
End OpenSearchPolicies.

(** ** run_database_setup.py *)
Module RunDatabaseSetup.

(** The effects of this script: those of the other scripts, and the print
    that ends its text with something else than a newline. *)
Inductive event : Type :=
| Eff (e : effect)
| PrintEnd (text ending : string).             (* print(text, end=ending) *)

Definition say (text : string) : script event unit := emit (Eff (Print text)).

(** The effects of a trace that the other scripts have as well. *)
Fixpoint effects (t : list event) : list effect :=
  match t with
  | [] => []
  | Eff e :: rest => e :: effects rest
  | PrintEnd _ _ :: rest => effects rest
  end.

(** [s.split(sep)[-1]] for a separator of one character: what follows the
    last separator, the whole string when there is none. *)
Fixpoint last_field_from (sep : ascii) (field s : string) : string :=
  match s with
  | EmptyString => field
  | String c rest =>
      if Ascii.eqb c sep then last_field_from sep "" rest
      else last_field_from sep (field +:+ String c "") rest
  end.

Definition last_field (sep : ascii) (s : string) : string := last_field_from sep "" s.

(** A reply to [execute_statement]: the rows under records, each as Python
    prints it, and the value under numberOfRecordsUpdated; both keys are
    optional. *)
Record response : Type := {
  records : option (list string);
  numberOfRecordsUpdated : option nat
}.

(** An entry of DBClusters as lines 54-64 read it; DatabaseName is an
    optional key. *)
Record db_cluster : Type := {
  DBClusterIdentifier : string;
  Status : string;
  Engine : string;
  EngineVersion : string;
  Endpoint : string;
  Port : Z;
  DatabaseName : option string
}.

Definition cluster_arn : string :=
  "arn:aws:rds:us-west-2:133720367604:cluster:my-aurora-serverless".
Definition secret_arn : string :=
  "arn:aws:secretsmanager:us-west-2:133720367604:secret:my-aurora-serverless-1NyjuJ".

(** Lines 152-166 *)
Definition setup_commands : list string :=
  [ "CREATE EXTENSION IF NOT EXISTS vector;";
    "CREATE SCHEMA IF NOT EXISTS bedrock_integration;";
    "DO $$ BEGIN CREATE ROLE bedrock_user LOGIN; EXCEPTION WHEN duplicate_object THEN RAISE NOTICE 'Role already exists'; END $$;";
    "GRANT ALL ON SCHEMA bedrock_integration TO bedrock_user;";
    "ALTER ROLE bedrock_user PASSWORD 'BedrockUser2024!';";
    "CREATE TABLE IF NOT EXISTS bedrock_integration.bedrock_kb (
            id uuid PRIMARY KEY DEFAULT gen_random_uuid(),
            embedding vector(1536),
            chunks text,
            metadata json
        );";
    "CREATE INDEX IF NOT EXISTS bedrock_kb_embedding_idx ON bedrock_integration.bedrock_kb USING hnsw (embedding vector_cosine_ops);";
    "GRANT ALL ON TABLE bedrock_integration.bedrock_kb TO bedrock_user;" ].

(** Lines 168-171 *)
Definition verification_queries : list string :=
  [ "SELECT * FROM pg_extension WHERE extname = 'vector';";
    "SELECT table_schema || '.' || table_name as show_tables FROM information_schema.tables WHERE table_type = 'BASE TABLE' AND table_schema = 'bedrock_integration';" ].

(** Lines 85-110 *)
Definition manual_commands : list string :=
  [ "-- Step 1: Enable vector extension";
    "CREATE EXTENSION IF NOT EXISTS vector;";
    "";
    "-- Step 2: Create schema";
    "CREATE SCHEMA IF NOT EXISTS bedrock_integration;";
    "";
    "-- Step 3: Create user";
    "DO $$ BEGIN CREATE ROLE bedrock_user LOGIN; EXCEPTION WHEN duplicate_object THEN RAISE NOTICE 'Role exists'; END $$;";
    "";
    "-- Step 4: Set permissions";
    "GRANT ALL ON SCHEMA bedrock_integration TO bedrock_user;";
    "ALTER ROLE bedrock_user PASSWORD 'BedrockUser2024!';";
    "";
    "-- Step 5: Create vector table";
    "CREATE TABLE IF NOT EXISTS bedrock_integration.bedrock_kb (";
    "    id uuid PRIMARY KEY DEFAULT gen_random_uuid(),";
    "    embedding vector(1536),";
    "    chunks text,";
    "    metadata json";
    ");";
    "";
    "-- Step 6: Create indexes";
    "CREATE INDEX IF NOT EXISTS bedrock_kb_embedding_idx ON bedrock_integration.bedrock_kb USING hnsw (embedding vector_cosine_ops);";
    "GRANT ALL ON TABLE bedrock_integration.bedrock_kb TO bedrock_user;" ].

(** Lines 116-130 *)
Definition manual_verification_queries : list string :=
  [ "-- Check if vector extension is installed";
    "SELECT * FROM pg_extension WHERE extname = 'vector';";
    "";
    "-- Check bedrock_integration tables";
    "SELECT table_schema || '.' || table_name as show_tables";
    "FROM information_schema.tables";
    "WHERE table_type = 'BASE TABLE' AND table_schema = 'bedrock_integration';";
    "";
    "-- Check all extensions";
    "SELECT * FROM pg_extension;";
    "";
    "-- Check database version";
    "SELECT version();" ].

(** Lines 71-138 *)
Definition show_manual_execution_steps : script event unit :=
  say (Py.nl +:+ str_repeat "=" 80) ;;
  say "📋 MANUAL DATABASE SETUP STEPS" ;;
  say (str_repeat "=" 80) ;;
  say (Py.nl +:+ "1️⃣ **Access AWS RDS Query Editor:**") ;;
  say "   • Open AWS Console: https://console.aws.amazon.com/rds/" ;;
  say "   • Navigate to: Databases > my-aurora-serverless" ;;
  say "   • Click: 'Query Editor' tab" ;;
  say "   • Connect using database credentials" ;;
  say (Py.nl +:+ "2️⃣ **Run Setup Commands (Copy & Paste):**") ;;
  for_each manual_commands (fun cmd => say ("   " +:+ cmd)) ;;
  say (Py.nl +:+ "3️⃣ **Verification Queries:**") ;;
  for_each manual_verification_queries (fun query => say ("   " +:+ query)) ;;
  say (Py.nl +:+ "4️⃣ **Expected Results:**") ;;
  say "   • Vector extension should be listed in pg_extension" ;;
  say "   • bedrock_integration.bedrock_kb table should exist" ;;
  say "   • No errors during table/index creation".

Section Setup.

(** The reply of the database to the n-th [execute_statement] of the run,
    n from 0; what [e.response['Error']['Message']] holds for an error; and
    the reply to [describe_db_clusters]. *)
Context (execute_statement : nat -> string -> reply response)
        (error_message : exn -> string)
        (describe_reply : reply (list db_cluster)).

(** Lines 31-32, from the i-th row on *)
Fixpoint print_rows (i : nat) (rows : list string) : script event unit :=
  match rows with
  | [] => mret tt
  | record :: rest =>
      say ("   Row " +:+ pretty (i + 1) +:+ ": " +:+ record) ;;
      print_rows (S i) rest
  end.

(** Lines 10-43; [n] is the number of statements executed before. *)
Definition execute_sql_with_data_api (n : nat) (sql_statement cluster_arn secret_arn : string)
  : script event (bool * (response + string)) :=
  try_except is_ClientError
    (say ("🔄 Executing: " +:+ sql_statement) ;;
     response ← call (Eff (Api "execute_statement"
                             [("resourceArn", cluster_arn); ("secretArn", secret_arn);
                              ("database", "myapp"); ("sql", sql_statement);
                              ("includeResultMetadata", "True")]))
                     (execute_statement n sql_statement);
     say "✅ Success!" ;;
     match records response with
     | Some (record :: rest) =>
         say "📊 Results:" ;;
         print_rows 0 (record :: rest)
     | _ => mret tt
     end ;;
     match numberOfRecordsUpdated response with
     | Some updated => say ("📈 Records affected: " +:+ pretty updated)
     | None => mret tt
     end ;;
     mret (true, inl response))
    (fun e =>
       say ("❌ Error (" +:+ error_code e +:+ "): " +:+ error_message e) ;;
       mret (false, inr (str e))).

(** Lines 59-64 *)
Definition print_cluster (cluster : db_cluster) : script event unit :=
  say ("   - " +:+ DBClusterIdentifier cluster) ;;
  say ("     Status: " +:+ Status cluster) ;;
  say ("     Engine: " +:+ Engine cluster +:+ " " +:+ EngineVersion cluster) ;;
  say ("     Endpoint: " +:+ Endpoint cluster) ;;
  say ("     Port: " +:+ pretty (Port cluster)) ;;
  say ("     Database: " +:+ default "N/A" (DatabaseName cluster)).

(** Lines 45-69 *)
Definition try_alternative_connection : script event unit :=
  say (Py.nl +:+ "🔄 Trying alternative approaches...") ;;
  try_except is_ClientError
    (clusters ← call (Eff (Api "describe_db_clusters" [])) describe_reply;
     let aurora_clusters :=
       List.filter (fun c => Py.str_in "aurora" (DBClusterIdentifier c)) clusters in
     match aurora_clusters with
     | [] => say "❌ No Aurora clusters found"
     | _ :: _ =>
         say "✅ Found Aurora clusters:" ;;
         for_each aurora_clusters print_cluster
     end)
    (fun e => say ("❌ Cannot access RDS service: " +:+ str e)).

(** The loop of lines 179-184, from the i-th command on (i from 0), of
    [total] commands. *)
Fixpoint run_setup_commands (i total : nat) (commands : list string) (success_count : nat)
  : script event nat :=
  match commands with
  | [] => mret success_count
  | cmd :: rest =>
      emit (PrintEnd (Py.nl +:+ "[" +:+ pretty (i + 1) +:+ "/" +:+ pretty total +:+ "]") " ") ;;
      '(success, _) ← execute_sql_with_data_api i cmd cluster_arn secret_arn;
      let success_count := if success : bool then success_count + 1 else success_count in
      emit (Eff (Sleep 1)) ;;
      run_setup_commands (S i) total rest success_count
  end.

(** The loop of lines 192-194, from the i-th query on (i from 0), after
    [n] statements of the run. *)
Fixpoint run_verification_queries (i n : nat) (queries : list string) : script event unit :=
  match queries with
  | [] => mret tt
  | query :: rest =>
      emit (PrintEnd (Py.nl +:+ "[Verification " +:+ pretty (i + 1) +:+ "]") " ") ;;
      execute_sql_with_data_api n query cluster_arn secret_arn ;;
      run_verification_queries (S i) (S n) rest
  end.

(** Lines 140-208 *)
Definition main : script event unit :=
  say "🚀 Enhanced Aurora PostgreSQL Database Setup" ;;
  say (str_repeat "=" 60) ;;
  say "🎯 Target Aurora Cluster: my-aurora-serverless" ;;
  say ("🔐 Using Secret: " +:+ last_field "/" secret_arn) ;;
  say (Py.nl +:+ "📋 Setup Commands (" +:+ pretty (length setup_commands) +:+ " commands):") ;;
  say (str_repeat "-" 50) ;;
  success_count ← run_setup_commands 0 (length setup_commands) setup_commands 0;
  say (Py.nl +:+ "📊 Setup Summary: " +:+ pretty success_count +:+ "/" +:+
       pretty (length setup_commands) +:+ " commands executed successfully") ;;
  (if (0 <? success_count)%nat then
     say (Py.nl +:+ "🔍 Running Verification Queries:") ;;
     say (str_repeat "-" 40) ;;
     run_verification_queries 0 (length setup_commands) verification_queries
   else
     say (Py.nl +:+ "⚠️  Database setup via RDS Data API failed") ;;
     try_alternative_connection) ;;
  show_manual_execution_steps ;;
  say (Py.nl +:+ str_repeat "=" 80) ;;
  say "✅ NEXT STEPS" ;;
  say (str_repeat "=" 80) ;;
  say "1. If automated setup failed, use AWS RDS Query Editor (manual steps above)" ;;
  say "2. Run verification queries to confirm setup" ;;
  say "3. Database will be ready for Bedrock Knowledge Base integration" ;;
  say "4. Use Aurora PostgreSQL as vector store for Knowledge Base".

(** The commands of a list that the database accepts, the first of them
    being the i-th statement of the run. *)
Fixpoint accepted (i : nat) (commands : list string) : nat :=
  match commands with
  | [] => 0
  | cmd :: rest =>
      (match execute_statement i cmd with Ok _ => 1 | Err _ => 0 end) + accepted (S i) rest
  end.

End Setup.
End RunDatabaseSetup.

(** ** create_knowledge_base_opensearch.py: the whole creation *)
Module BedrockKnowledgeBaseCreator.
Import Json.

(** The effects of this script: those of the other scripts, an SDK
    operation whose keyword arguments are nested dictionaries, and the
    reading and the writing of a file. *)
Inductive event : Type :=
| Eff (e : effect)
| Request (operation : string) (kwargs : list (string * value))
| ReadFile (path : string)                   (* open(path, 'r') and f.read() *)
| WriteFile (path content : string).         (* open(path, 'w') and f.write(content) *)

Definition say (text : string) : script event unit := emit (Eff (Print text)).

(** A script of the other kind, run inside this one. *)
Definition lift {A} (m : script effect A) : script event A :=
  (List.map Eff (trace m), result m).

(** The SDK operations that a trace called, in order. *)
Fixpoint called (t : list event) : list string :=
  match t with
  | [] => []
  | Eff (Api op _) :: rest => op :: called rest
  | Request op _ :: rest => op :: called rest
  | _ :: rest => called rest
  end.

(** The texts that a trace handed to a write of a file, in order, whether
    the write went through or raised. *)
Fixpoint handed_to_write (path : string) (t : list event) : list string :=
  match t with
  | [] => []
  | WriteFile p content :: rest =>
      if String.eqb p path then content :: handed_to_write path rest
      else handed_to_write path rest
  | _ :: rest => handed_to_write path rest
  end.

(** [s.replace(old, new)] for a non-empty [old]: the occurrences of [old]
    are replaced from the left, without overlap.  [skip] characters of an
    occurrence are still to be passed over. *)
Fixpoint replace_from (skip : nat) (old new s : string) : string :=
  match s with
  | EmptyString => EmptyString
  | String c rest =>
      match skip with
      | S skip' => replace_from skip' old new rest
      | 0 =>
          if String.prefix old s
          then new +:+ replace_from (String.length old - 1) old new rest
          else String c (replace_from 0 old new rest)
      end
  end.

Definition str_replace (old new s : string) : string := replace_from 0 old new s.

(** Lines 14-25 *)
Definition region : string := "us-west-2".
Definition kb_name : string := "heavy-machinery-knowledge-base".
Definition collection_name : string := "heavy-machinery-kb".
Definition s3_bucket : string := "my-bedrock-knowledge-base-bucket-udacity".
Definition data_source_name : string := "heavy-machinery-docs".

(** Lines 32-43 *)
Definition kb_trust_policy : value :=
  JObj [ ("Version", JStr "2012-10-17");
         ("Statement",
          JList [ JObj [ ("Effect", JStr "Allow");
                         ("Principal", JObj [("Service", JStr "bedrock.amazonaws.com")]);
                         ("Action", JStr "sts:AssumeRole") ] ]) ].

(** Lines 45-76 *)
Definition kb_policy : value :=
  JObj [ ("Version", JStr "2012-10-17");
         ("Statement",
          JList [ JObj [ ("Effect", JStr "Allow");
                         ("Action", JList [ JStr "bedrock:InvokeModel";
                                            JStr "bedrock:Retrieve";
                                            JStr "bedrock:RetrieveAndGenerate" ]);
                         ("Resource", JStr "*") ];
                  JObj [ ("Effect", JStr "Allow");
                         ("Action", JList [ JStr "aoss:APIAccessAll" ]);
                         ("Resource", JStr ("arn:aws:aoss:" +:+ region +:+ ":*:collection/*")) ];
                  JObj [ ("Effect", JStr "Allow");
                         ("Action", JList [ JStr "s3:GetObject"; JStr "s3:ListBucket" ]);
                         ("Resource", JList [ JStr ("arn:aws:s3:::" +:+ s3_bucket);
                                              JStr ("arn:aws:s3:::" +:+ s3_bucket +:+ "/*") ]) ] ]) ].

(** The dictionaries that the steps hand on. *)
Record roles : Type := { kb_role_arn : string }.
Record kb_info : Type := { kb_id : string; kb_arn : string }.
Record ds_info : Type := { ds_id : string }.

(** Lines 141-163 *)
Definition kb_config (given : roles) (collection_info : OpenSearchSetup.collection_info)
  : list (string * value) :=
  [ ("name", JStr kb_name);
    ("description", JStr "Knowledge base for heavy machinery technical documentation");
    ("roleArn", JStr (kb_role_arn given));
    ("knowledgeBaseConfiguration",
     JObj [ ("type", JStr "VECTOR");
            ("vectorKnowledgeBaseConfiguration",
             JObj [ ("embeddingModelArn",
                     JStr ("arn:aws:bedrock:" +:+ region +:+
                           "::foundation-model/amazon.titan-embed-text-v1")) ]) ]);
    ("storageConfiguration",
     JObj [ ("type", JStr "OPENSEARCH_SERVERLESS");
            ("opensearchServerlessConfiguration",
             JObj [ ("collectionArn", JStr (OpenSearchSetup.collection_arn collection_info));
                    ("vectorIndexName", JStr "bedrock-knowledge-base-default-index");
                    ("fieldMapping",
                     JObj [ ("vectorField", JStr "bedrock-knowledge-base-default-vector");
                            ("textField", JStr "AMAZON_BEDROCK_TEXT_CHUNK");
                            ("metadataField", JStr "AMAZON_BEDROCK_METADATA") ]) ]) ]) ].

(** Lines 187-197 *)
Definition ds_config (kb_id : string) : list (string * value) :=
  [ ("knowledgeBaseId", JStr kb_id);
    ("name", JStr data_source_name);
    ("description", JStr "Heavy machinery specification documents from S3");
    ("dataSourceConfiguration",
     JObj [ ("s3Configuration",
             JObj [ ("bucketArn", JStr ("arn:aws:s3:::" +:+ s3_bucket));
                    ("inclusionPrefixes", JList [ JStr "spec-sheets/" ]) ]) ]) ].

(** The text that line 308 looks for in app.py, and what replaces it. *)
Definition config_marker : string :=
  "KNOWLEDGE_BASE_ID = " +:+ Py.dq +:+ "YOUR_KB_ID_HERE" +:+ Py.dq.
Definition config_line (kb_id : string) : string :=
  "KNOWLEDGE_BASE_ID = " +:+ Py.dq +:+ kb_id +:+ Py.dq.

Section Creation.

(** The replies to [create_role] and [get_role] (the ARN of the role), to
    [put_role_policy], to [list_collections], to [create_knowledge_base]
    (identifier and ARN), to [create_data_source] (the identifier), to
    [start_ingestion_job] and to the n-th [get_ingestion_job]; what reading
    app.py gives and how writing it ends; [polls] bounds how many polls of
    the ingestion are observed. *)
Context (create_role_reply : reply string)
        (get_role_reply : reply string)
        (put_role_policy_reply : reply unit)
        (list_reply : reply (list collection_detail))
        (create_kb_reply : reply (string * string))
        (create_ds_reply : reply string)
        (start_reply : reply string)
        (get_ingestion_job : nat -> reply KbOpenSearch.ingestion_job)
        (read_reply : reply string)
        (write_reply : reply unit)
        (polls : nat).

(** Lines 27-109 *)
Definition create_iam_roles : script event (option roles) :=
  say "🔧 Creating IAM roles..." ;;
  try_except any_Exception
    (let kb_role_name := kb_name +:+ "-service-role" in
     kb_role_arn ←
       try_except is_ClientError
         (arn ← call (Eff (Api "create_role"
                             [("RoleName", kb_role_name);
                              ("AssumeRolePolicyDocument", dumps kb_trust_policy);
                              ("Description", "Service role for Bedrock Knowledge Base")]))
                     create_role_reply;
          say ("✅ Created Knowledge Base role: " +:+ arn) ;;
          mret arn)
         (fun e =>
            if String.eqb (error_code e) "EntityAlreadyExists" then
              arn ← call (Eff (Api "get_role" [("RoleName", kb_role_name)])) get_role_reply;
              say ("ℹ️ Using existing Knowledge Base role: " +:+ arn) ;;
              mret arn
            else raise e);
     call (Eff (Api "put_role_policy"
                  [("RoleName", kb_role_name);
                   ("PolicyName", kb_name +:+ "-policy");
                   ("PolicyDocument", dumps kb_policy)]))
          put_role_policy_reply ;;
     mret (Some {| kb_role_arn := kb_role_arn |}))
    (fun e =>
       say ("❌ Error creating IAM roles: " +:+ str e) ;;
       mret None).

(** Lines 111-133 *)
Definition get_existing_collection : script event (option OpenSearchSetup.collection_info) :=
  say "🔧 Using existing OpenSearch Serverless collection..." ;;
  try_except any_Exception
    (collections ← call (Eff (Api "list_collections" [])) list_reply;
     match List.find (fun c => String.eqb (col_name c) collection_name) collections with
     | Some collection =>
         say ("✅ Found existing collection: " +:+ col_id collection) ;;
         say ("   ARN: " +:+ col_arn collection) ;;
         mret (Some {| OpenSearchSetup.collection_id := col_id collection;
                       OpenSearchSetup.collection_arn := col_arn collection;
                       OpenSearchSetup.endpoint := default "" (col_endpoint collection) |})
     | None =>
         say ("❌ Collection " +:+ collection_name +:+ " not found") ;;
         mret None
     end)
    (fun e =>
       say ("❌ Error getting existing collection: " +:+ str e) ;;
       mret None).

(** Lines 135-180 *)
Definition create_knowledge_base (given : roles)
    (collection_info : OpenSearchSetup.collection_info) : script event (option kb_info) :=
  say "🔧 Creating Bedrock Knowledge Base..." ;;
  try_except any_Exception
    ('(kb_id, kb_arn) ← call (Request "create_knowledge_base" (kb_config given collection_info))
                             create_kb_reply;
     say ("✅ Created Knowledge Base: " +:+ kb_id) ;;
     say ("   ARN: " +:+ kb_arn) ;;
     mret (Some {| kb_id := kb_id; kb_arn := kb_arn |}))
    (fun e =>
       say ("❌ Error creating Knowledge Base: " +:+ str e) ;;
       mret None).

(** Lines 182-211 *)
Definition create_data_source (kb_id : string) (given : roles) : script event (option ds_info) :=
  say "🔧 Creating data source..." ;;
  try_except any_Exception
    (ds_id ← call (Request "create_data_source" (ds_config kb_id)) create_ds_reply;
     say ("✅ Created data source: " +:+ ds_id) ;;
     mret (Some {| ds_id := ds_id |}))
    (fun e =>
       say ("❌ Error creating data source: " +:+ str e) ;;
       mret None).

(** Lines 297-320 *)
Definition update_app_config (kb_id : string) : script event unit :=
  say "🔧 Updating app.py configuration..." ;;
  try_except any_Exception
    (content ← call (ReadFile "app.py") read_reply;
     let updated_content := str_replace config_marker (config_line kb_id) content in
     call (WriteFile "app.py" updated_content) write_reply ;;
     say ("✅ Updated app.py with Knowledge Base ID: " +:+ kb_id))
    (fun e =>
       say ("⚠️ Could not update app.py automatically: " +:+ str e) ;;
       say ("Please manually update KNOWLEDGE_BASE_ID to: " +:+ kb_id)).

(** Lines 255-295 *)
Definition create_complete_knowledge_base : script event bool :=
  say "🚀 Creating Bedrock Knowledge Base with OpenSearch Serverless" ;;
  say (str_repeat "=" 70) ;;
  made_roles ← create_iam_roles;
  match made_roles with
  | None => mret false
  | Some given =>
      found ← get_existing_collection;
      match found with
      | None => mret false
      | Some collection_info =>
          made_kb ← create_knowledge_base given collection_info;
          match made_kb with
          | None => mret false
          | Some kb =>
              made_ds ← create_data_source (kb_id kb) given;
              match made_ds with
              | None => mret false
              | Some ds =>
                  lift (KbOpenSearch.start_ingestion start_reply get_ingestion_job
                          (kb_id kb) (ds_id ds) polls) ;;
                  say (Py.nl +:+ str_repeat "=" 70) ;;
                  say "🎉 Knowledge Base Creation Summary" ;;
                  say (str_repeat "=" 70) ;;
                  say ("Knowledge Base ID: " +:+ kb_id kb) ;;
                  say ("Knowledge Base ARN: " +:+ kb_arn kb) ;;
                  say ("Collection ID: " +:+ OpenSearchSetup.collection_id collection_info) ;;
                  say ("Data Source ID: " +:+ ds_id ds) ;;
                  say ("S3 Bucket: " +:+ s3_bucket) ;;
                  update_app_config (kb_id kb) ;;
                  mret true
              end
          end
      end
  end.

(** Lines 322-330 *)
Definition main : script event unit :=
  success ← create_complete_knowledge_base;
  if success : bool then
    say (Py.nl +:+ "🎉 Knowledge Base created successfully!") ;;
    say "🔥 You can now run: streamlit run app.py"
  else
    say (Py.nl +:+ "❌ Knowledge Base creation failed. Please check the errors above.").

End Creation.
End BedrockKnowledgeBaseCreator.

(** ** enable_aurora_public.py and disable_aurora_public.py *)
Module AuroraPublicScripts.
Section Scripts.

(** What [modify_db_cluster] replies: the status of the cluster. *)
Context (modify_reply : reply string).

(** enable_aurora_public.py, lines 9-42 *)
Definition enable_public_access : script effect bool :=
  emit (Print "🔧 Enabling Public Access for Aurora PostgreSQL") ;;
  emit (Print (str_repeat "=" 50)) ;;
  try_except any_Exception
    (emit (Print "🔄 Modifying Aurora cluster to enable public access...") ;;
     emit (Print "⚠️  This will temporarily make your Aurora cluster publicly accessible!") ;;
     status ← call (Api "modify_db_cluster" (AuroraPublicAccess.modify_args "True"))
                   modify_reply;
     emit (Print "✅ Aurora cluster modification initiated!") ;;
     emit (Print ("   Status: " +:+ status)) ;;
     emit (Print "⏳ Modification will take 5-10 minutes to complete.") ;;
     emit (Print (Py.nl +:+ "🔥 Once modification is complete, you can connect directly using:")) ;;
     emit (Print "   python aurora_cmd_direct.py") ;;
     emit (Print (Py.nl +:+ "🔒 IMPORTANT: After database setup, disable public access with:")) ;;
     emit (Print "   python aurora_disable_public.py") ;;
     mret true)
    (fun e =>
       emit (Print ("❌ Error enabling public access: " +:+ str e)) ;;
       mret false).

(** disable_aurora_public.py, lines 9-35 *)
Definition disable_public_access : script effect bool :=
  emit (Print "🔒 Disabling Public Access for Aurora PostgreSQL") ;;
  emit (Print (str_repeat "=" 50)) ;;
  try_except any_Exception
    (emit (Print "🔄 Modifying Aurora cluster to disable public access...") ;;
     status ← call (Api "modify_db_cluster" (AuroraPublicAccess.modify_args "False"))
                   modify_reply;
     emit (Print "✅ Aurora cluster public access disabled!") ;;
     emit (Print ("   Status: " +:+ status)) ;;
     emit (Print "🔒 Your database is now secure in private subnets only.") ;;
     mret true)
    (fun e =>
       emit (Print ("❌ Error disabling public access: " +:+ str e)) ;;
       mret false).

End Scripts.
End AuroraPublicScripts.

(** ** Sample runs *)
Module Samples.
Import App.

Definition haiku : string := "anthropic.claude-3-haiku-20240307-v1:0".

Definition bd850 : kb_result := {| content_text := "BD850 Bulldozer: 850HP" |}.

(** Replies of a healthy deployment. *)
Definition accepting : @bedrock_utils Q := {|
  valid_prompt := fun _ _ => Ok true;
  query_knowledge_base := fun _ _ => Ok [bd850];
  generate_response := fun _ _ _ _ => Ok "The BD850 delivers 850HP."
|}.

(** The validation turns the input down. *)
Definition rejecting : @bedrock_utils Q := {|
  valid_prompt := fun _ _ => Ok false;
  query_knowledge_base := fun _ _ => Ok [bd850];
  generate_response := fun _ _ _ _ => Ok "The BD850 delivers 850HP."
|}.

(** The retrieval raises [e]. *)
Definition failing (e : exn) : @bedrock_utils Q := {|
  valid_prompt := fun _ _ => Ok true;
  query_knowledge_base := fun _ _ => Err e;
  generate_response := fun _ _ _ _ => Ok "The BD850 delivers 850HP."
|}.

Definition kb_cfg : @config Q := {|
  kb_id := "ABCD1234EF"; model_id := haiku;
  temperature := 1%Q; top_p := 1%Q; aws_available := true
|}.

Definition demo_cfg : @config Q := {|
  kb_id := "your-knowledge-base-id"; model_id := haiku;
  temperature := 1%Q; top_p := 1%Q; aws_available := true
|}.


Definition missing_kb : exn :=
  ClientError "ResourceNotFoundException"
    "An error occurred (ResourceNotFoundException) when calling the Retrieve operation: Knowledge base ABCD1234EF not found".

(** An interpreter with the third-party packages installed. *)
Definition site_packages : module_env :=
  <[ "streamlit" :=
       {| location := "/usr/lib/python3/site-packages/streamlit/__init__.py";
          names := ∅ |} ]>
  (<[ "boto3" :=
        {| location := "/usr/lib/python3/site-packages/boto3/__init__.py";
           names := ∅ |} ]>
  (<[ "botocore" :=
        {| location := "/usr/lib/python3/site-packages/botocore/__init__.py";
           names := ∅ |} ]>
  (<[ "botocore.exceptions" :=
        {| location := "/usr/lib/python3/site-packages/botocore/exceptions.py";
           names := {[ "ClientError"; "NoCredentialsError" ]} |} ]>
  (<[ "json" :=
        {| location := "/usr/lib/python3.11/json/__init__.py"; names := ∅ |} ]> ∅)))).

Definition creating : collection_detail := {|
  col_id := "abc123"; col_name := "heavy-machinery-kb";
  col_arn := "arn:aws:aoss:us-west-2:133720367604:collection/abc123";
  col_status := "CREATING"; col_endpoint := None
|}.

(** An ingestion job that is in progress at the first two polls. *)
Definition in_progress_twice_then (last : string) : nat -> reply string :=
  fun n => if (n <? 2)%nat then Ok "IN_PROGRESS" else Ok last.

(** A job and a collection that never leave their first status. *)
Definition always_in_progress : nat -> reply string := fun _ => Ok "IN_PROGRESS".

Definition always_ingesting : nat -> reply KbOpenSearch.ingestion_job :=
  fun _ => Ok {| KbOpenSearch.status := "IN_PROGRESS";
                 KbOpenSearch.failure_reasons := "[]" |}.

Definition always_creating : nat -> reply (list collection_detail) :=
  fun _ => Ok [creating].

(** A database where the role of the third statement is there already. *)
Definition role_exists : nat -> string -> reply (option nat) :=
  fun i _ =>
    if (i =? 2)%nat then Err (Exception "ERROR: role bedrock_user already exists")
    else Ok (Some 0).

(** A database that refuses the fourth statement. *)
Definition grant_denied : nat -> string -> reply (option nat) :=
  fun i _ =>
    if (i =? 3)%nat then Err (Exception "ERROR: permission denied for schema bedrock_integration")
    else Ok (Some 0).

Definition machinery_pdfs : CheckIngestion.data_source := {|
  CheckIngestion.ds_name := "heavy-machinery-docs";
  CheckIngestion.ds_status := "AVAILABLE";
  CheckIngestion.dataSourceId := "DS1"
|}.

Definition running_job : CheckIngestion.job_summary := {|
  CheckIngestion.ingestionJobId := "JOB1";
  CheckIngestion.job_status := "IN_PROGRESS";
  CheckIngestion.startedAt := Some "2025-01-01 10:00:00";
  CheckIngestion.updatedAt := None
|}.

(** An ingestion whose second poll is throttled. *)
Definition throttled_at_second_poll : nat -> reply string :=
  fun n => if (n =? 0)%nat then Ok "IN_PROGRESS"
           else Err (ClientError "ThrottlingException" "Rate exceeded").

(** An ingestion whose second poll loses the connection. *)
Definition ingestion_poll_breaks : nat -> reply KbOpenSearch.ingestion_job :=
  fun n => if (n =? 0)%nat
           then Ok {| KbOpenSearch.status := "IN_PROGRESS";
                      KbOpenSearch.failure_reasons := "[]" |}
           else Err (Exception "Connection reset").

Definition failed : collection_detail := {|
  col_id := "abc123"; col_name := "heavy-machinery-kb";
  col_arn := "arn:aws:aoss:us-west-2:133720367604:collection/abc123";
  col_status := "FAILED"; col_endpoint := None
|}.


Definition other_collection : collection_detail := {|
  col_id := "zzz999"; col_name := "invoices";
  col_arn := "arn:aws:aoss:us-west-2:133720367604:collection/zzz999";
  col_status := "ACTIVE"; col_endpoint := Some "https://zzz999.us-west-2.aoss.amazonaws.com"
|}.

(** A collection that fails after its first poll. *)
Definition creating_then_failed : nat -> reply (list collection_detail) :=
  fun n => if (n =? 0)%nat then Ok [creating] else Ok [failed].

Definition failed_job : CheckIngestion.job_summary := {|
  CheckIngestion.ingestionJobId := "JOB0";
  CheckIngestion.job_status := "FAILED";
  CheckIngestion.startedAt := Some "2024-12-31 09:00:00";
  CheckIngestion.updatedAt := Some "2024-12-31 09:05:00"
|}.

(** The model cannot be reached: the generation raises [e]. *)
Definition unreachable (e : exn) : @bedrock_utils Q := {|
  valid_prompt := fun _ _ => Ok true;
  query_knowledge_base := fun _ _ => Ok [bd850];
  generate_response := fun _ _ _ _ => Err e
|}.

(** A database that turns every statement down. *)
Definition access_denied : nat -> string -> reply RunDatabaseSetup.response :=
  fun _ _ => Err (ClientError "AccessDeniedException"
                    "An error occurred (AccessDeniedException) when calling the ExecuteStatement operation: not authorized").

(** A database behind a client that gives up on the third statement. *)
Definition third_statement_times_out : nat -> string -> reply RunDatabaseSetup.response :=
  fun n _ =>
    if (n =? 2)%nat then Err (Exception "Read timeout on endpoint URL")
    else Ok {| RunDatabaseSetup.records := None;
               RunDatabaseSetup.numberOfRecordsUpdated := Some 0 |}.

Definition aurora_cluster : RunDatabaseSetup.db_cluster := {|
  RunDatabaseSetup.DBClusterIdentifier := "my-aurora-serverless";
  RunDatabaseSetup.Status := "available";
  RunDatabaseSetup.Engine := "aurora-postgresql";
  RunDatabaseSetup.EngineVersion := "15.4";
  RunDatabaseSetup.Endpoint := "my-aurora-serverless.cluster-cu2bffdza994.us-west-2.rds.amazonaws.com";
  RunDatabaseSetup.Port := 5432%Z;
  RunDatabaseSetup.DatabaseName := Some "myapp"
|}.

(** The line of app.py that tells the demo mode (line 75). *)
Definition app_py_line : string :=
  "if kb_id == " +:+ Py.dq +:+ "your-knowledge-base-id" +:+ Py.dq +:+ ":".

(** The collection that create_knowledge_base_opensearch.py looks for. *)
Definition machinery_collection : collection_detail := {|
  col_id := "yrxx5shz6zuntva2zqlf";
  col_name := "heavy-machinery-kb";
  col_arn := "arn:aws:aoss:us-west-2:133720367604:collection/yrxx5shz6zuntva2zqlf";
  col_status := "ACTIVE";
  col_endpoint := None
|}.

(** White space outside ASCII: the no-break space U+00A0 and the
    ideographic space U+3000, in UTF-8. *)
Definition nbsp : string := String (ascii_of_nat 194) (String (ascii_of_nat 160) EmptyString).
Definition ideographic_space : string :=
  String (ascii_of_nat 227) (String (ascii_of_nat 128) (String (ascii_of_nat 128) EmptyString)).

(** An app.py that holds the line that update_app_config looks for. *)
Definition app_py_with_marker : string :=
  "import streamlit as st" +:+ Py.nl +:+
  BedrockKnowledgeBaseCreator.config_marker +:+ Py.nl.

End Samples.

(** * Properties *)

(** ** Strings *)
Module PyFacts.

Lemma prefix_app (m rest : string) : String.prefix m (m +:+ rest) = true.
Proof.
  induction m as [|c m IH]; simpl.
  - now destruct rest.
  - destruct (ascii_dec c c); [assumption | contradiction].
Qed.

Lemma str_in_prefix (m hay : string) :
  String.prefix m hay = true -> Py.str_in m hay = true.
Proof. destruct hay; simpl; intros ->; reflexivity. Qed.

(** A string occurs in every string built around it. *)
Lemma str_in_middle (m before after : string) :
  Py.str_in m (before +:+ m +:+ after) = true.
Proof.
  induction before as [|c before IH].
  - change ("" +:+ m +:+ after) with (m +:+ after).
    apply str_in_prefix, prefix_app.
  - change (String c before +:+ m +:+ after)
      with (String c (before +:+ m +:+ after)).
    simpl. rewrite IH. apply orb_true_r.
Qed.

Lemma truthy_iff (s : string) : Py.truthy s = true <-> s <> "".
Proof.
  unfold Py.truthy. destruct (String.eqb_spec s ""); simpl; split; congruence.
Qed.

End PyFacts.

(** ** Scripts *)
Module ScriptFacts.


Lemma result_bind_return {E A B} (m : script E A) (k : A -> script E B) (a : A) :
  result m = Return a -> result (m ≫= k) = result (k a).
Proof.
  destruct m as [t r]; simpl; intros ->.
  unfold mbind, script_bind, bind. now destruct (k a).
Qed.

Lemma bind_raise {E A B} (m : script E A) (k : A -> script E B) (e : exn) :
  result m = Raise e -> m ≫= k = (trace m, Raise e).
Proof. destruct m as [t r]; simpl; now intros ->. Qed.


Lemma bind_emit {E B} (ev : E) (k : unit -> script E B) :
  emit ev ≫= k = (ev :: trace (k tt), result (k tt)).
Proof. unfold mbind, script_bind, bind, emit. now destruct (k tt). Qed.

Lemma bind_ret {E A B} (a : A) (k : A -> script E B) : mret a ≫= k = k a.
Proof. unfold mbind, mret, script_bind, script_ret, bind, ret. now destruct (k a). Qed.

Lemma bind_call_ok {E A B} (ev : E) (a : A) (k : A -> script E B) :
  call ev (Ok a) ≫= k = (ev :: trace (k a), result (k a)).
Proof. unfold mbind, script_bind, bind, call. now destruct (k a). Qed.



Lemma script_eta {E A} (m : script E A) : m = (trace m, result m).
Proof. now destruct m. Qed.

(** The trace of a sequence: what the first part did, then what the
    second did when the first returned. *)
Lemma trace_bind {E A B} (m : script E A) (k : A -> script E B) :
  trace (m ≫= k) =
    trace m ++ match result m with Return a => trace (k a) | _ => [] end.
Proof.
  destruct m as [t [a|e|]]; unfold mbind, script_bind, bind; simpl.
  - now destruct (k a).
  - now rewrite app_nil_r.
  - now rewrite app_nil_r.
Qed.

Lemma result_bind {E A B} (m : script E A) (k : A -> script E B) :
  result (m ≫= k) =
    match result m with
    | Return a => result (k a)
    | Raise e => Raise e
    | Running => Running
    end.
Proof.
  destruct m as [t [a|e|]]; unfold mbind, script_bind, bind; simpl;
    try reflexivity.
  now destruct (k a).
Qed.

Lemma trace_try_except {E A} (catches : exn -> bool) (body : script E A)
    (handler : exn -> script E A) :
  trace (try_except catches body handler) =
    trace body ++ match result body with
                  | Raise e => if catches e then trace (handler e) else []
                  | _ => []
                  end.
Proof.
  destruct body as [t [a|e|]]; unfold try_except; simpl;
    try now rewrite app_nil_r.
  destruct (catches e); [now destruct (handler e) | simpl; now rewrite app_nil_r].
Qed.

Lemma result_try_except {E A} (catches : exn -> bool) (body : script E A)
    (handler : exn -> script E A) :
  result (try_except catches body handler) =
    match result body with
    | Raise e => if catches e then result (handler e) else Raise e
    | done => done
    end.
Proof.
  destruct body as [t [a|e|]]; unfold try_except; simpl; try reflexivity.
  destruct (catches e); [now destruct (handler e) | reflexivity].
Qed.

End ScriptFacts.

(** Unfolds the combinators of a script whose replies are known. *)
Ltac run_script :=
  unfold mbind, mret, script_bind, script_ret, bind, ret, raise, emit, call,
    try_except, any_Exception, trace, result in *;
  simpl in *.

(** ** app.py *)
Module AppSpec.
Import App.

Section Chat.
Context {Float : Type} (B : @bedrock_utils Float).

Lemma demo_mode_iff (cfg : @config Float) :
  demo_mode cfg = true <-> kb_id cfg = placeholder.
Proof. unfold demo_mode. apply String.eqb_eq. Qed.

Lemma kb_status_iff (cfg : @config Float) :
  kb_status cfg = "Demo Mode" <-> kb_id cfg = placeholder.
Proof.
  unfold kb_status.
  destruct (String.eqb_spec (kb_id cfg) placeholder); simpl; split;
    congruence || discriminate.
Qed.

Lemma sidebar_kb_status_iff (cfg : @config Float) :
  sidebar_kb_status cfg = SidebarInfo "ℹ️ Demo Mode - Create KB in AWS Console" <->
  kb_id cfg = placeholder.
Proof.
  unfold sidebar_kb_status.
  destruct (String.eqb_spec (kb_id cfg) placeholder); split;
    congruence || discriminate.
Qed.

(** The response is always produced: no exception leaves lines
    142-236. *)
Lemma respond_returns (cfg : config) (prompt : string) :
  exists response, result (respond B cfg prompt) = Return response.
Proof.
  unfold respond, demo_try_body, kb_try_body.
  destruct (String.eqb (kb_id cfg) placeholder), (aws_available cfg);
    try (eexists; reflexivity);
    destruct (valid_prompt B prompt (model_id cfg)) as [[|]|e];
    try (eexists; reflexivity).
  - destruct (generate_response B _ _ _ _); eexists; reflexivity.
  - run_script.
    destruct (query_knowledge_base B prompt (kb_id cfg)) as [[|r rs]|e];
      try (eexists; reflexivity).
    destruct (generate_response B _ _ _ _); eexists; reflexivity.
Qed.

(** The knowledge base is never queried while the placeholder is the
    configured identifier. *)
Lemma demo_mode_no_query (cfg : config) (prompt : string) :
  kb_id cfg = placeholder ->
  queries_kb (trace (respond B cfg prompt)) = false.
Proof.
  intros H. unfold respond, demo_try_body.
  apply String.eqb_eq in H. rewrite H.
  destruct (aws_available cfg); [|reflexivity].
  destruct (valid_prompt B prompt (model_id cfg)) as [[|]|e]; try reflexivity.
  destruct (generate_response B _ _ _ _); reflexivity.
Qed.

(** With another identifier and credentials, the query is made when,
    and only when, the validation accepts the input. *)
Lemma kb_mode_query_iff_valid (cfg : config) (prompt : string) :
  kb_id cfg <> placeholder ->
  aws_available cfg = true ->
  (queries_kb (trace (respond B cfg prompt)) = true <->
   valid_prompt B prompt (model_id cfg) = Ok true).
Proof.
  intros Hkb Haws. unfold respond, kb_try_body.
  apply String.eqb_neq in Hkb. rewrite Hkb, Haws.
  destruct (valid_prompt B prompt (model_id cfg)) as [[|]|e];
    try (split; [discriminate | congruence]).
  split; [reflexivity | intros _].
  run_script.
  destruct (query_knowledge_base B prompt (kb_id cfg)) as [[|r rs]|e];
    try reflexivity.
  destruct (generate_response B _ _ _ _); reflexivity.
Qed.

Lemma kb_mode_query_event (cfg : config) (prompt : string) :
  kb_id cfg <> placeholder ->
  aws_available cfg = true ->
  valid_prompt B prompt (model_id cfg) = Ok true ->
  In (CallQueryKB prompt (kb_id cfg)) (trace (respond B cfg prompt)).
Proof.
  intros Hkb Haws Hv. unfold respond, kb_try_body.
  apply String.eqb_neq in Hkb. rewrite Hkb, Haws, Hv.
  run_script.
  destruct (query_knowledge_base B prompt (kb_id cfg)) as [[|r rs]|e];
    simpl; try tauto.
  destruct (generate_response B _ _ _ _); simpl; tauto.
Qed.





Lemma validation_first (cfg : config) (prompt : string) :
  aws_available cfg = true ->
  hd_error (trace (respond B cfg prompt)) =
    Some (CallValidPrompt prompt (model_id cfg)).
Proof.
  intros Haws. unfold respond, demo_try_body, kb_try_body. rewrite Haws.
  destruct (String.eqb (kb_id cfg) placeholder);
    destruct (valid_prompt B prompt (model_id cfg)) as [[|]|e];
    try reflexivity.
  - destruct (generate_response B _ _ _ _); reflexivity.
  - run_script.
    destruct (query_knowledge_base B prompt (kb_id cfg)) as [[|r rs]|e];
      try reflexivity.
    destruct (generate_response B _ _ _ _); reflexivity.
Qed.

(** A turn with a submitted input, in terms of its response. *)
Lemma chat_turn_submitted (cfg : config) (messages : list message)
    (prompt response : string) :
  prompt <> "" ->
  result (respond B cfg prompt) = Return response ->
  chat_turn B cfg messages (Some prompt) =
    (ChatMessage "user" prompt :: trace (respond B cfg prompt)
       ++ [ChatMessage "assistant" response],
     Return (messages ++ [ {| role := "user"; content := prompt |};
                           {| role := "assistant"; content := response |} ])).
Proof.
  intros Hp Hr. unfold chat_turn.
  apply PyFacts.truthy_iff in Hp. rewrite Hp.
  destruct (respond B cfg prompt) as [t r]. simpl in Hr. subst r.
  run_script. now rewrite <- app_assoc.
Qed.

(** C1 (as amended): demo mode is on, and shown as on in the sidebar,
    exactly when the configured identifier is the placeholder; in demo
    mode every input gets its response without a query of the knowledge
    base; with another identifier and credentials the knowledge base is
    queried, with the input and that identifier, exactly when
    [valid_prompt] accepts the input. *)
Theorem demo_mode_dispatch (cfg : config) (prompt : string) :
  (demo_mode cfg = true <-> kb_id cfg = placeholder) /\
  (kb_status cfg = "Demo Mode" <-> kb_id cfg = placeholder) /\
  (sidebar_kb_status cfg = SidebarInfo "ℹ️ Demo Mode - Create KB in AWS Console" <->
   kb_id cfg = placeholder) /\
  (kb_id cfg = placeholder ->
     queries_kb (trace (respond B cfg prompt)) = false /\
     exists response, result (respond B cfg prompt) = Return response) /\
  (kb_id cfg <> placeholder -> aws_available cfg = true ->
     (queries_kb (trace (respond B cfg prompt)) = true <->
      valid_prompt B prompt (model_id cfg) = Ok true) /\
     (valid_prompt B prompt (model_id cfg) = Ok true ->
      In (CallQueryKB prompt (kb_id cfg)) (trace (respond B cfg prompt)))).
Proof.
  split; [apply demo_mode_iff |].
  split; [apply kb_status_iff |].
  split; [apply sidebar_kb_status_iff |].
  split; [intros Hkb; split; [now apply demo_mode_no_query | apply respond_returns] |].
  intros Hkb Haws. split.
  - now apply kb_mode_query_iff_valid.
  - now apply kb_mode_query_event.
Qed.


(** C3: when the knowledge base path raises, the turn still ends with a
    response: the Knowledge Base Not Found message when the error text
    contains NotFound or ResourceNotFound, else the Access Denied message
    when it contains AccessDenied, else the generic message, which
    contains the error text. *)
Theorem kb_error_classification (cfg : config) (prompt : string) (e : exn) :
  kb_id cfg <> placeholder ->
  aws_available cfg = true ->
  result (kb_try_body B cfg prompt) = Raise e ->
  exists response,
    result (respond B cfg prompt) = Return response /\
    (Py.str_in "NotFound" (str e) = true \/
     Py.str_in "ResourceNotFound" (str e) = true ->
     response = kb_not_found_response (kb_id cfg)) /\
    (Py.str_in "NotFound" (str e) = false ->
     Py.str_in "ResourceNotFound" (str e) = false ->
     Py.str_in "AccessDenied" (str e) = true ->
     response = access_denied_response (kb_id cfg)) /\
    (Py.str_in "NotFound" (str e) = false ->
     Py.str_in "ResourceNotFound" (str e) = false ->
     Py.str_in "AccessDenied" (str e) = false ->
     response = kb_generic_error_response (str e) /\
     Py.str_in (str e) response = true).
Proof.
  intros Hkb Haws Hraise.
  exists (kb_error_response (kb_id cfg) e). split.
  - unfold respond. apply String.eqb_neq in Hkb. rewrite Hkb, Haws.
    destruct (kb_try_body B cfg prompt) as [t r]. simpl in Hraise. subst r.
    reflexivity.
  - unfold kb_error_response. repeat split.
    + intros [H|H]; rewrite H; [reflexivity | now rewrite orb_true_r].
    + intros H1 H2 H3. now rewrite H1, H2, H3.
    + now rewrite H, H0, H1.
    + rewrite H, H0, H1. apply PyFacts.str_in_middle.
Qed.

End Chat.

Lemma script_run_result {Float} (B : @bedrock_utils Float) (cfg : config)
    (messages : list message) (input : option string) :
  result (script_run B cfg messages input) = result (chat_turn B cfg messages input).
Proof.
  unfold script_run. now rewrite (ScriptFacts.result_bind_return _ _ tt).
Qed.

(** A run of the script keeps what is in the history and adds at its
    end. *)
Lemma script_run_extends {Float} (B : @bedrock_utils Float) (cfg : config)
    (messages : list message) (input : option string) :
  exists added,
    result (script_run B cfg messages input) = Return (messages ++ added).
Proof.
  rewrite script_run_result.
  destruct input as [prompt|]; [| exists []; simpl; now rewrite app_nil_r].
  destruct (String.eqb_spec prompt "") as [->|Hp].
  - exists []. simpl. now rewrite app_nil_r.
  - destruct (respond_returns B cfg prompt) as [response Hr].
    rewrite (chat_turn_submitted B cfg messages prompt response Hp Hr).
    eexists. reflexivity.
Qed.

Lemma session_extends {Float}
    (runs : list (@bedrock_utils Float * config * option string))
    (messages : list message) :
  exists later, session messages runs = Return (messages ++ later).
Proof.
  revert messages. induction runs as [|[[B cfg] input] runs IH]; intros messages.
  - exists []. simpl. now rewrite app_nil_r.
  - simpl. destruct (script_run_extends B cfg messages input) as [added ->].
    destruct (IH (messages ++ added)) as [later ->].
    exists (added ++ later). now rewrite app_assoc.
Qed.

(** C7: a submitted input appends exactly two entries to the history,
    the user entry with the input and then the assistant entry with the
    response of the turn; and whatever runs follow, the entries of the
    history stay as they are, at the front of the later history. *)
Theorem history_append_only {Float} (B : @bedrock_utils Float) (cfg : config)
    (messages : list message) (prompt : string) :
  prompt <> "" ->
  (exists response,
     result (respond B cfg prompt) = Return response /\
     result (script_run B cfg messages (Some prompt)) =
       Return (messages ++ [ {| role := "user"; content := prompt |};
                             {| role := "assistant"; content := response |} ])) /\
  (forall runs : list (@bedrock_utils Float * config * option string),
     exists later, session messages runs = Return (messages ++ later)).
Proof.
  intros Hp. split.
  - destruct (respond_returns B cfg prompt) as [response Hr].
    exists response. split; [exact Hr |].
    rewrite script_run_result.
    now rewrite (chat_turn_submitted B cfg messages prompt response Hp Hr).
  - intros runs. apply session_extends.
Qed.

Lemma bedrock_utils_not_in_repo : ~ In "bedrock_utils.py" repo_sources.
Proof.
  unfold repo_sources. intros H.
  repeat (destruct H as [H|H]; [discriminate H |]). exact H.
Qed.

(** Without the module, the imports raise an import error. *)
(** An import goes through or raises an ImportError. *)
Lemma exec_import_outcome (env : module_env) (i : import_stmt) :
  result (exec_import env i) = Return tt \/
  exists e, result (exec_import env i) = Raise e /\ is_ImportError e = true.
Proof.
  destruct i as [m|m wanted]; unfold exec_import.
  - destruct (missing env m); [right; eexists; split; reflexivity | now left].
  - destruct (missing env m); [right; eexists; split; reflexivity |].
    destruct (env !! m) as [found|]; [| right; eexists; split; reflexivity].
    destruct (List.find _ wanted); [right; eexists; split; reflexivity | now left].
Qed.

Lemma imports_fail (env : module_env) :
  env !! "bedrock_utils" = None ->
  exists e, result (exec_imports env app_imports) = Raise e /\
            is_ImportError e = true.
Proof.
  intros H. unfold app_imports. cbn [exec_imports].
  do 4
    (rewrite ScriptFacts.result_bind;
     match goal with
     | |- context [result (exec_import env ?i)] =>
         destruct (exec_import_outcome env i) as [-> | (e & -> & He)];
         [| now exists e]
     end).
  rewrite ScriptFacts.result_bind.
  unfold exec_import, missing.
  change (dotted_prefixes "" "bedrock_utils") with ["bedrock_utils"].
  cbn [List.find]. rewrite H. eexists. split; reflexivity.
Qed.

(** C8: no file of the repository is bedrock_utils.py; when the module
    cannot be imported, loading app.py raises an import error and nothing
    below the imports runs; and every response that needs credentials,
    that is every response but the two fixed texts, starts with a call of
    [valid_prompt], one of the three imported functions. *)
Theorem bedrock_utils_dependency :
  ~ In "bedrock_utils.py" repo_sources /\
  (forall (env : module_env) (A : Type) (rest : script string A),
     env !! "bedrock_utils" = None ->
     exists e,
       result (load_app env rest) = Raise e /\
       is_ImportError e = true /\
       trace (load_app env rest) = trace (exec_imports env app_imports)) /\
  (forall (Float : Type) (B : @bedrock_utils Float) (cfg : config) (prompt : string),
     (aws_available cfg = true ->
      hd_error (trace (respond B cfg prompt)) =
        Some (CallValidPrompt prompt (model_id cfg))) /\
     (aws_available cfg = false ->
      respond B cfg prompt =
        ([], Return (if demo_mode cfg then offline_demo_response prompt
                     else aws_required_response (kb_id cfg))))).
Proof.
  split; [exact bedrock_utils_not_in_repo |]. split.
  - intros env A rest H.
    destruct (imports_fail env H) as [e [He Hi]].
    exists e. unfold load_app.
    rewrite (ScriptFacts.bind_raise _ _ e He). repeat split; assumption.
  - intros Float B cfg prompt. split.
    + apply validation_first.
    + intros H. unfold respond, demo_mode. rewrite H.
      now destruct (String.eqb (kb_id cfg) placeholder).
Qed.

(** *** The theorems at sample runs *)

Lemma demo_mode_dispatch_witness :
  queries_kb (trace (respond Samples.accepting Samples.demo_cfg
                       "Tell me about the BD850 bulldozer specifications")) = false /\
  In (CallQueryKB "Tell me about the BD850 bulldozer specifications" "ABCD1234EF")
     (trace (respond Samples.accepting Samples.kb_cfg
               "Tell me about the BD850 bulldozer specifications")).
Proof.
  split.
  - apply (demo_mode_dispatch Samples.accepting Samples.demo_cfg
             "Tell me about the BD850 bulldozer specifications"). reflexivity.
  - apply (demo_mode_dispatch Samples.accepting Samples.kb_cfg);
      [discriminate | reflexivity | reflexivity].
Defined.

(** C1 as it stands fails: with another identifier and credentials, an
    input that the validation turns down is answered without a query of
    the knowledge base. *)
Lemma rejected_input_skips_retrieval :
  kb_id Samples.kb_cfg <> placeholder /\
  aws_available Samples.kb_cfg = true /\
  queries_kb (trace (respond Samples.rejecting Samples.kb_cfg
                       "What is the capital of France?")) = false /\
  result (respond Samples.rejecting Samples.kb_cfg
            "What is the capital of France?") = Return invalid_query_response.
Proof. repeat split; try reflexivity. discriminate. Qed.



Lemma kb_error_classification_witness :
  kb_id Samples.kb_cfg <> placeholder /\
  aws_available Samples.kb_cfg = true /\
  result (kb_try_body (Samples.failing Samples.missing_kb) Samples.kb_cfg
            "Tell me about the BD850") = Raise Samples.missing_kb /\
  result (respond (Samples.failing Samples.missing_kb) Samples.kb_cfg
            "Tell me about the BD850") = Return (kb_not_found_response "ABCD1234EF").
Proof.
  assert (Hkb : kb_id Samples.kb_cfg <> placeholder) by discriminate.
  destruct (kb_error_classification (Samples.failing Samples.missing_kb)
              Samples.kb_cfg "Tell me about the BD850" Samples.missing_kb
              Hkb eq_refl eq_refl) as [response [Hr [Hnf _]]].
  split; [exact Hkb |]. split; [reflexivity |]. split; [reflexivity |].
  rewrite Hr. f_equal. apply Hnf. left. reflexivity.
Defined.

Lemma history_append_only_witness :
  "Tell me about the BD850" <> "" /\
  result (script_run Samples.accepting Samples.demo_cfg
            [ {| role := "user"; content := "hello" |};
              {| role := "assistant"; content := off_topic_response |} ]
            (Some "Tell me about the BD850")) =
    Return [ {| role := "user"; content := "hello" |};
             {| role := "assistant"; content := off_topic_response |};
             {| role := "user"; content := "Tell me about the BD850" |};
             {| role := "assistant"; content := "The BD850 delivers 850HP." |} ].
Proof.
  assert (Hp : "Tell me about the BD850" <> "") by discriminate.
  split; [exact Hp |].
  destruct (history_append_only Samples.accepting Samples.demo_cfg
              [ {| role := "user"; content := "hello" |};
                {| role := "assistant"; content := off_topic_response |} ]
              "Tell me about the BD850" Hp) as [[response [Hr Hrun]] _].
  rewrite Hrun. vm_compute in Hr. injection Hr as <-. reflexivity.
Defined.

Lemma bedrock_utils_dependency_witness :
  Samples.site_packages !! "bedrock_utils" = None /\
  result (load_app Samples.site_packages (emit "st.title")) =
    Raise (ModuleNotFoundError "No module named 'bedrock_utils'") /\
  trace (load_app Samples.site_packages (emit "st.title")) =
    ["streamlit"; "boto3"; "botocore.exceptions"; "json"].
Proof.
  assert (H : Samples.site_packages !! "bedrock_utils" = None) by (vm_compute; reflexivity).
  destruct bedrock_utils_dependency as [_ [Hload _]].
  destruct (Hload Samples.site_packages unit (emit "st.title") H) as [e [He [_ Ht]]].
  split; [exact H |]. split.
  - vm_compute. reflexivity.
  - rewrite Ht. vm_compute. reflexivity.
Defined.

End AppSpec.

(** ** Traces of the administrative scripts *)
Module TraceFacts.

Lemma sleeps_app (a b : list effect) : sleeps (a ++ b) = sleeps a ++ sleeps b.
Proof.
  induction a as [|ev a IH]; [reflexivity |].
  destruct ev; simpl; now rewrite IH.
Qed.

Lemma api_calls_app (op : string) (a b : list effect) :
  api_calls op (a ++ b) = api_calls op a + api_calls op b.
Proof. unfold api_calls. now rewrite List.filter_app, length_app. Qed.

Lemma api_calls_cons (op : string) (ev : effect) (t : list effect) :
  api_calls op (ev :: t) = (if is_api op ev then 1 else 0) + api_calls op t.
Proof. unfold api_calls. simpl. now destruct (is_api op ev). Qed.

Lemma repeat_snoc {A} (x : A) (n : nat) : repeat x n ++ [x] = repeat x (S n).
Proof. induction n as [|n IH]; simpl; [reflexivity | now rewrite IH]. Qed.

End TraceFacts.

(** ** create_knowledge_base_guide.py *)
Module GuideSpec.
Import Guide.

Section Monitor.
Context (start_reply : reply string) (get_ingestion_job : nat -> reply string)
        (kb ds job : string).

Local Abbreviation monitor := (Guide.monitor get_ingestion_job kb ds job).
Local Abbreviation poll :=
  (Api "get_ingestion_job" (job_args kb ds ++ [("ingestionJobId", job)])).

(** A poll that returns a terminal status ends the loop. *)
Lemma monitor_terminal (polls n : nat) (status : string) :
  get_ingestion_job n = Ok status ->
  status = "COMPLETE" \/ status = "FAILED" ->
  exists farewell,
    monitor (S polls) n =
      ([poll; Print ("   Status: " +:+ status); Print farewell], Return tt).
Proof.
  intros Hget [-> | ->]; simpl; rewrite Hget; eexists; reflexivity.
Qed.

(** A poll that returns another status is followed by a sleep of 30
    seconds and by the next poll. *)
Lemma monitor_pending (polls n : nat) (status : string) :
  get_ingestion_job n = Ok status ->
  status <> "COMPLETE" -> status <> "FAILED" ->
  monitor (S polls) n =
    (poll :: Print ("   Status: " +:+ status) :: Sleep 30
       :: trace (monitor polls (S n)),
     result (monitor polls (S n))).
Proof.
  intros Hget H1 H2. simpl. rewrite Hget.
  apply String.eqb_neq in H1, H2.
  run_script. rewrite H1, H2.
  now destruct (Guide.monitor _ _ _ _ polls (S n)).
Qed.

(** After [k] polls that return no terminal status the loop is where it
    started, [k] polls and [k] sleeps of 30 seconds later. *)
Lemma monitor_pending_prefix (k polls n : nat) :
  (forall i, i < k -> exists s,
      get_ingestion_job (n + i) = Ok s /\ s <> "COMPLETE" /\ s <> "FAILED") ->
  exists pre,
    monitor (k + polls) n = (pre ++ trace (monitor polls (n + k)),
                             result (monitor polls (n + k))) /\
    sleeps pre = repeat 30 k /\
    api_calls "get_ingestion_job" pre = k.
Proof.
  revert n. induction k as [|k IH]; intros n Hpending.
  - exists []. rewrite Nat.add_0_r. simpl.
    repeat split. apply ScriptFacts.script_eta.
  - destruct (Hpending 0 ltac:(lia)) as [s [Hs [H1 H2]]].
    rewrite Nat.add_0_r in Hs.
    destruct (IH (S n)) as [pre [Hrun [Hsl Hcalls]]].
    { intros i Hi. destruct (Hpending (S i) ltac:(lia)) as [s' Hs'].
      exists s'. now replace (S n + i) with (n + S i) by lia. }
    exists (poll :: Print ("   Status: " +:+ s) :: Sleep 30 :: pre).
    change (S k + polls) with (S (k + polls)).
    rewrite (monitor_pending _ _ s Hs H1 H2), Hrun.
    replace (S n + k) with (n + S k) by lia.
    repeat split.
    + simpl. now rewrite Hsl.
    + rewrite !TraceFacts.api_calls_cons, Hcalls. reflexivity.
Qed.

Lemma monitor_sleeps_30 (polls n : nat) :
  Forall (eq 30) (sleeps (trace (monitor polls n))).
Proof.
  revert n. induction polls as [|polls IH]; intros n; [constructor |].
  simpl. destruct (get_ingestion_job n) as [status|e]; [| constructor].
  run_script.
  destruct (String.eqb status "COMPLETE"); [constructor |].
  destruct (String.eqb status "FAILED"); [constructor |].
  specialize (IH (S n)).
  destruct (Guide.monitor _ _ _ _ polls (S n)). simpl.
  constructor; [reflexivity | exact IH].
Qed.

(** C4: after [k] polls with a non-terminal status, the loop has left
    at the next poll exactly when that poll returns COMPLETE or FAILED;
    with any other status it is still running, it has slept 30 seconds
    after every poll, and it calls the status operation again. *)
Theorem monitor_exits_iff_terminal (k : nat) (status : string) :
  (forall i, i < k -> exists s,
      get_ingestion_job i = Ok s /\ s <> "COMPLETE" /\ s <> "FAILED") ->
  get_ingestion_job k = Ok status ->
  let run := monitor (S k) 0 in
  (result run = Return tt <-> (status = "COMPLETE" \/ status = "FAILED")) /\
  api_calls "get_ingestion_job" (trace run) = S k /\
  (status = "COMPLETE" \/ status = "FAILED" ->
     sleeps (trace run) = repeat 30 k) /\
  (status <> "COMPLETE" -> status <> "FAILED" ->
     result run = Running /\
     sleeps (trace run) = repeat 30 (S k) /\
     api_calls "get_ingestion_job" (trace (monitor (S (S k)) 0)) = S (S k)).
Proof.
  intros Hpending Hget run.
  destruct (monitor_pending_prefix k 1 0 Hpending) as [pre [Hrun [Hsl Hcalls]]].
  replace (k + 1) with (S k) in Hrun by lia. change (0 + k) with k in Hrun.
  destruct (monitor_pending_prefix k 2 0 Hpending) as [pre2 [Hrun2 [_ Hcalls2]]].
  replace (k + 2) with (S (S k)) in Hrun2 by lia. change (0 + k) with k in Hrun2.
  destruct (String.eqb_spec status "COMPLETE") as [Hc|Hc];
    [| destruct (String.eqb_spec status "FAILED") as [Hf|Hf]].
  - destruct (monitor_terminal 0 k status Hget (or_introl Hc)) as [bye Hlast].
    subst run. rewrite Hrun, Hlast. simpl.
    rewrite TraceFacts.sleeps_app, TraceFacts.api_calls_app, Hsl, Hcalls. simpl.
    repeat split; try tauto; try (unfold api_calls; simpl; lia);
      try (now rewrite app_nil_r).
  - destruct (monitor_terminal 0 k status Hget (or_intror Hf)) as [bye Hlast].
    subst run. rewrite Hrun, Hlast. simpl.
    rewrite TraceFacts.sleeps_app, TraceFacts.api_calls_app, Hsl, Hcalls. simpl.
    repeat split; try tauto; try (unfold api_calls; simpl; lia);
      try (now rewrite app_nil_r).
  - assert (Hnext : api_calls "get_ingestion_job"
                      (trace (Guide.monitor get_ingestion_job kb ds job 1 (S k))) = 1).
    { simpl. now destruct (get_ingestion_job (S k)) as [s|e];
        [run_script; destruct (String.eqb s "COMPLETE");
           [| destruct (String.eqb s "FAILED")] |]. }
    subst run. rewrite Hrun, Hrun2.
    rewrite (monitor_pending 1 k status Hget Hc Hf).
    rewrite (monitor_pending 0 k status Hget Hc Hf).
    remember (Guide.monitor get_ingestion_job kb ds job 1 (S k)) as next.
    simpl.
    rewrite !TraceFacts.sleeps_app, !TraceFacts.api_calls_app, Hsl, Hcalls, Hcalls2.
    split; [split; [discriminate | intros [H|H]; contradiction] |].
    split; [unfold api_calls; simpl; lia |].
    split; [intros [H|H]; contradiction |].
    intros _ _. split; [reflexivity |].
    split; [apply TraceFacts.repeat_snoc |].
    rewrite !TraceFacts.api_calls_cons, Hnext. simpl. lia.
Qed.

End Monitor.
End GuideSpec.

Lemma monitor_exits_iff_terminal_witness :
  result (Guide.monitor (Samples.in_progress_twice_then "COMPLETE")
            "KB1" "DS1" "JOB1" 3 0) = Return tt /\
  sleeps (trace (Guide.monitor (Samples.in_progress_twice_then "COMPLETE")
                   "KB1" "DS1" "JOB1" 3 0)) = [30; 30] /\
  result (Guide.monitor (Samples.in_progress_twice_then "STARTING")
            "KB1" "DS1" "JOB1" 3 0) = Running.
Proof.
  assert (Hpending : forall last i, i < 2 -> exists s,
            Samples.in_progress_twice_then last i = Ok s /\
            s <> "COMPLETE" /\ s <> "FAILED").
  { intros last i Hi. exists "IN_PROGRESS".
    destruct i as [|[|i]]; [| | lia]; repeat split; discriminate. }
  destruct (GuideSpec.monitor_exits_iff_terminal
              (Samples.in_progress_twice_then "COMPLETE") "KB1" "DS1" "JOB1"
              2 "COMPLETE" (Hpending "COMPLETE") eq_refl)
    as [Hexit [_ [Hsleeps _]]].
  destruct (GuideSpec.monitor_exits_iff_terminal
              (Samples.in_progress_twice_then "STARTING") "KB1" "DS1" "JOB1"
              2 "STARTING" (Hpending "STARTING") eq_refl)
    as [_ [_ [_ Hrunning]]].
  split; [apply Hexit; now left |].
  split; [apply Hsleeps; now left |].
  apply Hrunning; discriminate.
Defined.

(** ** The polling loops *)
Module PollingSpec.

Lemma guide_monitor_keeps_polling (get : nat -> reply string) (kb ds job : string)
    (polls n : nat) :
  (forall i, exists s, get i = Ok s /\ s <> "COMPLETE" /\ s <> "FAILED") ->
  result (Guide.monitor get kb ds job polls n) = Running /\
  api_calls "get_ingestion_job" (trace (Guide.monitor get kb ds job polls n)) = polls.
Proof.
  intros Hpending.
  destruct (GuideSpec.monitor_pending_prefix get kb ds job polls 0 n)
    as [pre [Hrun [_ Hcalls]]].
  { intros i _. apply Hpending. }
  rewrite Nat.add_0_r in Hrun. rewrite Hrun. simpl.
  now rewrite app_nil_r.
Qed.

Section KbOpenSearchLoop.
Context (get : nat -> reply KbOpenSearch.ingestion_job) (kb ds job : string).

Lemma kbos_monitor_sleeps (polls n : nat) :
  Forall (eq 30) (sleeps (trace (KbOpenSearch.monitor get kb ds job polls n))).
Proof.
  revert n. induction polls as [|polls IH]; intros n; [constructor |].
  simpl. destruct (get n) as [j|e]; [| constructor].
  run_script.
  destruct (String.eqb (KbOpenSearch.status j) "COMPLETE"); [constructor |].
  destruct (String.eqb (KbOpenSearch.status j) "FAILED"); [constructor |].
  specialize (IH (S n)).
  destruct (KbOpenSearch.monitor _ _ _ _ polls (S n)). simpl.
  constructor; [reflexivity | exact IH].
Qed.

Lemma kbos_monitor_keeps_polling (polls n : nat) :
  (forall i, exists j, get i = Ok j /\
      KbOpenSearch.status j <> "COMPLETE" /\ KbOpenSearch.status j <> "FAILED") ->
  result (KbOpenSearch.monitor get kb ds job polls n) = Running /\
  api_calls "get_ingestion_job"
    (trace (KbOpenSearch.monitor get kb ds job polls n)) = polls.
Proof.
  intros Hpending. revert n.
  induction polls as [|polls IH]; intros n; [split; reflexivity |].
  destruct (Hpending n) as [j [Hj [H1 H2]]].
  apply String.eqb_neq in H1, H2.
  specialize (IH (S n)). simpl. rewrite Hj. run_script. rewrite H1, H2.
  destruct (KbOpenSearch.monitor _ _ _ _ polls (S n)) as [t r].
  simpl in *. destruct IH as [-> Hcalls].
  split; [reflexivity |].
  rewrite !TraceFacts.api_calls_cons. simpl. now rewrite Hcalls.
Qed.

End KbOpenSearchLoop.

Section CreateKbLoop.
Context (batch_get_collection : nat -> reply (list collection_detail))
        (collection_id : string).

Lemma createkb_wait_sleeps (polls n : nat) :
  Forall (eq 10)
    (sleeps (trace (CreateKb.wait_active batch_get_collection collection_id polls n))).
Proof.
  revert n. induction polls as [|polls IH]; intros n; [constructor |].
  simpl. destruct (batch_get_collection n) as [[|d rest]|e]; try constructor.
  run_script.
  destruct (String.eqb (col_status d) "ACTIVE"); [constructor |].
  destruct (String.eqb (col_status d) "FAILED"); [constructor |].
  specialize (IH (S n)).
  destruct (CreateKb.wait_active _ _ polls (S n)). simpl.
  constructor; [reflexivity | exact IH].
Qed.

Lemma createkb_wait_keeps_polling (polls n : nat) :
  (forall i, exists d rest, batch_get_collection i = Ok (d :: rest) /\
      col_status d <> "ACTIVE" /\ col_status d <> "FAILED") ->
  result (CreateKb.wait_active batch_get_collection collection_id polls n) = Running /\
  api_calls "batch_get_collection"
    (trace (CreateKb.wait_active batch_get_collection collection_id polls n)) = polls.
Proof.
  intros Hpending. revert n.
  induction polls as [|polls IH]; intros n; [split; reflexivity |].
  destruct (Hpending n) as [d [rest [Hd [H1 H2]]]].
  apply String.eqb_neq in H1, H2.
  specialize (IH (S n)). simpl. rewrite Hd. run_script. rewrite H1, H2.
  destruct (CreateKb.wait_active _ _ polls (S n)) as [t r].
  simpl in *. destruct IH as [-> Hcalls].
  split; [reflexivity |].
  rewrite !TraceFacts.api_calls_cons. simpl. now rewrite Hcalls.
Qed.

End CreateKbLoop.

Section OpenSearchSetupLoop.
Context (batch_get_collection : nat -> reply (list collection_detail))
        (id arn : string).

Local Abbreviation poll_once := (OpenSearchSetup.poll_once batch_get_collection id arn).
Local Abbreviation wait_active := (OpenSearchSetup.wait_active batch_get_collection id arn).

(** A turn of the loop makes one poll, sleeps 30 seconds at most once, and
    never raises. *)
Lemma oss_poll_once_shape (attempt : nat) :
  exists t r,
    poll_once attempt = (t, Return r) /\
    api_calls "batch_get_collection" t = 1 /\
    Forall (eq 30) (sleeps t).
Proof.
  unfold OpenSearchSetup.poll_once.
  destruct (batch_get_collection attempt) as [[|d rest]|e]; run_script.
  - do 2 eexists. repeat split. repeat constructor.
  - destruct (String.eqb (col_status d) "ACTIVE").
    + destruct (col_endpoint d); do 2 eexists; repeat split; repeat constructor.
    + destruct (String.eqb (col_status d) "FAILED");
        do 2 eexists; repeat split; repeat constructor.
  - do 2 eexists. repeat split. repeat constructor.
Qed.

Lemma oss_poll_once_pending (attempt : nat) (d : collection_detail)
    (rest : list collection_detail) :
  batch_get_collection attempt = Ok (d :: rest) ->
  col_status d <> "ACTIVE" -> col_status d <> "FAILED" ->
  poll_once attempt =
    ([Api "batch_get_collection" [("ids", id)];
      Print ("   Collection status: " +:+ col_status d); Sleep 30], Return None).
Proof.
  intros Hd H1 H2. apply String.eqb_neq in H1, H2.
  unfold OpenSearchSetup.poll_once. rewrite Hd. run_script. now rewrite H1, H2.
Qed.

(** The loop makes at most [remaining] polls and then is over. *)
Lemma oss_wait_bounded (remaining attempt : nat) :
  api_calls "batch_get_collection" (trace (wait_active remaining attempt)) <= remaining /\
  result (wait_active remaining attempt) <> Running /\
  Forall (eq 30) (sleeps (trace (wait_active remaining attempt))).
Proof.
  revert attempt. induction remaining as [|remaining IH]; intros attempt.
  - simpl. repeat split; [unfold api_calls; simpl; lia | discriminate | constructor].
  - destruct (oss_poll_once_shape attempt) as [t [r [Hpoll [Hcalls Hsl]]]].
    cbn [OpenSearchSetup.wait_active]. rewrite Hpoll.
    destruct r as [info|].
    + run_script. rewrite app_nil_r.
      repeat split; [unfold api_calls in *; lia | discriminate | exact Hsl].
    + specialize (IH (S attempt)).
      destruct (OpenSearchSetup.wait_active _ _ _ remaining (S attempt)) as [t' r'].
      run_script. destruct IH as [IHc [IHr IHs]].
      rewrite TraceFacts.api_calls_app, TraceFacts.sleeps_app.
      repeat split; [lia | exact IHr | now apply Forall_app].
Qed.

(** While no poll returns a terminal status, the loop gives up after
    [remaining] polls. *)
Lemma oss_wait_gives_up (remaining attempt : nat) :
  (forall i, i < remaining -> exists d rest,
      batch_get_collection (attempt + i) = Ok (d :: rest) /\
      col_status d <> "ACTIVE" /\ col_status d <> "FAILED") ->
  result (wait_active remaining attempt) =
    Raise (Exception "Collection did not become active within expected time") /\
  api_calls "batch_get_collection" (trace (wait_active remaining attempt)) = remaining /\
  sleeps (trace (wait_active remaining attempt)) = repeat 30 remaining.
Proof.
  revert attempt. induction remaining as [|remaining IH]; intros attempt Hpending.
  - repeat split.
  - destruct (Hpending 0 ltac:(lia)) as [d [rest [Hd [H1 H2]]]].
    rewrite Nat.add_0_r in Hd.
    destruct (IH (S attempt)) as [Hr [Hc Hs]].
    { intros i Hi. destruct (Hpending (S i) ltac:(lia)) as [d' [rest' H']].
      exists d', rest'. now replace (S attempt + i) with (attempt + S i) by lia. }
    cbn [OpenSearchSetup.wait_active].
    rewrite (oss_poll_once_pending attempt d rest Hd H1 H2).
    destruct (OpenSearchSetup.wait_active _ _ _ remaining (S attempt)) as [t' r'].
    run_script. subst r'. repeat split.
    + rewrite !TraceFacts.api_calls_cons. simpl. now rewrite Hc.
    + now rewrite Hs.
Qed.

End OpenSearchSetupLoop.

Lemma rhythm_app (op : string) (a b : list effect) :
  rhythm op (a ++ b) = rhythm op a ++ rhythm op b.
Proof.
  induction a as [|ev a IH]; [reflexivity |].
  destruct ev as [text|s|p|o args]; simpl; try exact IH; [now rewrite IH |].
  destruct (String.eqb o op); simpl; now rewrite IH.
Qed.

(** The loop of create_knowledge_base_guide.py: a poll that does not end it
    is followed by a sleep of 30 seconds, and nothing else sleeps. *)
Lemma guide_monitor_rhythm (get : nat -> reply string) (kb ds job : string) :
  forall polls n,
  exists k,
    (result (Guide.monitor get kb ds job polls n) = Running /\ k = polls /\
     rhythm "get_ingestion_job" (trace (Guide.monitor get kb ds job polls n)) =
       poll_and_sleep 30 k) \/
    (result (Guide.monitor get kb ds job polls n) <> Running /\ k < polls /\
     rhythm "get_ingestion_job" (trace (Guide.monitor get kb ds job polls n)) =
       poll_and_sleep 30 k ++ [None]).
Proof.
  induction polls as [|polls IH]; intros n; [exists 0; left; now repeat split |].
  simpl. destruct (get n) as [status|e].
  2:{ exists 0. right. run_script. repeat split; [discriminate | lia]. }
  run_script.
  destruct (String.eqb status "COMPLETE");
    [exists 0; right; simpl; repeat split; [discriminate | lia] |].
  destruct (String.eqb status "FAILED");
    [exists 0; right; simpl; repeat split; [discriminate | lia] |].
  destruct (IH (S n)) as [k Hk].
  destruct (Guide.monitor get kb ds job polls (S n)) as [t r]. simpl in *.
  exists (S k). destruct Hk as [(Hr & -> & Ht) | (Hr & Hlt & Ht)]; [left | right];
    rewrite Ht; repeat split; try assumption; lia.
Qed.

(** The loop of create_knowledge_base_opensearch.py, likewise. *)
Lemma kbos_monitor_rhythm (get : nat -> reply KbOpenSearch.ingestion_job)
    (kb ds job : string) :
  forall polls n,
  exists k,
    (result (KbOpenSearch.monitor get kb ds job polls n) = Running /\ k = polls /\
     rhythm "get_ingestion_job" (trace (KbOpenSearch.monitor get kb ds job polls n)) =
       poll_and_sleep 30 k) \/
    (result (KbOpenSearch.monitor get kb ds job polls n) <> Running /\ k < polls /\
     rhythm "get_ingestion_job" (trace (KbOpenSearch.monitor get kb ds job polls n)) =
       poll_and_sleep 30 k ++ [None]).
Proof.
  induction polls as [|polls IH]; intros n; [exists 0; left; now repeat split |].
  simpl. destruct (get n) as [j|e].
  2:{ exists 0. right. run_script. repeat split; [discriminate | lia]. }
  run_script.
  destruct (String.eqb (KbOpenSearch.status j) "COMPLETE");
    [exists 0; right; simpl; repeat split; [discriminate | lia] |].
  destruct (String.eqb (KbOpenSearch.status j) "FAILED");
    [exists 0; right; simpl; repeat split; [discriminate | lia] |].
  destruct (IH (S n)) as [k Hk].
  destruct (KbOpenSearch.monitor get kb ds job polls (S n)) as [t r]. simpl in *.
  exists (S k). destruct Hk as [(Hr & -> & Ht) | (Hr & Hlt & Ht)]; [left | right];
    rewrite Ht; repeat split; try assumption; lia.
Qed.

(** The loop of create_knowledge_base.py: the sleep is of 10 seconds. *)
Lemma createkb_wait_rhythm (get : nat -> reply (list collection_detail)) (id : string) :
  forall polls n,
  exists k,
    (result (CreateKb.wait_active get id polls n) = Running /\ k = polls /\
     rhythm "batch_get_collection" (trace (CreateKb.wait_active get id polls n)) =
       poll_and_sleep 10 k) \/
    (result (CreateKb.wait_active get id polls n) <> Running /\ k < polls /\
     rhythm "batch_get_collection" (trace (CreateKb.wait_active get id polls n)) =
       poll_and_sleep 10 k ++ [None]).
Proof.
  induction polls as [|polls IH]; intros n; [exists 0; left; now repeat split |].
  simpl. destruct (get n) as [[|d rest]|e];
    try (exists 0; right; run_script; repeat split; [discriminate | lia]).
  run_script.
  destruct (String.eqb (col_status d) "ACTIVE");
    [exists 0; right; simpl; repeat split; [discriminate | lia] |].
  destruct (String.eqb (col_status d) "FAILED");
    [exists 0; right; simpl; repeat split; [discriminate | lia] |].
  destruct (IH (S n)) as [k Hk].
  destruct (CreateKb.wait_active get id polls (S n)) as [t r]. simpl in *.
  exists (S k). destruct Hk as [(Hr & -> & Ht) | (Hr & Hlt & Ht)]; [left | right];
    rewrite Ht; repeat split; try assumption; lia.
Qed.

(** A turn of the loop of setup_opensearch_serverless.py: a poll, and a
    sleep of 30 seconds after it unless the turn returns the collection. *)
Lemma oss_poll_once_rhythm (get : nat -> reply (list collection_detail))
    (id arn : string) (attempt : nat) :
  exists t found,
    OpenSearchSetup.poll_once get id arn attempt = (t, Return found) /\
    rhythm "batch_get_collection" t =
      match found with
      | Some _ => [None]
      | None => [None; Some 30]
      end.
Proof.
  unfold OpenSearchSetup.poll_once.
  destruct (get attempt) as [[|d rest]|e]; run_script.
  - do 2 eexists. split; reflexivity.
  - destruct (String.eqb (col_status d) "ACTIVE").
    + destruct (col_endpoint d); do 2 eexists; split; reflexivity.
    + destruct (String.eqb (col_status d) "FAILED"); do 2 eexists; split; reflexivity.
  - do 2 eexists. split; reflexivity.
Qed.

Lemma oss_wait_rhythm (get : nat -> reply (list collection_detail)) (id arn : string) :
  forall remaining attempt,
  exists k,
    (result (OpenSearchSetup.wait_active get id arn remaining attempt) =
       Raise (Exception "Collection did not become active within expected time") /\
     k = remaining /\
     rhythm "batch_get_collection"
       (trace (OpenSearchSetup.wait_active get id arn remaining attempt)) =
       poll_and_sleep 30 k) \/
    ((exists info,
        result (OpenSearchSetup.wait_active get id arn remaining attempt) = Return info) /\
     k < remaining /\
     rhythm "batch_get_collection"
       (trace (OpenSearchSetup.wait_active get id arn remaining attempt)) =
       poll_and_sleep 30 k ++ [None]).
Proof.
  induction remaining as [|remaining IH]; intros attempt;
    [exists 0; left; now repeat split |].
  destruct (oss_poll_once_rhythm get id arn attempt) as (t & found & Hpoll & Ht).
  cbn [OpenSearchSetup.wait_active]. rewrite Hpoll.
  destruct found as [info|].
  - exists 0. right. run_script. rewrite app_nil_r, Ht.
    repeat split; [now exists info | lia].
  - destruct (IH (S attempt)) as [k Hk].
    destruct (OpenSearchSetup.wait_active get id arn remaining (S attempt)) as [t' r'].
    run_script. rewrite rhythm_app, Ht.
    exists (S k). destruct Hk as [(Hr & -> & Ht') | (Hr & Hlt & Ht')]; [left | right];
      rewrite Ht'; repeat split; try assumption; lia.
Qed.

(** C5 (as amended): in every polling loop a poll that does not end the
    loop is followed by a sleep of the same interval before the next poll,
    30 seconds, or 10 seconds in create_knowledge_base.py, and nothing else
    sleeps: the polls and the sleeps of a run are k such pairs, followed by
    the poll that ended the loop when one did.  The loops of create_knowledge_base_guide.py,
    create_knowledge_base_opensearch.py and create_knowledge_base.py have no
    bound on their polls and go on for as long as the status is not
    terminal; the loop of setup_opensearch_serverless.py is bounded: it
    makes at most [max_attempts] = 20 polls and, when none of them returned
    a terminal status, raises after the twentieth. *)
Theorem polling_loops_intervals_and_bounds :
  (forall get kb ds job polls n,
   exists k,
     (result (Guide.monitor get kb ds job polls n) = Running /\ k = polls /\
      rhythm "get_ingestion_job" (trace (Guide.monitor get kb ds job polls n)) =
        poll_and_sleep 30 k) \/
     (result (Guide.monitor get kb ds job polls n) <> Running /\ k < polls /\
      rhythm "get_ingestion_job" (trace (Guide.monitor get kb ds job polls n)) =
        poll_and_sleep 30 k ++ [None])) /\
  (forall get kb ds job polls n,
   exists k,
     (result (KbOpenSearch.monitor get kb ds job polls n) = Running /\ k = polls /\
      rhythm "get_ingestion_job" (trace (KbOpenSearch.monitor get kb ds job polls n)) =
        poll_and_sleep 30 k) \/
     (result (KbOpenSearch.monitor get kb ds job polls n) <> Running /\ k < polls /\
      rhythm "get_ingestion_job" (trace (KbOpenSearch.monitor get kb ds job polls n)) =
        poll_and_sleep 30 k ++ [None])) /\
  (forall get id polls n,
   exists k,
     (result (CreateKb.wait_active get id polls n) = Running /\ k = polls /\
      rhythm "batch_get_collection" (trace (CreateKb.wait_active get id polls n)) =
        poll_and_sleep 10 k) \/
     (result (CreateKb.wait_active get id polls n) <> Running /\ k < polls /\
      rhythm "batch_get_collection" (trace (CreateKb.wait_active get id polls n)) =
        poll_and_sleep 10 k ++ [None])) /\
  (forall get id arn,
   exists k,
     (result (OpenSearchSetup.wait_active get id arn OpenSearchSetup.max_attempts 0) =
        Raise (Exception "Collection did not become active within expected time") /\
      k = 20 /\
      rhythm "batch_get_collection"
        (trace (OpenSearchSetup.wait_active get id arn OpenSearchSetup.max_attempts 0)) =
        poll_and_sleep 30 k) \/
     ((exists info,
         result (OpenSearchSetup.wait_active get id arn OpenSearchSetup.max_attempts 0) =
           Return info) /\
      k < 20 /\
      rhythm "batch_get_collection"
        (trace (OpenSearchSetup.wait_active get id arn OpenSearchSetup.max_attempts 0)) =
        poll_and_sleep 30 k ++ [None])) /\
  (forall get kb ds job polls,
     (forall i, exists s, get i = Ok s /\ s <> "COMPLETE" /\ s <> "FAILED") ->
     result (Guide.monitor get kb ds job polls 0) = Running /\
     api_calls "get_ingestion_job" (trace (Guide.monitor get kb ds job polls 0)) = polls) /\
  (forall get kb ds job polls,
     (forall i, exists j, get i = Ok j /\
        KbOpenSearch.status j <> "COMPLETE" /\ KbOpenSearch.status j <> "FAILED") ->
     result (KbOpenSearch.monitor get kb ds job polls 0) = Running /\
     api_calls "get_ingestion_job"
       (trace (KbOpenSearch.monitor get kb ds job polls 0)) = polls) /\
  (forall get id polls,
     (forall i, exists d rest, get i = Ok (d :: rest) /\
        col_status d <> "ACTIVE" /\ col_status d <> "FAILED") ->
     result (CreateKb.wait_active get id polls 0) = Running /\
     api_calls "batch_get_collection" (trace (CreateKb.wait_active get id polls 0)) = polls) /\
  (forall get id arn,
     api_calls "batch_get_collection"
       (trace (OpenSearchSetup.wait_active get id arn OpenSearchSetup.max_attempts 0)) <= 20 /\
     result (OpenSearchSetup.wait_active get id arn OpenSearchSetup.max_attempts 0)
       <> Running) /\
  (forall get id arn,
     (forall i, i < 20 -> exists d rest, get i = Ok (d :: rest) /\
        col_status d <> "ACTIVE" /\ col_status d <> "FAILED") ->
     result (OpenSearchSetup.wait_active get id arn OpenSearchSetup.max_attempts 0) =
       Raise (Exception "Collection did not become active within expected time") /\
     api_calls "batch_get_collection"
       (trace (OpenSearchSetup.wait_active get id arn OpenSearchSetup.max_attempts 0)) = 20 /\
     sleeps (trace (OpenSearchSetup.wait_active get id arn OpenSearchSetup.max_attempts 0)) =
       repeat 30 20).
Proof.
  split; [intros; apply guide_monitor_rhythm |].
  split; [intros; apply kbos_monitor_rhythm |].
  split; [intros; apply createkb_wait_rhythm |].
  split; [intros; apply (oss_wait_rhythm get id arn OpenSearchSetup.max_attempts 0) |].
  split; [intros; now apply guide_monitor_keeps_polling |].
  split; [intros; now apply kbos_monitor_keeps_polling |].
  split; [intros; now apply createkb_wait_keeps_polling |].
  split.
  - intros get id arn.
    destruct (oss_wait_bounded get id arn OpenSearchSetup.max_attempts 0) as [H1 [H2 _]].
    split; assumption.
  - intros get id arn Hpending.
    apply (oss_wait_gives_up get id arn OpenSearchSetup.max_attempts 0 Hpending).
Qed.

Lemma polling_loops_intervals_and_bounds_witness :
  result (CreateKb.wait_active Samples.always_creating "abc123" 50 0) = Running /\
  api_calls "batch_get_collection"
    (trace (CreateKb.wait_active Samples.always_creating "abc123" 50 0)) = 50 /\
  rhythm "batch_get_collection"
    (trace (CreateKb.wait_active Samples.always_creating "abc123" 50 0)) =
    poll_and_sleep 10 50 /\
  result (Guide.monitor Samples.always_in_progress "KB1" "DS1" "JOB1" 50 0) = Running /\
  result (KbOpenSearch.monitor Samples.always_ingesting "KB1" "DS1" "JOB1" 50 0) = Running /\
  rhythm "get_ingestion_job"
    (trace (KbOpenSearch.monitor Samples.always_ingesting "KB1" "DS1" "JOB1" 50 0)) =
    poll_and_sleep 30 50 /\
  result (OpenSearchSetup.wait_active Samples.always_creating "abc123" "arn"
            OpenSearchSetup.max_attempts 0) =
    Raise (Exception "Collection did not become active within expected time").
Proof.
  destruct polling_loops_intervals_and_bounds
    as [_ [Hkbos_rhythm [Hcreate_rhythm [_ [Hguide [Hkbos [Hcreate [_ Hoss]]]]]]]].
  assert (Hc : forall i, exists d rest,
             Samples.always_creating i = Ok (d :: rest) /\
             col_status d <> "ACTIVE" /\ col_status d <> "FAILED").
  { intros i. exists Samples.creating, []. repeat split; discriminate. }
  destruct (Hcreate Samples.always_creating "abc123" 50 Hc) as [Hr Hn].
  assert (Hk : result (KbOpenSearch.monitor Samples.always_ingesting
                         "KB1" "DS1" "JOB1" 50 0) = Running).
  { apply (Hkbos Samples.always_ingesting "KB1" "DS1" "JOB1" 50).
    intros i. eexists. split; [reflexivity |]. split; discriminate. }
  split; [exact Hr |]. split; [exact Hn |].
  split.
  { destruct (Hcreate_rhythm Samples.always_creating "abc123" 50 0)
      as [k [(_ & -> & Ht) | (Hnot & _ & _)]]; [exact Ht | contradiction]. }
  split.
  { apply (Hguide Samples.always_in_progress "KB1" "DS1" "JOB1" 50).
    intros i. exists "IN_PROGRESS". repeat split; discriminate. }
  split; [exact Hk |].
  split.
  { destruct (Hkbos_rhythm Samples.always_ingesting "KB1" "DS1" "JOB1" 50 0)
      as [k [(_ & -> & Ht) | (Hnot & _ & _)]]; [exact Ht | contradiction]. }
  apply (Hoss Samples.always_creating "abc123" "arn"). intros i _. apply Hc.
Defined.

(** C5 as it stands fails: the loop of setup_opensearch_serverless.py has a
    bound on its attempts.  With a collection that stays in CREATING, it is
    over after 20 polls, by the [raise] of line 208, though no status was
    terminal. *)
Lemma collection_wait_gives_up_after_20_polls :
  (forall n, exists rest,
     Samples.always_creating n = Ok (Samples.creating :: rest)) /\
  col_status Samples.creating <> "ACTIVE" /\
  col_status Samples.creating <> "FAILED" /\
  result (OpenSearchSetup.wait_active Samples.always_creating "abc123" "arn"
            OpenSearchSetup.max_attempts 0) =
    Raise (Exception "Collection did not become active within expected time") /\
  api_calls "batch_get_collection"
    (trace (OpenSearchSetup.wait_active Samples.always_creating "abc123" "arn"
              OpenSearchSetup.max_attempts 0)) = 20.
Proof.
  split; [intros n; exists []; reflexivity |].
  split; [discriminate |]. split; [discriminate |].
  split; vm_compute; reflexivity.
Qed.

End PollingSpec.

(** ** setup_database.py *)
Module SetupDatabaseSpec.
Import SetupDatabase.

Section Main.
Context (execute_statement : nat -> string -> reply (option nat)).

Local Abbreviation run_statement := (SetupDatabase.run_statement execute_statement).
Local Abbreviation run_statements := (SetupDatabase.run_statements execute_statement).

(** What a statement that raises leaves in the trace. *)
Lemma run_statement_raising (i : nat) (sql : string) (e : exn) :
  execute_statement i (Py.strip sql) = Err e ->
  run_statement i sql =
    ([ Print ("Executing: " +:+ Py.strip sql);
       Api "execute_statement"
         [("resourceArn", cluster_arn); ("secretArn", secret_arn);
          ("database", "myapp"); ("sql", Py.strip sql)];
       Print ("Error executing SQL: " +:+ str e);
       Print ("SQL was: " +:+ sql) ],
     if tolerated e then Return tt else Raise e).
Proof.
  intros He. unfold SetupDatabase.run_statement, execute_sql_statement, tolerated.
  rewrite He. run_script.
  destruct (Py.str_in "duplicate_object" (str e));
    destruct (Py.str_in "already exists" (str e)); reflexivity.
Qed.

Lemma run_statements_app (pre post : list string) (i : nat) :
  run_statements i (pre ++ post) =
    (run_statements i pre ;; run_statements (i + length pre) post).
Proof.
  revert i. induction pre as [|sql pre IH]; intros i.
  - rewrite Nat.add_0_r. symmetry.
    apply (ScriptFacts.bind_ret tt (fun _ => run_statements i post)).
  - simpl. rewrite IH. replace (S i + length pre) with (i + S (length pre)) by lia.
    destruct (SetupDatabase.run_statement execute_statement i sql) as [t [[]|e|]];
      try reflexivity.
    destruct (SetupDatabase.run_statements execute_statement (S i) pre)
      as [t1 [[]|e1|]]; try reflexivity.
    destruct (SetupDatabase.run_statements execute_statement (i + S (length pre)) post)
      as [t2 r2].
    run_script. now rewrite app_assoc.
Qed.

(** C6: when a statement of the fixed sequence raises, the error and the
    statement are printed; with "duplicate_object" or "already exists" in
    the error text the run goes on with the next statement, with any other
    error the exception leaves [main] and no later statement is executed. *)
Theorem setup_error_policy (pre post : list string) (sql : string) (e : exn) :
  sql_statements = pre ++ sql :: post ->
  result (run_statements 0 pre) = Return tt ->
  execute_statement (length pre) (Py.strip sql) = Err e ->
  let reached :=
    Print "Setting up Aurora database schema for Bedrock Knowledge Base..."
      :: trace (run_statements 0 pre)
      ++ [ Print ("Executing: " +:+ Py.strip sql);
           Api "execute_statement"
             [("resourceArn", cluster_arn); ("secretArn", secret_arn);
              ("database", "myapp"); ("sql", Py.strip sql)];
           Print ("Error executing SQL: " +:+ str e);
           Print ("SQL was: " +:+ sql) ] in
  let remaining :=
    run_statements (S (length pre)) post ;;
    emit (Print "Database schema setup completed successfully!") in
  (Py.str_in "duplicate_object" (str e) = true \/
   Py.str_in "already exists" (str e) = true ->
     main execute_statement = (reached ++ trace remaining, result remaining)) /\
  (Py.str_in "duplicate_object" (str e) = false ->
   Py.str_in "already exists" (str e) = false ->
     main execute_statement = (reached, Raise e)).
Proof.
  intros Hsplit Hpre He reached remaining.
  assert (Hmain : main execute_statement =
            (emit (Print "Setting up Aurora database schema for Bedrock Knowledge Base...") ;;
             (run_statements 0 pre ;;
              (run_statement (length pre) sql ;;
               run_statements (S (length pre)) post)) ;;
             emit (Print "Database schema setup completed successfully!"))).
  { unfold main. rewrite Hsplit, run_statements_app. reflexivity. }
  rewrite Hmain, (run_statement_raising _ _ _ He).
  subst reached remaining.
  destruct (SetupDatabase.run_statements execute_statement 0 pre) as [t0 r0].
  simpl in Hpre. subst r0.
  destruct (SetupDatabase.run_statements execute_statement (S (length pre)) post)
    as [t1 r1].
  unfold tolerated. split.
  - intros Htol.
    replace (Py.str_in "duplicate_object" (str e) || Py.str_in "already exists" (str e))
      with true by (destruct Htol as [-> | ->]; [reflexivity | now rewrite orb_true_r]).
    destruct r1 as [[]|e1|]; run_script; now rewrite <- !app_assoc.
  - intros H1 H2. rewrite H1, H2. reflexivity.
Qed.

End Main.

Lemma setup_error_policy_witness :
  result (main Samples.role_exists) = Return tt /\
  api_calls "execute_statement" (trace (main Samples.role_exists)) = 7 /\
  result (main Samples.grant_denied) =
    Raise (Exception "ERROR: permission denied for schema bedrock_integration") /\
  api_calls "execute_statement" (trace (main Samples.grant_denied)) = 4.
Proof.
  destruct (setup_error_policy Samples.role_exists
              (firstn 2 sql_statements) (skipn 3 sql_statements)
              (nth 2 sql_statements "")
              (Exception "ERROR: role bedrock_user already exists")
              eq_refl eq_refl eq_refl) as [Hgo _].
  destruct (setup_error_policy Samples.grant_denied
              (firstn 3 sql_statements) (skipn 4 sql_statements)
              (nth 3 sql_statements "")
              (Exception "ERROR: permission denied for schema bedrock_integration")
              eq_refl eq_refl eq_refl) as [_ Hstop].
  rewrite Hgo by (right; reflexivity).
  rewrite Hstop by reflexivity.
  repeat split.
Defined.

End SetupDatabaseSpec.

(** ** check_ingestion.py *)
Module CheckIngestionSpec.
Import CheckIngestion.

Section CheckStatus.
Context (list_data_sources : reply (list data_source))
        (list_ingestion_jobs : string -> reply (list job_summary))
        (get_ingestion_job : string -> string -> reply (option string))
        (start_ingestion_job : string -> reply (string * string)).

Local Abbreviation starts t := (api_calls "start_ingestion_job" t).

(** The report of a job returns, whatever the job is, and starts nothing. *)
Lemma report_job_quiet (kb_id : string) (ds : data_source) (job : job_summary) :
  result (report_job get_ingestion_job kb_id ds job) = Return tt /\
  starts (trace (report_job get_ingestion_job kb_id ds job)) = 0.
Proof.
  unfold report_job.
  destruct (String.eqb (job_status job) "FAILED"); [| split; reflexivity].
  destruct (get_ingestion_job (dataSourceId ds) (ingestionJobId job)) as [[r|]|e];
    split; reflexivity.
Qed.

Lemma for_each_quiet {A} (xs : list A) (body : A -> script effect unit) :
  (forall x, result (body x) = Return tt /\ starts (trace (body x)) = 0) ->
  result (for_each xs body) = Return tt /\ starts (trace (for_each xs body)) = 0.
Proof.
  intros Hbody. induction xs as [|x xs [IHr IHt]]; [split; reflexivity |].
  destruct (Hbody x) as [Hr Ht]. simpl.
  rewrite ScriptFacts.result_bind, ScriptFacts.trace_bind, Hr.
  rewrite TraceFacts.api_calls_app, Ht, IHt. now split.
Qed.

(** The report of a data source starts nothing, and returns when the listing
    of its jobs raises nothing but a ClientError. *)
Lemma report_data_source_quiet (kb_id : string) (ds : data_source) :
  starts (trace (report_data_source list_ingestion_jobs get_ingestion_job kb_id ds)) = 0 /\
  ((forall e, list_ingestion_jobs (dataSourceId ds) = Err e -> is_ClientError e = true) ->
   result (report_data_source list_ingestion_jobs get_ingestion_job kb_id ds) = Return tt).
Proof.
  unfold report_data_source.
  destruct (list_ingestion_jobs (dataSourceId ds)) as [jobs|e] eqn:Hjobs.
  - destruct (for_each_quiet jobs (report_job get_ingestion_job kb_id ds)
                (report_job_quiet kb_id ds)) as [Hr Ht].
    rewrite !ScriptFacts.bind_emit. cbv beta. cbn [trace result fst snd].
    rewrite ScriptFacts.trace_try_except, ScriptFacts.result_try_except.
    rewrite ScriptFacts.bind_call_ok. cbv beta.
    rewrite ScriptFacts.bind_emit. cbn [trace result fst snd].
    rewrite Hr, app_nil_r, !TraceFacts.api_calls_cons, Ht. now split.
  - split.
    + destruct e; reflexivity.
    + intros Hclient. specialize (Hclient e eq_refl).
      destruct e; try discriminate. reflexivity.
Qed.

Lemma report_all_quiet (kb_id : string) (dss : list data_source) :
  starts (trace (for_each dss
                   (report_data_source list_ingestion_jobs get_ingestion_job kb_id))) = 0 /\
  ((forall ds e, list_ingestion_jobs ds = Err e -> is_ClientError e = true) ->
   result (for_each dss
             (report_data_source list_ingestion_jobs get_ingestion_job kb_id)) = Return tt).
Proof.
  induction dss as [|ds dss [IHt IHr]]; [split; reflexivity |].
  destruct (report_data_source_quiet kb_id ds) as [Ht Hr]. simpl.
  rewrite ScriptFacts.trace_bind, ScriptFacts.result_bind, TraceFacts.api_calls_app, Ht.
  split.
  - destruct (result (report_data_source _ _ kb_id ds)) as [[]|e|];
      [exact IHt | reflexivity | reflexivity].
  - intros Hclient. rewrite (Hr (Hclient (dataSourceId ds))). now apply IHr.
Qed.

Lemma report_statuses_quiet (kb_id : string) (dss : list data_source) :
  list_data_sources = Ok dss ->
  starts (trace (report_statuses list_data_sources list_ingestion_jobs
                   get_ingestion_job kb_id)) = 0 /\
  ((forall ds e, list_ingestion_jobs ds = Err e -> is_ClientError e = true) ->
   result (report_statuses list_data_sources list_ingestion_jobs
             get_ingestion_job kb_id) = Return dss).
Proof.
  intros Hlist. unfold report_statuses. rewrite Hlist.
  destruct (report_all_quiet kb_id dss) as [Ht Hr].
  rewrite ScriptFacts.bind_call_ok. cbv beta.
  rewrite !ScriptFacts.bind_emit. cbv beta.
  cbn [trace result fst snd].
  rewrite !TraceFacts.api_calls_cons, ScriptFacts.trace_bind, ScriptFacts.result_bind.
  rewrite TraceFacts.api_calls_app, Ht. split.
  - now destruct (result (for_each dss _)) as [[]|e|].
  - intros Hclient. now rewrite (Hr Hclient).
Qed.

(** C9: when the listing returns at least one data source, the check, once
    the statuses are printed, calls [start_ingestion_job] on the first data
    source, whatever the jobs of the data sources are; it is the only such
    call of the run. *)
Theorem status_check_starts_ingestion (kb_id : string) (first : data_source)
    (others : list data_source) :
  list_data_sources = Ok (first :: others) ->
  (forall ds e, list_ingestion_jobs ds = Err e -> is_ClientError e = true) ->
  let run := check_ingestion_status list_data_sources list_ingestion_jobs
               get_ingestion_job start_ingestion_job kb_id in
  exists after,
    trace run =
      trace (report_statuses list_data_sources list_ingestion_jobs
               get_ingestion_job kb_id)
      ++ Print "🚀 Starting new ingestion job..."
      :: Api "start_ingestion_job"
           [("knowledgeBaseId", kb_id); ("dataSourceId", dataSourceId first)]
      :: after /\
    starts (trace run) = 1.
Proof.
  intros Hlist Hclient run.
  destruct (report_statuses_quiet kb_id (first :: others) Hlist) as [Ht Hr].
  specialize (Hr Hclient). subst run. unfold check_ingestion_status.
  destruct (report_statuses list_data_sources list_ingestion_jobs
              get_ingestion_job kb_id) as [t r].
  simpl in Ht, Hr. subst r.
  unfold start_new_job.
  destruct (start_ingestion_job (dataSourceId first)) as [[job status]|e] eqn:Hstart.
  - run_script. rewrite Hstart. simpl. eexists. split; [reflexivity |].
    rewrite TraceFacts.api_calls_app. unfold api_calls in *. simpl. lia.
  - destruct e as [code text|text|text|text|text];
      run_script; rewrite Hstart; simpl; eexists;
      (split; [reflexivity |]);
      rewrite TraceFacts.api_calls_app; unfold api_calls in *; simpl; lia.
Qed.

End CheckStatus.

Lemma status_check_starts_ingestion_witness :
  api_calls "start_ingestion_job"
    (trace (check_ingestion_status
              (Ok [Samples.machinery_pdfs])
              (fun _ => Ok [Samples.running_job])
              (fun _ _ => Ok None)
              (fun _ => Ok ("JOB2", "STARTING"))
              "L3CRT5Q79H")) = 1 /\
  In (Api "start_ingestion_job" [("knowledgeBaseId", "L3CRT5Q79H"); ("dataSourceId", "DS1")])
     (trace (check_ingestion_status
               (Ok [Samples.machinery_pdfs])
               (fun _ => Ok [Samples.running_job])
               (fun _ _ => Ok None)
               (fun _ => Ok ("JOB2", "STARTING"))
               "L3CRT5Q79H")).
Proof.
  destruct (status_check_starts_ingestion
              (Ok [Samples.machinery_pdfs])
              (fun _ => Ok [Samples.running_job])
              (fun _ _ => Ok None)
              (fun _ => Ok ("JOB2", "STARTING"))
              "L3CRT5Q79H" Samples.machinery_pdfs [] eq_refl)
    as [after [Htrace Hcount]].
  { intros ds e H. discriminate H. }
  split; [exact Hcount |].
  rewrite Htrace. apply in_or_app. right. right. left. reflexivity.
Defined.

End CheckIngestionSpec.

(** ** aurora_public_access.py *)
Module AuroraPublicAccessSpec.
Import AuroraPublicAccess.

(** The trace of the enabling up to the answer of the operator. *)
Lemma enable_after_answer (line : string) (modify_reply : reply unit) :
  let answered :=
    [ Print "🔧 Enabling Public Access for Aurora PostgreSQL";
      Print (str_repeat "=" 50);
      Print "⚠️  WARNING: This will temporarily make your Aurora cluster publicly accessible!";
      Print "   Make sure to disable it after database setup is complete.";
      Input (Py.nl +:+ "Do you want to proceed? (yes/no): ") ] in
  if String.eqb (Py.strip (Py.lower line)) "yes" then
    exists after,
      trace (enable_aurora_public_access (Ok line) modify_reply) =
        answered
        ++ Print (Py.nl +:+ "🔄 Modifying Aurora cluster to enable public access...")
        :: Api "modify_db_cluster" (modify_args "True") :: after /\
      api_calls "modify_db_cluster" after = 0
  else
    enable_aurora_public_access (Ok line) modify_reply =
      (answered ++ [Print "❌ Operation cancelled."], Return false).
Proof.
  unfold enable_aurora_public_access.
  destruct (String.eqb (Py.strip (Py.lower line)) "yes") eqn:Hyes;
    run_script; rewrite Hyes; simpl; [| reflexivity].
  destruct modify_reply as [[]|e]; simpl; eexists; split; reflexivity.
Qed.

(** C10: once the operator has answered, the enabling calls
    [modify_db_cluster] exactly when the answer, lowercased and stripped, is
    "yes"; with any other answer, and when no answer can be read, it returns
    [False] without the call.  The disabling makes the call and never asks. *)
Theorem public_access_confirmation (modify_reply : reply unit) :
  (forall line,
     let enable := enable_aurora_public_access (Ok line) modify_reply in
     (api_calls "modify_db_cluster" (trace enable) = 1 <->
      Py.strip (Py.lower line) = "yes") /\
     (Py.strip (Py.lower line) = "yes" ->
      In (Api "modify_db_cluster" (modify_args "True")) (trace enable)) /\
     (Py.strip (Py.lower line) <> "yes" ->
      result enable = Return false /\
      api_calls "modify_db_cluster" (trace enable) = 0)) /\
  (forall e,
     let enable := enable_aurora_public_access (Err e) modify_reply in
     result enable = Return false /\
     api_calls "modify_db_cluster" (trace enable) = 0) /\
  (let disable := disable_aurora_public_access modify_reply in
   hd_error (List.filter (is_api "modify_db_cluster") (trace disable)) =
     Some (Api "modify_db_cluster" (modify_args "False")) /\
   api_calls "modify_db_cluster" (trace disable) = 1 /\
   existsb is_input (trace disable) = false).
Proof.
  split; [| split].
  - intros line enable. subst enable.
    pose proof (enable_after_answer line modify_reply) as H. cbv zeta in H.
    destruct (String.eqb_spec (Py.strip (Py.lower line)) "yes") as [Hyes|Hno].
    + destruct H as [after [Ht Hafter]]. rewrite Ht.
      split; [| split].
      * split; [intros _; exact Hyes | intros _].
        rewrite TraceFacts.api_calls_app, !TraceFacts.api_calls_cons, Hafter.
        reflexivity.
      * intros _. apply in_or_app. right. right. left. reflexivity.
      * intros Hne. contradiction.
    + rewrite H. cbn [trace result fst snd].
      split; [| split].
      * split; [intros Hone; vm_compute in Hone; discriminate | intros Hyes; contradiction].
      * intros Hyes. contradiction.
      * intros _. split; reflexivity.
  - intros e enable. subst enable. split; reflexivity.
  - cbv zeta. unfold disable_aurora_public_access.
    destruct modify_reply as [[]|e]; repeat split.
Qed.

Lemma public_access_confirmation_witness :
  Py.strip (Py.lower "  YES ") = "yes" /\
  In (Api "modify_db_cluster" (modify_args "True"))
     (trace (enable_aurora_public_access (Ok "  YES ") (Ok tt))) /\
  Py.strip (Py.lower ("yes" +:+ Samples.nbsp)) = "yes" /\
  In (Api "modify_db_cluster" (modify_args "True"))
     (trace (enable_aurora_public_access (Ok ("yes" +:+ Samples.nbsp)) (Ok tt))) /\
  Py.strip (Py.lower "y") <> "yes" /\
  result (enable_aurora_public_access (Ok "y") (Ok tt)) = Return false /\
  api_calls "modify_db_cluster" (trace (enable_aurora_public_access (Ok "y") (Ok tt))) = 0.
Proof.
  destruct (public_access_confirmation (Ok tt)) as [Henable _].
  destruct (Henable "  YES ") as [_ [Hyes _]].
  destruct (Henable ("yes" +:+ Samples.nbsp)) as [_ [Hnbsp _]].
  destruct (Henable "y") as [_ [_ Hno]].
  assert (H1 : Py.strip (Py.lower "  YES ") = "yes") by reflexivity.
  assert (H2 : Py.strip (Py.lower "y") <> "yes") by discriminate.
  assert (H3 : Py.strip (Py.lower ("yes" +:+ Samples.nbsp)) = "yes") by reflexivity.
  split; [exact H1 |]. split; [exact (Hyes H1) |].
  split; [exact H3 |]. split; [exact (Hnbsp H3) |].
  split; [exact H2 |]. exact (Hno H2).
Defined.

End AuroraPublicAccessSpec.

(** ** Starting an ingestion: what the caller gets back *)
Module IngestionStartSpec.

(** The outcome of [start_ingestion_job] of the guide, by the outcome of
    its monitoring loop. *)
Lemma guide_start_by_monitor (get : nat -> reply string) (kb ds job : string)
    (polls : nat) :
  result (Guide.start_ingestion_job (Ok job) get kb ds polls) =
    match result (Guide.monitor get kb ds job polls 0) with
    | Return _ => Return (Some job)
    | Raise e => if is_ClientError e then Return None else Raise e
    | Running => Running
    end.
Proof.
  unfold Guide.start_ingestion_job.
  rewrite ScriptFacts.result_try_except.
  rewrite ScriptFacts.bind_emit. cbv beta. rewrite ScriptFacts.bind_call_ok. cbv beta.
  rewrite !ScriptFacts.bind_emit. cbv beta. cbn [trace result fst snd].
  rewrite ScriptFacts.result_bind.
  destruct (result (Guide.monitor get kb ds job polls 0)) as [[]|e|]; reflexivity.
Qed.

(** The loop, [k] polls without a terminal status and then one poll that
    ends it, observed for more than [k] polls. *)
Lemma guide_monitor_after_pending (get : nat -> reply string) (kb ds job : string)
    (k polls : nat) :
  (forall i, i < k -> exists s, get i = Ok s /\ s <> "COMPLETE" /\ s <> "FAILED") ->
  k < polls ->
  result (Guide.monitor get kb ds job polls 0) =
    result (Guide.monitor get kb ds job (polls - k) k).
Proof.
  intros Hpending Hk.
  destruct (GuideSpec.monitor_pending_prefix get kb ds job k (polls - k) 0 Hpending)
    as [pre [Hrun _]].
  replace (k + (polls - k)) with polls in Hrun by lia.
  now rewrite Hrun.
Qed.

(** X1: [start_ingestion_job] of the guide returns the job identifier when
    the loop ends, on FAILED as on COMPLETE; it returns [None] when the
    start or a poll raises a ClientError, in the second case although the
    job was started; any other exception leaves the function. *)
Theorem guide_start_ingestion_result (get : nat -> reply string) (kb ds : string) :
  (forall job k status polls,
     (forall i, i < k -> exists s, get i = Ok s /\ s <> "COMPLETE" /\ s <> "FAILED") ->
     get k = Ok status ->
     status = "COMPLETE" \/ status = "FAILED" ->
     k < polls ->
     result (Guide.start_ingestion_job (Ok job) get kb ds polls) = Return (Some job)) /\
  (forall job k e polls,
     (forall i, i < k -> exists s, get i = Ok s /\ s <> "COMPLETE" /\ s <> "FAILED") ->
     get k = Err e ->
     k < polls ->
     result (Guide.start_ingestion_job (Ok job) get kb ds polls) =
       if is_ClientError e then Return None else Raise e) /\
  (forall e polls,
     Guide.start_ingestion_job (Err e) get kb ds polls =
       if is_ClientError e then
         ([ Print "🚀 Starting document ingestion...";
            Api "start_ingestion_job" (Guide.job_args kb ds);
            Print ("❌ Error starting ingestion: " +:+ str e) ], Return None)
       else
         ([ Print "🚀 Starting document ingestion...";
            Api "start_ingestion_job" (Guide.job_args kb ds) ], Raise e)).
Proof.
  split; [| split].
  - intros job k status polls Hpending Hget Hterm Hk.
    rewrite guide_start_by_monitor, (guide_monitor_after_pending _ _ _ _ k polls Hpending Hk).
    replace (polls - k) with (S (polls - k - 1)) by lia.
    destruct (GuideSpec.monitor_terminal get kb ds job (polls - k - 1) k status Hget Hterm)
      as [bye ->].
    reflexivity.
  - intros job k e polls Hpending Hget Hk.
    rewrite guide_start_by_monitor, (guide_monitor_after_pending _ _ _ _ k polls Hpending Hk).
    replace (polls - k) with (S (polls - k - 1)) by lia.
    simpl. rewrite Hget. reflexivity.
  - intros e polls. unfold Guide.start_ingestion_job.
    destruct e; reflexivity.
Qed.

Lemma guide_start_ingestion_result_witness :
  result (Guide.start_ingestion_job (Ok "JOB1")
            (Samples.in_progress_twice_then "FAILED") "KB1" "DS1" 5) =
    Return (Some "JOB1") /\
  result (Guide.start_ingestion_job (Ok "JOB1") Samples.throttled_at_second_poll
            "KB1" "DS1" 5) = Return None.
Proof.
  destruct (guide_start_ingestion_result (Samples.in_progress_twice_then "FAILED")
              "KB1" "DS1") as [Hdone _].
  destruct (guide_start_ingestion_result Samples.throttled_at_second_poll
              "KB1" "DS1") as [_ [Hpoll _]].
  split.
  - apply (Hdone "JOB1" 2 "FAILED" 5); [| reflexivity | now right | lia].
    intros i Hi. exists "IN_PROGRESS".
    destruct i as [|[|i]]; [| | lia]; repeat split; discriminate.
  - apply (Hpoll "JOB1" 1 (ClientError "ThrottlingException" "Rate exceeded") 5);
      [| reflexivity | lia].
    intros i Hi. exists "IN_PROGRESS".
    destruct i as [|i]; [| lia]. repeat split; discriminate.
Defined.

Lemma kbos_monitor_raises (get : nat -> reply KbOpenSearch.ingestion_job)
    (kb ds job : string) (k : nat) (e : exn) :
  forall polls n,
    (forall i, i < k -> exists j, get (n + i) = Ok j /\
       KbOpenSearch.status j <> "COMPLETE" /\ KbOpenSearch.status j <> "FAILED") ->
    get (n + k) = Err e ->
    k < polls ->
    result (KbOpenSearch.monitor get kb ds job polls n) = Raise e.
Proof.
  induction k as [|k IH]; intros polls n Hpending Hget Hk;
    (destruct polls as [|polls]; [lia |]); simpl.
  - rewrite Nat.add_0_r in Hget. now rewrite Hget.
  - destruct (Hpending 0 ltac:(lia)) as [j [Hj [H1 H2]]].
    rewrite Nat.add_0_r in Hj. rewrite Hj.
    apply String.eqb_neq in H1, H2. run_script. rewrite H1, H2.
    assert (IHn : result (KbOpenSearch.monitor get kb ds job polls (S n)) = Raise e).
    { apply IH; [| now replace (S n + k) with (n + S k) by lia | lia].
      intros i Hi. replace (S n + i) with (n + S i) by lia. apply Hpending. lia. }
    destruct (KbOpenSearch.monitor get kb ds job polls (S n)). exact IHn.
Qed.

(** X2: [start_ingestion] of the knowledge base creator never raises: every
    exception of the start or of a poll is printed and turned into [None],
    and a start that fails is followed by no poll. *)
Theorem kbos_start_ingestion_never_raises (start_reply : reply string)
    (get : nat -> reply KbOpenSearch.ingestion_job) (kb ds : string) (polls : nat) :
  (forall e, result (KbOpenSearch.start_ingestion start_reply get kb ds polls) <> Raise e) /\
  (forall e, start_reply = Err e ->
     KbOpenSearch.start_ingestion start_reply get kb ds polls =
       ([ Print "🔧 Starting ingestion job...";
          Api "start_ingestion_job"
            (KbOpenSearch.job_args kb ds ++
             [("description", "Initial ingestion of heavy machinery documents")]);
          Print ("❌ Error starting ingestion: " +:+ str e) ], Return None)) /\
  (forall job k e,
     start_reply = Ok job ->
     (forall i, i < k -> exists j, get i = Ok j /\
        KbOpenSearch.status j <> "COMPLETE" /\ KbOpenSearch.status j <> "FAILED") ->
     get k = Err e ->
     k < polls ->
     result (KbOpenSearch.start_ingestion start_reply get kb ds polls) = Return None).
Proof.
  split; [| split].
  - intros e. unfold KbOpenSearch.start_ingestion.
    rewrite ScriptFacts.bind_emit. cbv beta. cbn [result snd].
    rewrite ScriptFacts.result_try_except.
    destruct (result _) as [a|e'|]; discriminate.
  - intros e ->. reflexivity.
  - intros job k e -> Hpending Hget Hk.
    unfold KbOpenSearch.start_ingestion.
    rewrite ScriptFacts.bind_emit. cbv beta. cbn [result snd].
    rewrite ScriptFacts.result_try_except.
    rewrite ScriptFacts.bind_call_ok. cbv beta.
    rewrite !ScriptFacts.bind_emit. cbv beta. cbn [trace result fst snd].
    rewrite ScriptFacts.result_bind.
    rewrite (kbos_monitor_raises get kb ds job k e polls 0).
    + reflexivity.
    + intros i Hi. rewrite Nat.add_0_l. now apply Hpending.
    + now rewrite Nat.add_0_l.
    + lia.
Qed.

Lemma kbos_start_ingestion_never_raises_witness :
  result (KbOpenSearch.start_ingestion (Ok "JOB1") Samples.ingestion_poll_breaks
            "KB1" "DS1" 5) = Return None /\
  result (KbOpenSearch.start_ingestion (Err (Exception "Connection reset"))
            Samples.always_ingesting "KB1" "DS1" 5) = Return None.
Proof.
  destruct (kbos_start_ingestion_never_raises (Ok "JOB1") Samples.ingestion_poll_breaks
              "KB1" "DS1" 5) as [_ [_ Hpoll]].
  destruct (kbos_start_ingestion_never_raises (Err (Exception "Connection reset"))
              Samples.always_ingesting "KB1" "DS1" 5) as [_ [Hstart _]].
  split.
  - apply (Hpoll "JOB1" 1 (Exception "Connection reset")); [reflexivity | | reflexivity | lia].
    intros i Hi. destruct i as [|i]; [| lia].
    eexists. split; [reflexivity |]. split; discriminate.
  - now rewrite (Hstart (Exception "Connection reset") eq_refl).
Defined.

End IngestionStartSpec.

(** ** Waiting for a collection: what ends the wait *)
Module CollectionSpec.

Section OpenSearchSetupWait.
Context (get : nat -> reply (list collection_detail)) (id arn : string).

Local Abbreviation poll_once := (OpenSearchSetup.poll_once get id arn).
Local Abbreviation wait_active := (OpenSearchSetup.wait_active get id arn).
Local Abbreviation timeout :=
  (Exception "Collection did not become active within expected time").






End OpenSearchSetupWait.


End CollectionSpec.

(** ** Creating a collection that may exist already *)
Module CollectionCreateSpec.

Section OpenSearchSetupConflict.
Context (create_reply : reply (string * string))
        (get : nat -> reply (list collection_detail)).

Local Abbreviation create_collection list_reply :=
  (OpenSearchSetup.create_collection create_reply get list_reply).

Local Abbreviation create_call :=
  (Api "create_collection"
     [("name", OpenSearchSetup.collection_name); ("type", "VECTORSEARCH");
      ("description", "Vector collection for heavy machinery knowledge base")]).

Lemma oss_conflict_result (list_reply : reply (list collection_detail))
    (text : string) :
  create_reply = Err (ClientError "ConflictException" text) ->
  create_collection list_reply =
    (Print "🔧 Creating OpenSearch Serverless collection..."
       :: create_call
       :: Print ("ℹ️ Collection " +:+ OpenSearchSetup.collection_name +:+ " already exists")
       :: trace (OpenSearchSetup.existing_collection list_reply),
     result (OpenSearchSetup.existing_collection list_reply)).
Proof.
  intros Hc. unfold OpenSearchSetup.create_collection. rewrite Hc.
  destruct (OpenSearchSetup.existing_collection list_reply) as [t r].
  reflexivity.
Qed.

(** X4: when the creation is refused with ConflictException, nothing is
    polled and the collections are listed instead: the result is the first
    listed collection with the configured name, with an empty endpoint when
    the listing gives none, and [None] when no listed collection has the
    name or the listing raises.  Any other ClientError gives [None] without
    a listing. *)
Theorem oss_create_conflict_uses_listing (list_reply : reply (list collection_detail)) :
  (forall text, create_reply = Err (ClientError "ConflictException" text) ->
     api_calls "batch_get_collection" (trace (create_collection list_reply)) = 0 /\
     api_calls "list_collections" (trace (create_collection list_reply)) = 1 /\
     (forall before c after,
        list_reply = Ok (before ++ c :: after) ->
        Forall (fun b => col_name b <> OpenSearchSetup.collection_name) before ->
        col_name c = OpenSearchSetup.collection_name ->
        result (create_collection list_reply) =
          Return (Some {| OpenSearchSetup.collection_id := col_id c;
                          OpenSearchSetup.collection_arn := col_arn c;
                          OpenSearchSetup.endpoint := default "" (col_endpoint c) |})) /\
     (forall cols,
        list_reply = Ok cols ->
        Forall (fun b => col_name b <> OpenSearchSetup.collection_name) cols ->
        result (create_collection list_reply) = Return None) /\
     (forall e, list_reply = Err e -> result (create_collection list_reply) = Return None)) /\
  (forall code text,
     create_reply = Err (ClientError code text) ->
     code <> "ConflictException" ->
     create_collection list_reply =
       ([ Print "🔧 Creating OpenSearch Serverless collection...";
          create_call;
          Print ("❌ Error creating OpenSearch collection: " +:+ text) ],
        Return None)).
Proof.
  split.
  - intros text Hc. rewrite (oss_conflict_result list_reply text Hc). cbn [trace result fst snd].
    unfold OpenSearchSetup.existing_collection.
    destruct list_reply as [cols|e]; (split; [reflexivity |]); (split; [reflexivity |]).
    + split; [| split].
      * intros before c after Heq Hbefore Hname. injection Heq as ->.
        run_script.
        assert (Hfind : List.find
                  (fun c0 => String.eqb (col_name c0) OpenSearchSetup.collection_name)
                  (before ++ c :: after) = Some c).
        { induction Hbefore as [|b before Hb _ IH]; simpl.
          - apply String.eqb_eq in Hname. now rewrite Hname.
          - apply String.eqb_neq in Hb. now rewrite Hb. }
        now rewrite Hfind.
      * intros cols' Heq Hnone. injection Heq as ->. run_script.
        assert (Hfind : List.find
                  (fun c0 => String.eqb (col_name c0) OpenSearchSetup.collection_name)
                  cols' = None).
        { induction Hnone as [|b cols' Hb _ IH]; simpl; [reflexivity |].
          apply String.eqb_neq in Hb. now rewrite Hb. }
        now rewrite Hfind.
      * intros e He. discriminate He.
    + split; [| split].
      * intros before c after Heq. discriminate Heq.
      * intros cols Heq. discriminate Heq.
      * intros e' _. reflexivity.
  - intros code text Hc Hcode. unfold OpenSearchSetup.create_collection. rewrite Hc.
    apply String.eqb_neq in Hcode. run_script. now rewrite Hcode.
Qed.

End OpenSearchSetupConflict.

Lemma oss_create_conflict_uses_listing_witness :
  result (OpenSearchSetup.create_collection
            (Err (ClientError "ConflictException" "Collection exists"))
            Samples.always_creating
            (Ok [Samples.other_collection; Samples.creating])) =
    Return (Some {| OpenSearchSetup.collection_id := "abc123";
                    OpenSearchSetup.collection_arn :=
                      "arn:aws:aoss:us-west-2:133720367604:collection/abc123";
                    OpenSearchSetup.endpoint := "" |}).
Proof.
  destruct (oss_create_conflict_uses_listing
              (Err (ClientError "ConflictException" "Collection exists"))
              Samples.always_creating
              (Ok [Samples.other_collection; Samples.creating])) as [Hconflict _].
  destruct (Hconflict "Collection exists" eq_refl) as [_ [_ [Hfirst _]]].
  apply (Hfirst [Samples.other_collection] Samples.creating []);
    [reflexivity | | reflexivity].
  constructor; [discriminate | constructor].
Defined.

Section CreateKbCollection.
Context (get : nat -> reply (list collection_detail)).

Local Abbreviation create lookup_reply create_reply polls :=
  (CreateKb.create_opensearch_serverless_collection lookup_reply create_reply get polls).

Local Abbreviation name := "heavy-machinery-knowledge-base-collection".

Lemma createkb_collection_name :
  CreateKb.replace_underscore (CreateKb.KB_NAME +:+ "-collection") = name.
Proof. reflexivity. Qed.

(** The wait, [k] polls without a terminal status first. *)
Lemma createkb_wait_after_pending (collection_id : string) (k : nat) :
  forall polls n,
    (forall i, i < k -> exists d rest, get (n + i) = Ok (d :: rest) /\
       col_status d <> "ACTIVE" /\ col_status d <> "FAILED") ->
    k < polls ->
    result (CreateKb.wait_active get collection_id polls n) =
      result (CreateKb.wait_active get collection_id (polls - k) (n + k)) /\
    sleeps (trace (CreateKb.wait_active get collection_id polls n)) =
      repeat 10 k
      ++ sleeps (trace (CreateKb.wait_active get collection_id (polls - k) (n + k))).
Proof.
  induction k as [|k IH]; intros polls n Hpending Hk.
  - rewrite Nat.sub_0_r, Nat.add_0_r. split; reflexivity.
  - destruct polls as [|polls]; [lia |].
    destruct (Hpending 0 ltac:(lia)) as [d [rest [Hd [H1 H2]]]].
    rewrite Nat.add_0_r in Hd. apply String.eqb_neq in H1, H2.
    destruct (IH polls (S n)) as [IHr IHs]; [| lia |].
    { intros i Hi. replace (S n + i) with (n + S i) by lia. apply Hpending. lia. }
    replace (S polls - S k) with (polls - k) by lia.
    replace (n + S k) with (S n + k) by lia.
    rewrite <- IHr. cbn [repeat]. rewrite <- app_comm_cons, <- IHs.
    cbn [CreateKb.wait_active]. rewrite Hd. run_script. rewrite H1, H2.
    destruct (CreateKb.wait_active get collection_id polls (S n)). split; reflexivity.
Qed.

(** X5: a collection found under the configured name is reused: its
    identifier is returned and nothing is created or polled.  When none is
    found, or the lookup raises a ClientError, the collection is created;
    any other exception of the lookup leaves the function. *)
Theorem createkb_existing_collection_reused
    (lookup_reply : reply (list collection_detail)) (create_reply : reply string)
    (polls : nat) :
  (forall d rest, lookup_reply = Ok (d :: rest) ->
     create lookup_reply create_reply polls =
       ([ Api "batch_get_collection" [("names", name)];
          Print ("✅ OpenSearch collection '" +:+ name +:+ "' already exists") ],
        Return (Some (col_id d)))) /\
  (lookup_reply = Ok [] \/ (exists code text, lookup_reply = Err (ClientError code text)) ->
     exists after,
       trace (create lookup_reply create_reply polls) =
         Api "batch_get_collection" [("names", name)]
         :: Print ("Creating OpenSearch Serverless collection: " +:+ name)
         :: Api "create_collection"
              [("name", name); ("type", "VECTORSEARCH");
               ("description", "Vector collection for " +:+ CreateKb.KB_DESCRIPTION)]
         :: after) /\
  (forall e, lookup_reply = Err e -> is_ClientError e = false ->
     create lookup_reply create_reply polls =
       ([Api "batch_get_collection" [("names", name)]], Raise e)).
Proof.
  unfold CreateKb.create_opensearch_serverless_collection.
  rewrite createkb_collection_name.
  split; [| split].
  - intros d rest ->. reflexivity.
  - intros [-> | [code [text ->]]]; run_script;
      destruct create_reply as [cid|e];
      try (destruct (CreateKb.wait_active get cid polls 0) as [t [[]|e|]]);
      try (destruct e as [c x|x|x|x|x]);
      try (destruct e0 as [c0 x0|x0|x0|x0|x0]);
      simpl; eexists; reflexivity.
  - intros e -> He. destruct e; try discriminate; reflexivity.
Qed.

(** X6: once the collection is created, [k] polls without a terminal status
    are each followed by a sleep of 10 seconds; then an ACTIVE poll makes the
    function return the new identifier, a FAILED poll makes it raise
    "Collection creation failed", a poll with no collection in it raises the
    index error, and a poll that raises a ClientError gives [None]. *)
Theorem createkb_wait_outcomes
    (lookup_reply : reply (list collection_detail)) (create_reply : reply string)
    (cid : string) (k polls : nat) :
  (lookup_reply = Ok [] \/ exists code text, lookup_reply = Err (ClientError code text)) ->
  create_reply = Ok cid ->
  (forall i, i < k -> exists d rest, get i = Ok (d :: rest) /\
     col_status d <> "ACTIVE" /\ col_status d <> "FAILED") ->
  k < polls ->
  (forall d rest, get k = Ok (d :: rest) -> col_status d = "ACTIVE" ->
     result (create lookup_reply create_reply polls) = Return (Some cid) /\ sleeps (trace (create lookup_reply create_reply polls)) = repeat 10 k) /\
  (forall d rest, get k = Ok (d :: rest) -> col_status d = "FAILED" ->
     result (create lookup_reply create_reply polls) = Raise (Exception "Collection creation failed")) /\
  (get k = Ok [] -> result (create lookup_reply create_reply polls) = Raise (Exception "list index out of range")) /\
  (forall e, get k = Err e ->
     result (create lookup_reply create_reply polls) = if is_ClientError e then Return None else Raise e).
Proof.
  intros Hlookup Hcreate Hpending Hk.
  destruct (createkb_wait_after_pending cid k polls 0) as [Hr Hs]; [| exact Hk |].
  { intros i Hi. rewrite Nat.add_0_l. now apply Hpending. }
  rewrite Nat.add_0_l in Hr, Hs.
  replace (polls - k) with (S (polls - k - 1)) in Hr, Hs by lia.
  assert (Hshape :
    result (create lookup_reply create_reply polls) =
      match result (CreateKb.wait_active get cid polls 0) with
      | Return _ => Return (Some cid)
      | Raise e => if is_ClientError e then Return None else Raise e
      | Running => Running
      end /\
    sleeps (trace (create lookup_reply create_reply polls)) = sleeps (trace (CreateKb.wait_active get cid polls 0))).
  { unfold CreateKb.create_opensearch_serverless_collection. rewrite Hcreate.
    destruct Hlookup as [-> | [code [text ->]]]; run_script;
      destruct (CreateKb.wait_active get cid polls 0) as [t [[]|e|]];
      simpl; rewrite ?TraceFacts.sleeps_app; simpl; rewrite ?app_nil_r;
      try (split; reflexivity);
      destruct (is_ClientError e); simpl; rewrite ?TraceFacts.sleeps_app; simpl;
      rewrite ?app_nil_r; split; reflexivity. }
  destruct Hshape as [Hres Hsl]. rewrite Hres, Hsl, Hr, Hs.
  cbn [CreateKb.wait_active].
  split; [| split; [| split]].
  - intros d rest Hd Hst. rewrite Hd. run_script. rewrite Hst. simpl.
    split; [reflexivity | now rewrite app_nil_r].
  - intros d rest Hd Hst. rewrite Hd. run_script. rewrite Hst. reflexivity.
  - intros Hd. rewrite Hd. reflexivity.
  - intros e Hd. rewrite Hd. reflexivity.
Qed.

End CreateKbCollection.

Lemma createkb_existing_collection_reused_witness :
  CreateKb.create_opensearch_serverless_collection
    (Ok [Samples.creating]) (Ok "new1") Samples.always_creating 5 =
    ([ Api "batch_get_collection" [("names", "heavy-machinery-knowledge-base-collection")];
       Print "✅ OpenSearch collection 'heavy-machinery-knowledge-base-collection' already exists" ],
     Return (Some "abc123")).
Proof.
  destruct (createkb_existing_collection_reused Samples.always_creating
              (Ok [Samples.creating]) (Ok "new1") 5)
    as [Hreuse _].
  exact (Hreuse Samples.creating [] eq_refl).
Defined.

Lemma createkb_wait_outcomes_witness :
  result (CreateKb.create_opensearch_serverless_collection
            (Ok []) (Ok "new1") Samples.creating_then_failed 5) =
    Raise (Exception "Collection creation failed").
Proof.
  destruct (createkb_wait_outcomes Samples.creating_then_failed (Ok []) (Ok "new1")
              "new1" 1 5) as [_ [Hfailed _]].
  - now left.
  - reflexivity.
  - intros i Hi. destruct i as [|i]; [| lia].
    exists Samples.creating, []. repeat split; discriminate.
  - lia.
  - exact (Hfailed Samples.failed [] eq_refl eq_refl).
Defined.

End CollectionCreateSpec.

(** ** setup_database.py: the order of the statements *)
Module SetupOrderSpec.
Import SetupDatabase.

Section Main.
Context (execute_statement : nat -> string -> reply (option nat)).

Local Abbreviation run_statement := (SetupDatabase.run_statement execute_statement).
Local Abbreviation run_statements := (SetupDatabase.run_statements execute_statement).

(** What one statement does: it is sent once, stripped; it is followed by a
    sleep of one second when it succeeds; it ends the run when its error is
    not one of the tolerated ones. *)
Lemma run_statement_sends_once (i : nat) (sql : string) :
  sql_sent (trace (run_statement i sql)) = [Py.strip sql] /\
  match execute_statement i (Py.strip sql) with
  | Ok _ =>
      result (run_statement i sql) = Return tt /\
      sleeps (trace (run_statement i sql)) = [1]
  | Err e =>
      result (run_statement i sql) = (if tolerated e then Return tt else Raise e) /\
      sleeps (trace (run_statement i sql)) = []
  end.
Proof.
  destruct (execute_statement i (Py.strip sql)) as [r|e] eqn:He.
  - unfold SetupDatabase.run_statement, execute_sql_statement. rewrite He.
    repeat split.
  - rewrite (SetupDatabaseSpec.run_statement_raising execute_statement i sql e He).
    repeat split.
Qed.

Lemma sql_sent_app (a b : list effect) : sql_sent (a ++ b) = sql_sent a ++ sql_sent b.
Proof.
  induction a as [|ev a IH]; [reflexivity |]. simpl.
  destruct (if is_api "execute_statement" ev then api_arg "sql" ev else None);
    simpl; now rewrite IH.
Qed.

Lemma run_statements_in_order (stmts : list string) :
  forall i, exists n,
    n <= length stmts /\
    sql_sent (trace (run_statements i stmts)) = List.map Py.strip (firstn n stmts) /\
    (result (run_statements i stmts) = Return tt /\ n = length stmts \/
     exists e sql,
       0 < n /\ nth_error stmts (n - 1) = Some sql /\
       execute_statement (i + (n - 1)) (Py.strip sql) = Err e /\
       tolerated e = false /\
       result (run_statements i stmts) = Raise e) /\
    Forall (eq 1) (sleeps (trace (run_statements i stmts))) /\
    length (sleeps (trace (run_statements i stmts))) <= n.
Proof.
  induction stmts as [|sql stmts IH]; intros i.
  - exists 0. repeat split; [lia | left; split; reflexivity | constructor | simpl; lia].
  - destruct (run_statement_sends_once i sql) as [Hsent Hout].
    cbn [SetupDatabase.run_statements].
    rewrite ScriptFacts.trace_bind, ScriptFacts.result_bind.
    destruct (execute_statement i (Py.strip sql)) as [r|e] eqn:He.
    + destruct Hout as [Hr Hs]. rewrite Hr.
      destruct (IH (S i)) as [n [Hn [Hsql [Hres [Hall Hlen]]]]].
      exists (S n). rewrite sql_sent_app, TraceFacts.sleeps_app, Hsent, Hs, Hsql.
      split; [simpl; lia |]. split; [reflexivity |]. split; [| split].
      * destruct Hres as [[Hok ->] | [e [sql' [Hpos [Hnth [Hexec [Htol Hraise]]]]]]].
        -- left. split; [exact Hok | reflexivity].
        -- right. exists e, sql'.
           replace (S n - 1) with (S (n - 1)) by lia.
           replace (i + S (n - 1)) with (S i + (n - 1)) by lia.
           repeat split; try assumption. lia.
      * constructor; [reflexivity | exact Hall].
      * simpl. lia.
    + destruct Hout as [Hr Hs]. rewrite Hr.
      destruct (tolerated e) eqn:Htol.
      * destruct (IH (S i)) as [n [Hn [Hsql [Hres [Hall Hlen]]]]].
        exists (S n). rewrite sql_sent_app, TraceFacts.sleeps_app, Hsent, Hs, Hsql.
        split; [simpl; lia |]. split; [reflexivity |]. split; [| split].
        -- destruct Hres as [[Hok ->] | [e' [sql' [Hpos [Hnth [Hexec [Htol' Hraise]]]]]]].
           ++ left. split; [exact Hok | reflexivity].
           ++ right. exists e', sql'.
              replace (S n - 1) with (S (n - 1)) by lia.
              replace (i + S (n - 1)) with (S i + (n - 1)) by lia.
              repeat split; try assumption. lia.
        -- exact Hall.
        -- simpl. simpl in Hlen. lia.
      * exists 1. rewrite app_nil_r, Hsent, Hs.
        split; [simpl; lia |]. split; [reflexivity |]. split; [| split].
        -- right. exists e, sql. rewrite Nat.add_0_r.
           repeat split; try assumption. lia.
        -- constructor.
        -- simpl. lia.
Qed.

(** X7: [main] sends the statements of its list in their order, each once
    and stripped, and never skips one: what was sent is a prefix of the
    list.  A run that completes has sent the whole list; a run that does not
    complete ends with the error of the last statement it sent, an error
    that is not tolerated (the statement may be the last of the list, so
    that a failing run can have sent the whole list as well).  Every sleep
    is of one second, and there is at most one per statement sent. *)
Theorem setup_statements_in_order :
  exists n,
    n <= length sql_statements /\
    sql_sent (trace (main execute_statement)) =
      List.map Py.strip (firstn n sql_statements) /\
    (result (main execute_statement) = Return tt /\ n = length sql_statements \/
     exists e sql,
       0 < n /\ nth_error sql_statements (n - 1) = Some sql /\
       execute_statement (n - 1) (Py.strip sql) = Err e /\
       tolerated e = false /\
       result (main execute_statement) = Raise e) /\
    Forall (eq 1) (sleeps (trace (main execute_statement))) /\
    length (sleeps (trace (main execute_statement))) <= n.
Proof.
  destruct (run_statements_in_order sql_statements 0) as [n [Hn [Hsql [Hres [Hall Hlen]]]]].
  exists n. unfold main.
  rewrite ScriptFacts.bind_emit. cbv beta. cbn [trace result fst snd].
  rewrite ScriptFacts.trace_bind, ScriptFacts.result_bind.
  change (sql_sent (?ev :: ?t)) with (sql_sent t).
  change (sleeps (?ev :: ?t)) with (sleeps t).
  rewrite sql_sent_app, TraceFacts.sleeps_app.
  split; [exact Hn |].
  destruct Hres as [[Hok Hfull] | [e [sql [Hpos [Hnth [Hexec [Htol Hraise]]]]]]].
  - rewrite Hok. cbn [trace result fst snd emit sql_sent sleeps].
    rewrite !app_nil_r. repeat split; try assumption. left. split; [reflexivity | exact Hfull].
  - rewrite Hraise. rewrite !app_nil_r. repeat split; try assumption.
    right. exists e, sql. repeat split; assumption.
Qed.

End Main.

Lemma setup_statements_in_order_witness :
  sql_sent (trace (main Samples.grant_denied)) =
    List.map Py.strip (firstn 4 sql_statements) /\
  result (main Samples.grant_denied) =
    Raise (Exception "ERROR: permission denied for schema bedrock_integration").
Proof.
  destruct (setup_statements_in_order Samples.grant_denied)
    as [n [Hn [Hsql [Hres _]]]].
  destruct Hres as [[Hok _] | [e [sql [_ [_ [_ [_ Hraise]]]]]]].
  - vm_compute in Hok. discriminate Hok.
  - split; [vm_compute; reflexivity |].
    rewrite Hraise. vm_compute in Hraise. now injection Hraise as <-.
Defined.

End SetupOrderSpec.

(** ** check_ingestion.py: what is asked of the vendor, and what is returned *)
Module CheckIngestionReportSpec.
Import CheckIngestion.

Section Report.
Context (list_ingestion_jobs : string -> reply (list job_summary))
        (get_ingestion_job : string -> string -> reply (option string)).

Local Abbreviation details t := (api_calls "get_ingestion_job" t).
Local Abbreviation is_failed := (fun job => String.eqb (job_status job) "FAILED").

Lemma report_job_details (kb_id : string) (ds : data_source) (job : job_summary) :
  details (trace (report_job get_ingestion_job kb_id ds job)) =
    (if is_failed job then 1 else 0) /\
  result (report_job get_ingestion_job kb_id ds job) = Return tt.
Proof.
  unfold report_job.
  destruct (String.eqb (job_status job) "FAILED"); [| split; reflexivity].
  destruct (get_ingestion_job (dataSourceId ds) (ingestionJobId job)) as [[r|]|e];
    split; reflexivity.
Qed.

Lemma report_jobs_details (kb_id : string) (ds : data_source) (jobs : list job_summary) :
  details (trace (for_each jobs (report_job get_ingestion_job kb_id ds))) =
    length (List.filter is_failed jobs) /\
  result (for_each jobs (report_job get_ingestion_job kb_id ds)) = Return tt.
Proof.
  induction jobs as [|job jobs [IHd IHr]]; [split; reflexivity |].
  destruct (report_job_details kb_id ds job) as [Hd Hr].
  cbn [for_each List.filter].
  rewrite ScriptFacts.trace_bind, ScriptFacts.result_bind, Hr, TraceFacts.api_calls_app.
  rewrite Hd, IHd. split; [| exact IHr].
  now destruct (String.eqb (job_status job) "FAILED").
Qed.

(** X8: the report of a data source asks for the details of a job exactly
    when the job is listed as FAILED, once per such job; whatever these
    requests reply or raise, the report of the data source goes through. *)
Theorem failure_details_for_failed_jobs_only (kb_id : string) (ds : data_source)
    (jobs : list job_summary) :
  list_ingestion_jobs (dataSourceId ds) = Ok jobs ->
  details (trace (report_data_source list_ingestion_jobs get_ingestion_job kb_id ds)) =
    length (List.filter is_failed jobs) /\
  result (report_data_source list_ingestion_jobs get_ingestion_job kb_id ds) = Return tt.
Proof.
  intros Hjobs. unfold report_data_source. rewrite Hjobs.
  destruct (report_jobs_details kb_id ds jobs) as [Hd Hr].
  rewrite !ScriptFacts.bind_emit. cbv beta. cbn [trace result fst snd].
  rewrite ScriptFacts.trace_try_except, ScriptFacts.result_try_except.
  rewrite ScriptFacts.bind_call_ok. cbv beta.
  rewrite ScriptFacts.bind_emit. cbn [trace result fst snd].
  rewrite Hr, app_nil_r, !TraceFacts.api_calls_cons, Hd. now split.
Qed.

End Report.

Lemma failure_details_for_failed_jobs_only_witness :
  api_calls "get_ingestion_job"
    (trace (report_data_source
              (fun _ => Ok [Samples.running_job; Samples.failed_job])
              (fun _ _ => Err (Exception "Read timed out"))
              "L3CRT5Q79H" Samples.machinery_pdfs)) = 1 /\
  result (report_data_source
            (fun _ => Ok [Samples.running_job; Samples.failed_job])
            (fun _ _ => Err (Exception "Read timed out"))
            "L3CRT5Q79H" Samples.machinery_pdfs) = Return tt.
Proof.
  exact (failure_details_for_failed_jobs_only
           (fun _ => Ok [Samples.running_job; Samples.failed_job])
           (fun _ _ => Err (Exception "Read timed out"))
           "L3CRT5Q79H" Samples.machinery_pdfs
           [Samples.running_job; Samples.failed_job] eq_refl).
Defined.

(** X9: what [check_ingestion_status] returns says nothing about the job it
    starts.  With no data source it starts none and returns [True]; when the
    listing of the data sources raises a ClientError it returns [False]
    after that one call; and when the start itself raises a ClientError the
    error is printed and [True] is returned all the same. *)
Theorem check_ingestion_return_value
    (list_data_sources : reply (list data_source))
    (list_ingestion_jobs : string -> reply (list job_summary))
    (get_ingestion_job : string -> string -> reply (option string))
    (start_ingestion_job : string -> reply (string * string))
    (kb_id : string) :
  let run := check_ingestion_status list_data_sources list_ingestion_jobs
               get_ingestion_job start_ingestion_job kb_id in
  (list_data_sources = Ok [] ->
     run = ([ Api "list_data_sources" [("knowledgeBaseId", kb_id)];
              Print ("🔍 Checking ingestion status for KB: " +:+ kb_id);
              Print (str_repeat "=" 50) ], Return true)) /\
  (forall code text, list_data_sources = Err (ClientError code text) ->
     run = ([ Api "list_data_sources" [("knowledgeBaseId", kb_id)];
              Print ("❌ Error checking ingestion status: " +:+ text) ], Return false)) /\
  (forall first others code text,
     list_data_sources = Ok (first :: others) ->
     (forall ds e, list_ingestion_jobs ds = Err e -> is_ClientError e = true) ->
     start_ingestion_job (dataSourceId first) = Err (ClientError code text) ->
     result run = Return true /\
     last (trace run) = Some (Print ("❌ Error starting ingestion job: " +:+ text))).
Proof.
  cbv zeta. split; [| split].
  - intros ->. reflexivity.
  - intros code text ->. reflexivity.
  - intros first others code text Hlist Hclient Hstart.
    destruct (CheckIngestionSpec.report_statuses_quiet list_data_sources
                list_ingestion_jobs get_ingestion_job kb_id (first :: others) Hlist)
      as [_ Hr].
    specialize (Hr Hclient). unfold check_ingestion_status.
    destruct (report_statuses list_data_sources list_ingestion_jobs
                get_ingestion_job kb_id) as [t r].
    simpl in Hr. subst r. unfold start_new_job. run_script. rewrite Hstart. simpl.
    split; [reflexivity |].
    rewrite last_app. reflexivity.
Qed.

Lemma check_ingestion_return_value_witness :
  result (check_ingestion_status
            (Ok [Samples.machinery_pdfs])
            (fun _ => Ok [Samples.running_job])
            (fun _ _ => Ok None)
            (fun _ => Err (ClientError "ConflictException" "An ingestion job is already running"))
            "L3CRT5Q79H") = Return true.
Proof.
  destruct (check_ingestion_return_value
              (Ok [Samples.machinery_pdfs])
              (fun _ => Ok [Samples.running_job])
              (fun _ _ => Ok None)
              (fun _ => Err (ClientError "ConflictException" "An ingestion job is already running"))
              "L3CRT5Q79H") as [_ [_ Hstart]].
  apply (Hstart Samples.machinery_pdfs [] "ConflictException"
           "An ingestion job is already running" eq_refl); [| reflexivity].
  intros ds e H. discriminate H.
Defined.

End CheckIngestionReportSpec.

(** ** app.py: the history and what is rendered *)
Module AppHistorySpec.
Import App.

Lemma chat_messages_app {Float} (a b : list (@ui_event Float)) :
  chat_messages (a ++ b) = chat_messages a ++ chat_messages b.
Proof.
  induction a as [|ev a IH]; [reflexivity |].
  destruct ev; simpl; now rewrite IH.
Qed.

Lemma chat_messages_history {Float} (messages : list message) :
  chat_messages (@display_history Float messages) = messages.
Proof.
  induction messages as [|[r c] messages IH]; [reflexivity |].
  simpl. now rewrite IH.
Qed.

Lemma chat_messages_banner {Float} (cfg : @config Float) :
  chat_messages (status_banner cfg) = [].
Proof.
  unfold status_banner.
  destruct (String.eqb (kb_id cfg) placeholder); [reflexivity |].
  now destruct (aws_available cfg).
Qed.

(** Computing the response renders no chat message. *)
Lemma chat_messages_respond {Float} (B : @bedrock_utils Float) (cfg : config)
    (prompt : string) :
  chat_messages (trace (respond B cfg prompt)) = [].
Proof.
  unfold respond, demo_try_body, kb_try_body.
  destruct (String.eqb (kb_id cfg) placeholder), (aws_available cfg);
    try reflexivity;
    destruct (valid_prompt B prompt (model_id cfg)) as [[|]|e]; try reflexivity.
  - destruct (generate_response B _ _ _ _); reflexivity.
  - run_script.
    destruct (query_knowledge_base B prompt (kb_id cfg)) as [[|r rs]|e];
      try reflexivity.
    destruct (generate_response B _ _ _ _); reflexivity.
Qed.

(** X10: what a run of the script renders as chat messages is, entry by
    entry and in order, the history as the run leaves it: the stored entries
    first, then the two of the turn when an input was submitted.  Without
    an input, or with the empty string as input, nothing is called and the
    history is left as it is. *)
Theorem rendered_messages_are_the_history {Float} (B : @bedrock_utils Float)
    (cfg : config) (messages : list message) (input : option string) :
  exists final,
    result (script_run B cfg messages input) = Return final /\
    chat_messages (trace (script_run B cfg messages input)) = final /\
    (submitted input = false ->
       final = messages /\
       List.filter is_bedrock_utils_call (trace (script_run B cfg messages input)) = []).
Proof.
  unfold script_run.
  rewrite ScriptFacts.trace_bind, ScriptFacts.result_bind.
  cbn [trace result fst snd].
  rewrite !chat_messages_app, chat_messages_history, chat_messages_banner.
  rewrite !List.filter_app.
  assert (Hquiet : List.filter is_bedrock_utils_call
                     (display_history messages ++ status_banner cfg) = []).
  { rewrite List.filter_app.
    replace (List.filter is_bedrock_utils_call (display_history messages))
      with (@nil (@ui_event Float)).
    - unfold status_banner.
      destruct (String.eqb (kb_id cfg) placeholder); [reflexivity |].
      now destruct (aws_available cfg).
    - induction messages as [|m ms IH]; [reflexivity | exact IH]. }
  rewrite List.filter_app in Hquiet. rewrite Hquiet.
  destruct input as [prompt|];
    [destruct (String.eqb_spec prompt "") as [->|Hp] |].
  - exists messages. simpl. rewrite !app_nil_r. repeat split.
  - destruct (AppSpec.respond_returns B cfg prompt) as [response Hr].
    rewrite (AppSpec.chat_turn_submitted B cfg messages prompt response Hp Hr).
    eexists. split; [reflexivity |]. split.
    + cbn [trace fst chat_messages].
      rewrite chat_messages_app, chat_messages_respond. simpl.
      now rewrite app_nil_r.
    + intros Hsub. simpl in Hsub. apply PyFacts.truthy_iff in Hp. congruence.
  - exists messages. simpl. rewrite !app_nil_r. repeat split.
Qed.

Lemma well_paired_snoc (ms : list message) (prompt response : string) :
  well_paired ms = true ->
  well_paired (ms ++ [ {| role := "user"; content := prompt |};
                       {| role := "assistant"; content := response |} ]) = true.
Proof.
  assert (H : forall ms,
             (well_paired ms = true ->
              well_paired (ms ++ [ {| role := "user"; content := prompt |};
                                   {| role := "assistant"; content := response |} ]) = true) /\
             (forall x, well_paired (x :: ms) = true ->
              well_paired ((x :: ms) ++ [ {| role := "user"; content := prompt |};
                                          {| role := "assistant"; content := response |} ]) = true)).
  { clear ms. induction ms as [|y ms [IH1 IH2]].
    - split; [reflexivity | discriminate].
    - split; [apply IH2 |].
      intros x Hx. simpl in Hx. apply andb_prop in Hx as [Hxy Hms].
      simpl. rewrite Hxy. simpl. now apply IH1. }
  apply H.
Qed.

(** A run adds two entries when an input was submitted and none otherwise,
    and keeps a paired history paired. *)
Lemma script_run_paired {Float} (B : @bedrock_utils Float) (cfg : config)
    (messages : list message) (input : option string) :
  exists final,
    result (script_run B cfg messages input) = Return final /\
    length final = length messages + (if submitted input then 2 else 0) /\
    (well_paired messages = true -> well_paired final = true).
Proof.
  rewrite AppSpec.script_run_result.
  destruct input as [prompt|];
    [destruct (String.eqb_spec prompt "") as [->|Hp] |].
  - exists messages. repeat split; [simpl; lia | auto].
  - destruct (AppSpec.respond_returns B cfg prompt) as [response Hr].
    rewrite (AppSpec.chat_turn_submitted B cfg messages prompt response Hp Hr).
    eexists. split; [reflexivity |]. split.
    + apply PyFacts.truthy_iff in Hp. simpl. rewrite Hp, length_app. reflexivity.
    + apply well_paired_snoc.
  - exists messages. repeat split; [simpl; lia | auto].
Qed.

(** X11: a history that a session builds from a history of user and
    assistant pairs, the empty one in particular, is again made of such
    pairs, and it has grown by two entries for each run with a submitted
    input and by nothing for the other runs. *)
Theorem session_history_is_paired {Float}
    (runs : list (@bedrock_utils Float * config * option string))
    (messages : list message) :
  well_paired messages = true ->
  exists final,
    session messages runs = Return final /\
    well_paired final = true /\
    length final =
      length messages + 2 * length (List.filter (fun run => submitted (snd run)) runs).
Proof.
  revert messages. induction runs as [|[[B cfg] input] runs IH]; intros messages Hpaired.
  - exists messages. repeat split; [exact Hpaired | simpl; lia].
  - destruct (script_run_paired B cfg messages input) as [mid [Hrun [Hlen Hmid]]].
    destruct (IH mid (Hmid Hpaired)) as [final [Hsession [Hfinal Hlength]]].
    exists final. cbn [session]. rewrite Hrun, Hsession.
    split; [reflexivity |]. split; [exact Hfinal |].
    rewrite Hlength, Hlen. cbn [List.filter snd].
    destruct (submitted input); simpl; lia.
Qed.

Lemma session_history_is_paired_witness :
  exists final,
    session []
      [ (Samples.accepting, Samples.demo_cfg, Some "Tell me about the BD850");
        (Samples.accepting, Samples.demo_cfg, None);
        (Samples.rejecting, Samples.kb_cfg, Some "What is the capital of France?") ]
      = Return final /\
    well_paired final = true /\ length final = 4.
Proof.
  destruct (session_history_is_paired
              [ (Samples.accepting, Samples.demo_cfg, Some "Tell me about the BD850");
                (Samples.accepting, Samples.demo_cfg, None);
                (Samples.rejecting, Samples.kb_cfg, Some "What is the capital of France?") ]
              [] eq_refl) as [final [Hs [Hp Hl]]].
  exists final. repeat split; assumption.
Defined.

Lemma rendered_messages_are_the_history_witness :
  chat_messages (trace (script_run Samples.accepting Samples.kb_cfg
                          [ {| role := "user"; content := "hello" |};
                            {| role := "assistant"; content := off_topic_response |} ]
                          (Some ""))) =
    [ {| role := "user"; content := "hello" |};
      {| role := "assistant"; content := off_topic_response |} ].
Proof.
  destruct (rendered_messages_are_the_history Samples.accepting Samples.kb_cfg
              [ {| role := "user"; content := "hello" |};
                {| role := "assistant"; content := off_topic_response |} ]
              (Some "")) as [final [_ [Hrendered Hquiet]]].
  destruct (Hquiet eq_refl) as [Hfinal _].
  now rewrite Hrendered, Hfinal.
Defined.

Section DemoErrors.
Context {Float : Type} (B : @bedrock_utils Float).

(** X12: in demo mode with credentials, an exception of the validation or
    of the generation does not leave the turn: the response is the error
    text wrapped in the advice to check the credentials, and the knowledge
    base is not queried. *)
Theorem demo_error_becomes_response (cfg : config) (prompt : string) (e : exn) :
  kb_id cfg = placeholder ->
  aws_available cfg = true ->
  valid_prompt B prompt (model_id cfg) = Err e \/
  (valid_prompt B prompt (model_id cfg) = Ok true /\
   generate_response B (demo_full_prompt prompt) (model_id cfg)
     (temperature cfg) (top_p cfg) = Err e) ->
  result (respond B cfg prompt) =
    Return ("❌ **Error**: " +:+ str e +:+ ". Please check your AWS credentials.") /\
  Py.str_in (str e) ("❌ **Error**: " +:+ str e +:+ ". Please check your AWS credentials.") = true /\
  queries_kb (trace (respond B cfg prompt)) = false.
Proof.
  intros Hkb Haws Hraise.
  split; [| split].
  - unfold respond, demo_try_body. apply String.eqb_eq in Hkb. rewrite Hkb, Haws.
    destruct Hraise as [Hv | [Hv Hg]]; rewrite Hv; [reflexivity |].
    run_script. rewrite Hg. reflexivity.
  - apply PyFacts.str_in_middle.
  - now apply AppSpec.demo_mode_no_query.
Qed.

End DemoErrors.

Lemma demo_error_becomes_response_witness :
  result (respond (Samples.unreachable (Exception "Could not connect to the endpoint URL"))
            Samples.demo_cfg "Tell me about the BD850") =
    Return "❌ **Error**: Could not connect to the endpoint URL. Please check your AWS credentials.".
Proof.
  destruct (demo_error_becomes_response
              (Samples.unreachable (Exception "Could not connect to the endpoint URL"))
              Samples.demo_cfg "Tell me about the BD850"
              (Exception "Could not connect to the endpoint URL")
              eq_refl eq_refl) as [Hr _].
  - right. split; reflexivity.
  - exact Hr.
Defined.

End AppHistorySpec.

(** ** aurora_public_access.py: which choices reach the cluster *)
Module AuroraMenuSpec.
Import AuroraPublicAccessMenu.

Lemma operations_app (a b : list effect) :
  operations (a ++ b) = operations a ++ operations b.
Proof.
  induction a as [|ev a IH]; [reflexivity |].
  destruct ev; simpl; now rewrite IH.
Qed.

(** The operations of the two functions behind the choices 1 and 2. *)
Lemma enable_operations (confirm_line : reply string) (modify_reply : reply unit) :
  operations (trace (AuroraPublicAccess.enable_aurora_public_access
                       confirm_line modify_reply)) =
    match confirm_line with
    | Ok line =>
        if String.eqb (Py.strip (Py.lower line)) "yes" then ["modify_db_cluster"] else []
    | Err _ => []
    end.
Proof.
  unfold AuroraPublicAccess.enable_aurora_public_access.
  destruct confirm_line as [line|e]; [| reflexivity].
  run_script.
  destruct (String.eqb (Py.strip (Py.lower line)) "yes"); [| reflexivity].
  now destruct modify_reply as [[]|e].
Qed.

Lemma disable_operations (modify_reply : reply unit) :
  operations (trace (AuroraPublicAccess.disable_aurora_public_access modify_reply)) =
    ["modify_db_cluster"].
Proof.
  unfold AuroraPublicAccess.disable_aurora_public_access.
  now destruct modify_reply as [[]|e].
Qed.

Lemma check_current_status_quiet (describe_reply : reply (list db_cluster)) :
  operations (trace (check_current_status describe_reply)) = ["describe_db_clusters"] /\
  result (check_current_status describe_reply) = Return tt.
Proof.
  unfold check_current_status.
  destruct describe_reply as [[|c cs]|e]; try (split; reflexivity).
  run_script. destruct (default false (PubliclyAccessible c)); split; reflexivity.
Qed.

(** X13: the menu reaches the cluster by the entered choice, stripped but
    not lowercased, and by nothing else: choice 1 modifies it only after
    the confirmation, choice 2 modifies it at once, choice 3 only describes
    it and never raises, also when no cluster is described, and any other
    choice calls nothing.  Whenever the choice could be read, [main]
    returns; when reading it raises, the exception leaves [main] and
    nothing is called. *)
Theorem menu_operations (choice_line confirm_line : reply string)
    (modify_reply : reply unit) (describe_reply : reply (list db_cluster)) :
  let run := main choice_line confirm_line modify_reply describe_reply in
  match choice_line with
  | Ok line =>
      operations (trace run) =
        (if String.eqb (Py.strip line) "1" then
           match confirm_line with
           | Ok answer =>
               if String.eqb (Py.strip (Py.lower answer)) "yes"
               then ["modify_db_cluster"] else []
           | Err _ => []
           end
         else if String.eqb (Py.strip line) "2" then ["modify_db_cluster"]
         else if String.eqb (Py.strip line) "3" then ["describe_db_clusters"]
         else []) /\
      result run = Return tt /\
      (In "modify_db_cluster" (operations (trace run)) ->
       Py.strip line = "1" \/ Py.strip line = "2")
  | Err e =>
      operations (trace run) = [] /\
      result run = Raise e
  end.
Proof.
  cbv zeta. destruct choice_line as [line|e]; [| split; reflexivity].
  unfold main.
  rewrite !ScriptFacts.bind_emit. cbv beta. rewrite ScriptFacts.bind_call_ok. cbv beta.
  cbn [trace result fst snd operations].
  destruct (String.eqb_spec (Py.strip line) "1") as [H1|H1];
    [| destruct (String.eqb_spec (Py.strip line) "2") as [H2|H2];
       [| destruct (String.eqb_spec (Py.strip line) "3") as [H3|H3]]].
  - rewrite ScriptFacts.trace_bind, ScriptFacts.result_bind, operations_app.
    rewrite enable_operations.
    assert (Hr : exists b, result (AuroraPublicAccess.enable_aurora_public_access
                                     confirm_line modify_reply) = Return b).
    { unfold AuroraPublicAccess.enable_aurora_public_access.
      destruct confirm_line as [answer|e]; [| eexists; reflexivity].
      run_script.
      destruct (String.eqb (Py.strip (Py.lower answer)) "yes"); [| eexists; reflexivity].
      destruct modify_reply as [[]|e]; eexists; reflexivity. }
    destruct Hr as [b ->]. cbn [trace result fst snd mret script_ret ret operations].
    rewrite app_nil_r. repeat split. intros _. now left.
  - rewrite ScriptFacts.trace_bind, ScriptFacts.result_bind, operations_app.
    rewrite disable_operations.
    assert (Hr : exists b, result (AuroraPublicAccess.disable_aurora_public_access
                                     modify_reply) = Return b).
    { unfold AuroraPublicAccess.disable_aurora_public_access.
      destruct modify_reply as [[]|e]; eexists; reflexivity. }
    destruct Hr as [b ->]. cbn [trace result fst snd mret script_ret ret operations].
    repeat split. intros _. now right.
  - destruct (check_current_status_quiet describe_reply) as [Hops Hres].
    rewrite Hops, Hres. repeat split. intros [H|[]]. discriminate H.
  - repeat split. intros [].
Qed.

Lemma menu_operations_witness :
  operations (trace (main (Ok " 3 ") (Ok "yes") (Ok tt) (Ok []))) =
    ["describe_db_clusters"] /\
  operations (trace (main (Ok (Samples.nbsp +:+ "2" +:+ Samples.ideographic_space))
                       (Ok "no") (Ok tt) (Ok []))) =
    ["modify_db_cluster"] /\
  operations (trace (main (Ok "one") (Ok "yes") (Ok tt) (Ok []))) = [] /\
  result (main (Err (Exception "EOF when reading a line")) (Ok "yes") (Ok tt) (Ok [])) =
    Raise (Exception "EOF when reading a line").
Proof.
  destruct (menu_operations (Ok " 3 ") (Ok "yes") (Ok tt) (Ok [])) as [H3 _].
  destruct (menu_operations (Ok (Samples.nbsp +:+ "2" +:+ Samples.ideographic_space))
              (Ok "no") (Ok tt) (Ok [])) as [H2 _].
  destruct (menu_operations (Ok "one") (Ok "yes") (Ok tt) (Ok [])) as [Hother _].
  destruct (menu_operations (Err (Exception "EOF when reading a line"))
              (Ok "yes") (Ok tt) (Ok [])) as [_ Hraise].
  split; [exact H3 |]. split; [exact H2 |]. split; [exact Hother | exact Hraise].
Defined.

End AuroraMenuSpec.

(** ** setup_opensearch_serverless.py: policies first, then the collection *)
Module OpenSearchPoliciesSpec.
Import OpenSearchPolicies.

Lemma encryption_policy_cases (r : reply string) :
  operations (trace (create_encryption_policy r)) = ["create_security_policy"] /\
  sleeps (trace (create_encryption_policy r)) = [] /\
  (result (create_encryption_policy r) = Return true <-> in_place r) /\
  (forall code text, r = Err (ClientError code text) -> code <> "ConflictException" ->
     result (create_encryption_policy r) = Return false) /\
  (forall e, r = Err e -> is_ClientError e = false ->
     result (create_encryption_policy r) = Raise e).
Proof.
  unfold create_encryption_policy, policy_handler, in_place.
  destruct r as [name|e].
  - split; [reflexivity |]. split; [reflexivity |]. split; [| split].
    + split; [intros _; left; now exists name | reflexivity].
    + intros code text H. discriminate H.
    + intros e H. discriminate H.
  - destruct e as [code text|text|text|text|text]; run_script;
      try (split; [reflexivity |]; split; [reflexivity |]; split; [| split];
           [ split; [discriminate | intros [[n H]|[t H]]; discriminate H]
           | intros c t H; discriminate H
           | intros e H _; now injection H as <- ]).
    destruct (String.eqb_spec code "ConflictException") as [->|Hcode].
    + split; [reflexivity |]. split; [reflexivity |]. split; [| split].
      * split; [intros _; right; now exists text | reflexivity].
      * intros c t H Hne. injection H as <- _. contradiction.
      * intros e H He. injection H as <-. discriminate He.
    + split; [reflexivity |]. split; [reflexivity |]. split; [| split].
      * split; [discriminate |].
        intros [[n H]|[t H]]; [discriminate H | injection H as -> _; contradiction].
      * reflexivity.
      * intros e H He. injection H as <-. discriminate He.
Qed.

Lemma network_policy_cases (r : reply string) :
  operations (trace (create_network_policy r)) = ["create_security_policy"] /\
  sleeps (trace (create_network_policy r)) = [] /\
  (result (create_network_policy r) = Return true <-> in_place r) /\
  (forall code text, r = Err (ClientError code text) -> code <> "ConflictException" ->
     result (create_network_policy r) = Return false) /\
  (forall e, r = Err e -> is_ClientError e = false ->
     result (create_network_policy r) = Raise e).
Proof.
  unfold create_network_policy, policy_handler, in_place.
  destruct r as [name|e].
  - split; [reflexivity |]. split; [reflexivity |]. split; [| split].
    + split; [intros _; left; now exists name | reflexivity].
    + intros code text H. discriminate H.
    + intros e H. discriminate H.
  - destruct e as [code text|text|text|text|text]; run_script;
      try (split; [reflexivity |]; split; [reflexivity |]; split; [| split];
           [ split; [discriminate | intros [[n H]|[t H]]; discriminate H]
           | intros c t H; discriminate H
           | intros e H _; now injection H as <- ]).
    destruct (String.eqb_spec code "ConflictException") as [->|Hcode].
    + split; [reflexivity |]. split; [reflexivity |]. split; [| split].
      * split; [intros _; right; now exists text | reflexivity].
      * intros c t H Hne. injection H as <- _. contradiction.
      * intros e H He. injection H as <-. discriminate He.
    + split; [reflexivity |]. split; [reflexivity |]. split; [| split].
      * split; [discriminate |].
        intros [[n H]|[t H]]; [discriminate H | injection H as -> _; contradiction].
      * reflexivity.
      * intros e H He. injection H as <-. discriminate He.
Qed.

Lemma data_access_policy_cases (identity r : reply string) :
  sleeps (trace (create_data_access_policy identity r)) = [] /\
  (result (create_data_access_policy identity r) = Return true <->
   (exists arn, identity = Ok arn /\ arn <> "") /\ in_place r) /\
  (result (create_data_access_policy identity r) = Return true ->
   operations (trace (create_data_access_policy identity r)) =
     ["get_caller_identity"; "create_access_policy"]) /\
  ((forall arn, identity = Ok arn -> arn = "") ->
   operations (trace (create_data_access_policy identity r)) = ["get_caller_identity"] /\
   result (create_data_access_policy identity r) = Return false) /\
  ~ In "create_collection" (operations (trace (create_data_access_policy identity r))).
Proof.
  unfold create_data_access_policy, get_current_user_arn, policy_handler, in_place.
  destruct identity as [arn|e].
  - unfold Py.truthy. run_script.
    destruct (String.eqb_spec arn "") as [->|Harn]; simpl.
    + split; [reflexivity |]. split; [| split; [| split]].
      * split; [discriminate |]. intros [[a [H Ha]] _]. injection H as <-. contradiction.
      * discriminate.
      * intros _. split; reflexivity.
      * intros [H|[]]. discriminate H.
    + destruct r as [name|e]; simpl.
      * split; [reflexivity |]. split; [| split; [| split]].
        -- split; [intros _ | reflexivity].
           split; [now exists arn | left; now exists name].
        -- reflexivity.
        -- intros H. specialize (H arn eq_refl). contradiction.
        -- intros [H|[H|[]]]; discriminate H.
      * destruct e as [code text|text|text|text|text]; simpl;
          try (split; [reflexivity |]; split; [| split; [| split]];
               [ split; [discriminate | intros [_ [[n H]|[t H]]]; discriminate H]
               | discriminate
               | intros H; specialize (H arn eq_refl); contradiction
               | intros [H|[H|[]]]; discriminate H ]).
        destruct (String.eqb_spec code "ConflictException") as [->|Hcode]; simpl.
        -- split; [reflexivity |]. split; [| split; [| split]].
           ++ split; [intros _ | reflexivity].
              split; [now exists arn | right; now exists text].
           ++ reflexivity.
           ++ intros H. specialize (H arn eq_refl). contradiction.
           ++ intros [H|[H|[]]]; discriminate H.
        -- split; [reflexivity |]. split; [| split; [| split]].
           ++ split; [discriminate |].
              intros [_ [[n H]|[t H]]]; [discriminate H | injection H as -> _; contradiction].
           ++ discriminate.
           ++ intros H. specialize (H arn eq_refl). contradiction.
           ++ intros [H|[H|[]]]; discriminate H.
  - destruct e as [code text|text|text|text|text]; simpl;
      (split; [reflexivity |]; split; [| split; [| split]];
       [ split; [discriminate | intros [[a [H Ha]] _]; discriminate H]
       | discriminate
       | intros _; split; reflexivity
       | intros [H|[]]; discriminate H ]).
Qed.

(** X14: a policy that exists already counts as created.  Each of the
    policy functions returns [True] exactly when its create call returns or
    is refused with ConflictException; the data access policy needs the
    ARN of the caller as well, and is not requested at all when the
    identity cannot be read or the ARN is empty. *)
Theorem existing_policy_counts_as_created (encryption network identity access : reply string) :
  (result (create_encryption_policy encryption) = Return true <-> in_place encryption) /\
  (result (create_network_policy network) = Return true <-> in_place network) /\
  (result (create_data_access_policy identity access) = Return true <->
   (exists arn, identity = Ok arn /\ arn <> "") /\ in_place access) /\
  ((forall arn, identity = Ok arn -> arn = "") ->
   operations (trace (create_data_access_policy identity access)) = ["get_caller_identity"] /\
   result (create_data_access_policy identity access) = Return false).
Proof.
  split; [apply encryption_policy_cases |].
  split; [apply network_policy_cases |].
  split; apply data_access_policy_cases.
Qed.

Lemma existing_policy_counts_as_created_witness :
  result (create_encryption_policy
            (Err (ClientError "ConflictException" "Policy with name machinery-kb-encryption exists")))
    = Return true /\
  result (create_data_access_policy (Err (NoCredentialsError "Unable to locate credentials"))
            (Ok "machinery-kb-access")) = Return false.
Proof.
  destruct (existing_policy_counts_as_created
              (Err (ClientError "ConflictException" "Policy with name machinery-kb-encryption exists"))
              (Ok "machinery-kb-network")
              (Err (NoCredentialsError "Unable to locate credentials"))
              (Ok "machinery-kb-access")) as [Henc [_ [_ Hident]]].
  split.
  - apply Henc. right. eexists. reflexivity.
  - apply Hident. intros arn H. discriminate H.
Defined.

Section Setup.
Context (encryption network identity access : reply string)
        (create_reply : reply (string * string))
        (get : nat -> reply (list collection_detail))
        (list_reply : reply (list collection_detail)).

Local Abbreviation enc := (create_encryption_policy encryption).
Local Abbreviation net := (create_network_policy network).
Local Abbreviation acc := (create_data_access_policy identity access).
Local Abbreviation collection :=
  (OpenSearchSetup.create_collection create_reply get list_reply).
Local Abbreviation setup :=
  (setup_complete_opensearch encryption network identity access
     create_reply get list_reply).

(** The first operation of [create_collection] is the creation. *)
Lemma create_collection_first_operation :
  exists rest, operations (trace collection) = "create_collection" :: rest /\
               hd_error (operations (trace collection)) = Some "create_collection".
Proof.
  unfold OpenSearchSetup.create_collection.
  rewrite ScriptFacts.bind_emit. cbv beta. cbn [trace fst].
  rewrite ScriptFacts.trace_try_except.
  destruct create_reply as [[id arn]|e].
  - rewrite ScriptFacts.bind_call_ok. cbn [trace fst operations].
    rewrite !AuroraMenuSpec.operations_app. cbn [operations app].
    eexists. split; reflexivity.
  - cbn [trace fst operations call app].
    rewrite AuroraMenuSpec.operations_app. cbn [operations app].
    eexists. split; reflexivity.
Qed.

(** The operations of the setup, by the outcomes of the three policy
    steps. *)
Lemma setup_operations :
  operations (trace setup) =
    "create_security_policy" ::
    match result enc with
    | Return true =>
        "create_security_policy" ::
        match result net with
        | Return true =>
            operations (trace acc) ++
            match result acc with
            | Return true => operations (trace collection)
            | _ => []
            end
        | _ => []
        end
    | _ => []
    end /\
  sleeps (trace setup) =
    match result enc, result net, result acc with
    | Return true, Return true, Return true => 10 :: sleeps (trace collection)
    | _, _, _ => []
    end.
Proof.
  destruct (encryption_policy_cases encryption) as [Hoe [Hse _]].
  destruct (network_policy_cases network) as [Hon [Hsn _]].
  destruct (data_access_policy_cases identity access) as [Hsa _].
  unfold setup_complete_opensearch.
  rewrite !ScriptFacts.bind_emit. cbv beta. cbn [trace fst operations sleeps].
  rewrite ScriptFacts.trace_bind, AuroraMenuSpec.operations_app, TraceFacts.sleeps_app.
  rewrite Hoe, Hse. cbn [app].
  destruct (result enc) as [[|]|e|]; try (split; reflexivity). cbn [negb].
  rewrite ScriptFacts.trace_bind, AuroraMenuSpec.operations_app, TraceFacts.sleeps_app.
  rewrite Hon, Hsn. cbn [app].
  destruct (result net) as [[|]|e|]; try (split; reflexivity). cbn [negb].
  rewrite ScriptFacts.trace_bind, AuroraMenuSpec.operations_app, TraceFacts.sleeps_app.
  rewrite Hsa. cbn [app].
  destruct (result acc) as [[|]|e|];
    try (rewrite ?app_nil_r; split; reflexivity). cbn [negb].
  cbn [trace fst operations sleeps].
  destruct (OpenSearchSetup.create_collection create_reply get list_reply)
    as [tc [[info|]|e|]];
    run_script;
    rewrite ?AuroraMenuSpec.operations_app, ?TraceFacts.sleeps_app; simpl;
    rewrite ?app_nil_r; split; reflexivity.
Qed.

(** X15: the setup asks for the collection only after the three policy
    steps have returned [True], and then after a sleep of 10 seconds; it
    stops at the first step that does not, with no later operation. *)
Theorem collection_only_after_policies :
  (In "create_collection" (operations (trace setup)) <->
   result enc = Return true /\ result net = Return true /\ result acc = Return true) /\
  (result enc <> Return true ->
   operations (trace setup) = ["create_security_policy"]) /\
  (result enc = Return true -> result net <> Return true ->
   operations (trace setup) = ["create_security_policy"; "create_security_policy"]) /\
  (result enc = Return true -> result net = Return true -> result acc = Return true ->
   exists rest,
     operations (trace setup) =
       [ "create_security_policy"; "create_security_policy";
         "get_caller_identity"; "create_access_policy"; "create_collection" ] ++ rest /\
     hd_error (sleeps (trace setup)) = Some 10).
Proof.
  destruct setup_operations as [Hops Hsl].
  destruct (data_access_policy_cases identity access) as [_ [_ [Hacc_ops [_ Hacc_no]]]].
  destruct create_collection_first_operation as [rest [Hcol _]].
  split; [| split; [| split]].
  - rewrite Hops. split.
    + intros [H|Hin]; [discriminate H |].
      destruct (result enc) as [[|]|e|]; try contradiction.
      destruct Hin as [H|Hin]; [discriminate H |].
      destruct (result net) as [[|]|e|]; try contradiction.
      apply in_app_or in Hin as [Hin|Hin]; [contradiction |].
      destruct (result acc) as [[|]|e|]; try contradiction.
      repeat split.
    + intros [-> [-> Ha]]. rewrite Ha, Hcol.
      right. right. apply in_or_app. right. now left.
  - intros Henc. rewrite Hops.
    destruct (result enc) as [[|]|e|]; try reflexivity. contradiction.
  - intros Henc Hnet. rewrite Hops, Henc.
    destruct (result net) as [[|]|e|]; try reflexivity. contradiction.
  - intros Henc Hnet Ha. rewrite Hops, Hsl, Henc, Hnet, Ha, (Hacc_ops Ha), Hcol.
    exists rest. split; reflexivity.
Qed.

End Setup.

Lemma collection_only_after_policies_witness :
  operations (trace (setup_complete_opensearch
                       (Ok "machinery-kb-encryption")
                       (Err (ClientError "AccessDeniedException" "User is not authorized"))
                       (Ok "arn:aws:iam::133720367604:user/admin")
                       (Ok "machinery-kb-access")
                       (Ok ("abc123", "arn:aws:aoss:us-west-2:133720367604:collection/abc123"))
                       Samples.always_creating (Ok []))) =
    ["create_security_policy"; "create_security_policy"].
Proof.
  destruct (collection_only_after_policies
              (Ok "machinery-kb-encryption")
              (Err (ClientError "AccessDeniedException" "User is not authorized"))
              (Ok "arn:aws:iam::133720367604:user/admin")
              (Ok "machinery-kb-access")
              (Ok ("abc123", "arn:aws:aoss:us-west-2:133720367604:collection/abc123"))
              Samples.always_creating (Ok [])) as [_ [_ [Hnet _]]].
  apply Hnet; [reflexivity | discriminate].
Defined.

End OpenSearchPoliciesSpec.

(** ** run_database_setup.py *)
Module RunDatabaseSetupSpec.
Import RunDatabaseSetup ScriptFacts TraceFacts.

Lemma effects_app (a b : list event) : effects (a ++ b) = effects a ++ effects b.
Proof.
  induction a as [|ev a IH]; [reflexivity |].
  destruct ev; simpl; now rewrite IH.
Qed.

(** A trace that never called [execute_statement] sent no SQL. *)
Lemma sql_sent_without_execute (t : list effect) :
  ~ In "execute_statement" (operations t) -> sql_sent t = [].
Proof.
  induction t as [|ev t IH]; [reflexivity |].
  destruct ev as [text|s|p|op args]; simpl; intros Hin; try (apply IH; exact Hin).
  destruct (String.eqb op "execute_statement") eqn:Hop.
  - apply String.eqb_eq in Hop. exfalso. apply Hin. now left.
  - apply IH. intros Hrest. apply Hin. now right.
Qed.

Section Setup.
Context (execute_statement : nat -> string -> reply response)
        (error_message : exn -> string)
        (describe_reply : reply (list db_cluster)).

Local Abbreviation execute := (execute_sql_with_data_api execute_statement error_message).
Local Abbreviation setup_loop := (run_setup_commands execute_statement error_message).
Local Abbreviation verification_loop :=
  (run_verification_queries execute_statement error_message).
Local Abbreviation main := (RunDatabaseSetup.main execute_statement error_message describe_reply).

Lemma print_rows_quiet (rows : list string) (i : nat) :
  result (print_rows i rows) = Return tt /\
  operations (effects (trace (print_rows i rows))) = [] /\
  sleeps (effects (trace (print_rows i rows))) = [].
Proof.
  revert i. induction rows as [|record rest IH]; intros i; [now repeat split |].
  destruct (IH (S i)) as (Hres & Hops & Hsleeps).
  cbn [print_rows]. unfold say. rewrite bind_emit.
  cbn [trace result fst snd effects operations sleeps]. now repeat split.
Qed.

Local Arguments print_rows : simpl never.

(** One statement: it is sent once, and only an exception that is not a
    ClientError leaves the function. *)
Lemma execute_observed (n : nat) (sql : string) :
  sql_sent (effects (trace (execute n sql cluster_arn secret_arn))) = [sql] /\
  operations (effects (trace (execute n sql cluster_arn secret_arn))) = ["execute_statement"] /\
  sleeps (effects (trace (execute n sql cluster_arn secret_arn))) = [] /\
  result (execute n sql cluster_arn secret_arn) =
    match execute_statement n sql with
    | Ok r => Return (true, inl r)
    | Err e => if is_ClientError e then Return (false, inr (str e)) else Raise e
    end.
Proof.
  unfold execute_sql_with_data_api, say.
  destruct (execute_statement n sql) as [[[[|record rest]|] [updated|]]|e];
    try (run_script; now repeat split);
    try (destruct e; run_script; now repeat split).
  all: destruct (print_rows_quiet (record :: rest) 0) as (Hres & Hops & Hsleeps).
  all: run_script.
  all: destruct (print_rows 0 (record :: rest)) as [rows done].
  all: simpl in *; subst done; simpl.
  all: rewrite !effects_app, !SetupOrderSpec.sql_sent_app, !AuroraMenuSpec.operations_app,
         !sleeps_app, Hops, Hsleeps.
  all: rewrite (sql_sent_without_execute (effects rows)) by (rewrite Hops; intros []).
  all: now repeat split.
Qed.

(** The loop over the commands passes over every ClientError. *)
Lemma setup_loop_observed (commands : list string) :
  (forall n sql e, execute_statement n sql = Err e -> is_ClientError e = true) ->
  forall i total count,
    result (setup_loop i total commands count) =
      Return (count + accepted execute_statement i commands) /\
    sql_sent (effects (trace (setup_loop i total commands count))) = commands /\
    operations (effects (trace (setup_loop i total commands count))) =
      repeat "execute_statement" (length commands) /\
    sleeps (effects (trace (setup_loop i total commands count))) =
      repeat 1 (length commands).
Proof.
  intros Hclient. induction commands as [|cmd rest IH]; intros i total count.
  - simpl. rewrite Nat.add_0_r. now repeat split.
  - destruct (execute_observed i cmd) as (Hsql & Hops & Hsl & Hres).
    cbn [run_setup_commands accepted length repeat].
    destruct (execute i cmd cluster_arn secret_arn) as [te re].
    cbn [trace result fst snd] in Hsql, Hops, Hsl, Hres.
    destruct (execute_statement i cmd) as [r|e] eqn:Hreply.
    + subst re.
      destruct (IH (S i) total (count + 1)) as (Hres' & Hsql' & Hops' & Hsl').
      run_script.
      destruct (run_setup_commands execute_statement error_message (S i) total rest (count + 1))
        as [tr rr].
      simpl in *. subst rr.
      rewrite !effects_app, !SetupOrderSpec.sql_sent_app, !AuroraMenuSpec.operations_app,
        !sleeps_app, Hsql, Hops, Hsl. simpl.
      rewrite Hsql', Hops', Hsl'. repeat split. f_equal. lia.
    + rewrite (Hclient _ _ _ Hreply) in Hres. subst re.
      destruct (IH (S i) total count) as (Hres' & Hsql' & Hops' & Hsl').
      run_script.
      destruct (run_setup_commands execute_statement error_message (S i) total rest count)
        as [tr rr].
      simpl in *. subst rr.
      rewrite !effects_app, !SetupOrderSpec.sql_sent_app, !AuroraMenuSpec.operations_app,
        !sleeps_app, Hsql, Hops, Hsl. simpl.
      rewrite Hsql', Hops', Hsl'. now repeat split.
Qed.

Lemma verification_loop_observed (queries : list string) :
  (forall n sql e, execute_statement n sql = Err e -> is_ClientError e = true) ->
  forall i n,
    result (verification_loop i n queries) = Return tt /\
    sql_sent (effects (trace (verification_loop i n queries))) = queries /\
    operations (effects (trace (verification_loop i n queries))) =
      repeat "execute_statement" (length queries) /\
    sleeps (effects (trace (verification_loop i n queries))) = [].
Proof.
  intros Hclient. induction queries as [|query rest IH]; intros i n.
  - now repeat split.
  - destruct (execute_observed n query) as (Hsql & Hops & Hsl & Hres).
    cbn [run_verification_queries length repeat].
    destruct (execute n query cluster_arn secret_arn) as [te re].
    cbn [trace result fst snd] in Hsql, Hops, Hsl, Hres.
    destruct (IH (S i) (S n)) as (Hres' & Hsql' & Hops' & Hsl').
    destruct (run_verification_queries execute_statement error_message (S i) (S n) rest)
      as [tr rr].
    cbn [trace result fst snd] in Hsql', Hops', Hsl', Hres'. subst rr.
    destruct (execute_statement n query) as [r|e] eqn:Hreply;
      [| rewrite (Hclient _ _ _ Hreply) in Hres]; subst re; run_script;
      rewrite !effects_app, !SetupOrderSpec.sql_sent_app, !AuroraMenuSpec.operations_app,
        !sleeps_app, Hsql, Hops, Hsl; simpl;
      rewrite Hsql', Hops', Hsl'; now repeat split.
Qed.

Lemma print_clusters_quiet (clusters : list db_cluster) :
  result (for_each clusters print_cluster) = Return tt /\
  operations (effects (trace (for_each clusters print_cluster))) = [] /\
  sleeps (effects (trace (for_each clusters print_cluster))) = [].
Proof.
  induction clusters as [|cluster rest (Hres & Hops & Hsl)]; [now repeat split |].
  cbn [for_each].
  destruct (for_each rest print_cluster) as [tr rr].
  cbn [trace result fst snd] in Hres, Hops, Hsl. subst rr.
  unfold print_cluster, say. run_script. now repeat split.
Qed.

Local Arguments for_each : simpl never.

(** The other way to the database only lists the clusters. *)
Lemma try_alternative_observed :
  (forall e, describe_reply = Err e -> is_ClientError e = true) ->
  result (try_alternative_connection describe_reply) = Return tt /\
  operations (effects (trace (try_alternative_connection describe_reply))) =
    ["describe_db_clusters"] /\
  sleeps (effects (trace (try_alternative_connection describe_reply))) = [].
Proof.
  intros Hclient. unfold try_alternative_connection, say.
  destruct describe_reply as [clusters|e].
  - destruct (List.filter (fun c => Py.str_in "aurora" (DBClusterIdentifier c)) clusters)
      as [|cluster rest] eqn:Hfilter.
    + run_script. rewrite Hfilter. now repeat split.
    + destruct (print_clusters_quiet (cluster :: rest)) as (Hres & Hops & Hsl).
      run_script. rewrite Hfilter.
      destruct (for_each (cluster :: rest) print_cluster) as [tr rr].
      simpl in *. subst rr. simpl. rewrite Hops, Hsl. now repeat split.
  - pose proof (Hclient e eq_refl) as He. run_script. rewrite He. now repeat split.
Qed.

Lemma manual_steps_quiet :
  result show_manual_execution_steps = Return tt /\
  operations (effects (trace show_manual_execution_steps)) = [] /\
  sleeps (effects (trace show_manual_execution_steps)) = [].
Proof. repeat split; vm_compute; reflexivity. Qed.

Lemma execute_raises (n : nat) (sql : string) (e : exn) :
  execute_statement n sql = Err e ->
  is_ClientError e = false ->
  execute n sql cluster_arn secret_arn =
    ([ Eff (Print ("🔄 Executing: " +:+ sql));
       Eff (Api "execute_statement"
              [("resourceArn", cluster_arn); ("secretArn", secret_arn);
               ("database", "myapp"); ("sql", sql); ("includeResultMetadata", "True")]) ],
     Raise e).
Proof.
  intros Hreply He. unfold execute_sql_with_data_api, say. rewrite Hreply.
  destruct e; try discriminate He; reflexivity.
Qed.

(** An exception that is not a ClientError leaves the loop at once. *)
Lemma setup_loop_interrupted (commands : list string) :
  forall i total count k cmd e,
    nth_error commands k = Some cmd ->
    execute_statement (i + k) cmd = Err e ->
    is_ClientError e = false ->
    (forall j sql e', j < i + k -> execute_statement j sql = Err e' ->
       is_ClientError e' = true) ->
    result (setup_loop i total commands count) = Raise e /\
    sql_sent (effects (trace (setup_loop i total commands count))) = firstn (S k) commands /\
    operations (effects (trace (setup_loop i total commands count))) =
      repeat "execute_statement" (S k) /\
    sleeps (effects (trace (setup_loop i total commands count))) = repeat 1 k /\
    last (trace (setup_loop i total commands count)) =
      Some (Eff (Api "execute_statement"
                   [("resourceArn", cluster_arn); ("secretArn", secret_arn);
                    ("database", "myapp"); ("sql", cmd); ("includeResultMetadata", "True")])).
Proof.
  induction commands as [|c rest IH]; intros i total count k cmd e Hnth Hreply He Hbefore.
  - destruct k; discriminate Hnth.
  - cbn [run_setup_commands].
    destruct k as [|k].
    + injection Hnth as ->. rewrite Nat.add_0_r in Hreply.
      rewrite (execute_raises i cmd e Hreply He). now repeat split.
    + cbn [nth_error] in Hnth.
      destruct (execute_observed i c) as (Hsql & Hops & Hsl & Hres).
      destruct (execute i c cluster_arn secret_arn) as [te re].
      cbn [trace result fst snd] in Hsql, Hops, Hsl, Hres.
      assert (Hstep : exists success other, re = Return (success, other)).
      { destruct (execute_statement i c) as [r|e'] eqn:Hc.
        - now exists true, (inl r).
        - rewrite (Hbefore i c e') in Hres by (lia || exact Hc).
          now exists false, (inr (str e')). }
      destruct Hstep as (success & other & ->).
      replace (i + S k) with (S i + k) in Hreply, Hbefore by lia.
      destruct (IH (S i) total (if success : bool then count + 1 else count) k cmd e
                  Hnth Hreply He Hbefore) as (Hres' & Hsql' & Hops' & Hsl' & Hlast').
      run_script.
      destruct (run_setup_commands execute_statement error_message (S i) total rest
                  (if success then count + 1 else count)) as [tr rr].
      simpl in *. subst rr.
      rewrite !effects_app, !SetupOrderSpec.sql_sent_app, !AuroraMenuSpec.operations_app,
        !sleeps_app, Hsql, Hops, Hsl. simpl.
      rewrite Hsql', Hops', Hsl'. repeat split.
      rewrite app_comm_cons, last_app, last_cons, Hlast'. reflexivity.
Qed.

(** X16: a ClientError never stops the setup.  Whatever the database
    replies to a statement, as long as its errors are ClientErrors, [main]
    sends each of its eight commands once, in order and one second apart,
    prints how many were accepted, and returns.  The two verification
    queries follow exactly when at least one command was accepted;
    otherwise the clusters are listed instead. *)
Theorem client_errors_never_stop_the_setup :
  (forall n sql e, execute_statement n sql = Err e -> is_ClientError e = true) ->
  (forall e, describe_reply = Err e -> is_ClientError e = true) ->
  let ok := accepted execute_statement 0 setup_commands in
  result main = Return tt /\
  sql_sent (effects (trace main)) =
    setup_commands ++ (if (0 <? ok)%nat then verification_queries else []) /\
  operations (effects (trace main)) =
    repeat "execute_statement" 8 ++
    (if (0 <? ok)%nat then repeat "execute_statement" 2 else ["describe_db_clusters"]) /\
  sleeps (effects (trace main)) = repeat 1 8 /\
  In (Eff (Print (Py.nl +:+ "📊 Setup Summary: " +:+ pretty ok +:+ "/" +:+ pretty 8 +:+
                  " commands executed successfully")))
     (trace main).
Proof.
  intros Hclient Hdescribe ok.
  destruct (setup_loop_observed setup_commands Hclient 0 (length setup_commands) 0)
    as (Hres & Hsql & Hops & Hsl).
  destruct (verification_loop_observed verification_queries Hclient 0 (length setup_commands))
    as (Hres_v & Hsql_v & Hops_v & Hsl_v).
  destruct (try_alternative_observed Hdescribe) as (Hres_a & Hops_a & Hsl_a).
  destruct manual_steps_quiet as (Hres_m & Hops_m & Hsl_m).
  change (0 + accepted execute_statement 0 setup_commands) with ok in Hres.
  clearbody ok.
  unfold RunDatabaseSetup.main, say.
  destruct (setup_loop 0 (length setup_commands) setup_commands 0) as [tl rl].
  destruct (verification_loop 0 (length setup_commands) verification_queries) as [tv rv].
  destruct (try_alternative_connection describe_reply) as [ta ra].
  destruct show_manual_execution_steps as [tm rm].
  cbn [trace result fst snd] in *. subst rl rv ra rm.
  assert (Hsql_m : sql_sent (effects tm) = [])
    by (apply sql_sent_without_execute; rewrite Hops_m; intros []).
  assert (Hsql_a : sql_sent (effects ta) = []).
  { apply sql_sent_without_execute. rewrite Hops_a. intros [H | []]. discriminate H. }
  run_script. destruct (0 <? ok)%nat; simpl;
    rewrite ?effects_app; simpl;
    rewrite ?effects_app, ?SetupOrderSpec.sql_sent_app, ?AuroraMenuSpec.operations_app,
      ?sleeps_app; simpl;
    rewrite ?effects_app, ?SetupOrderSpec.sql_sent_app, ?AuroraMenuSpec.operations_app,
      ?sleeps_app; simpl;
    rewrite ?Hsql, ?Hops, ?Hsl, ?Hsql_v, ?Hops_v, ?Hsl_v, ?Hsql_a, ?Hops_a, ?Hsl_a,
      ?Hsql_m, ?Hops_m, ?Hsl_m, ?app_nil_r; simpl;
    (repeat split; do 6 right; apply in_or_app; right; now left).
Qed.

(** X17: an exception that is not a ClientError is not handled anywhere.
    When the k-th command raises one, after commands whose errors were
    ClientErrors, it leaves [main] at once: the call of that command is the
    last thing the script does, so no later command is sent, no summary is
    printed and the clusters are not listed. *)
Theorem other_exception_leaves_the_setup (k : nat) (cmd : string) (e : exn) :
  nth_error setup_commands k = Some cmd ->
  execute_statement k cmd = Err e ->
  is_ClientError e = false ->
  (forall j sql e', j < k -> execute_statement j sql = Err e' -> is_ClientError e' = true) ->
  result main = Raise e /\
  sql_sent (effects (trace main)) = firstn (S k) setup_commands /\
  operations (effects (trace main)) = repeat "execute_statement" (S k) /\
  sleeps (effects (trace main)) = repeat 1 k /\
  last (trace main) =
    Some (Eff (Api "execute_statement"
                 [("resourceArn", cluster_arn); ("secretArn", secret_arn);
                  ("database", "myapp"); ("sql", cmd); ("includeResultMetadata", "True")])).
Proof.
  intros Hnth Hreply He Hbefore.
  destruct (setup_loop_interrupted setup_commands 0 (length setup_commands) 0 k cmd e
              Hnth Hreply He Hbefore) as (Hres & Hsql & Hops & Hsl & Hlast).
  unfold RunDatabaseSetup.main, say.
  destruct (setup_loop 0 (length setup_commands) setup_commands 0) as [tl rl].
  cbn [trace result fst snd] in *. subst rl.
  run_script. rewrite Hsql, Hops, Hsl. repeat split.
  destruct tl as [|ev tl]; [discriminate Hlast | exact Hlast].
Qed.

End Setup.
Lemma client_errors_never_stop_the_setup_witness :
  result (RunDatabaseSetup.main Samples.access_denied (fun _ => "not authorized")
            (Ok [Samples.aurora_cluster])) = Return tt /\
  sql_sent (effects (trace (RunDatabaseSetup.main Samples.access_denied
                              (fun _ => "not authorized") (Ok [Samples.aurora_cluster])))) =
    setup_commands /\
  operations (effects (trace (RunDatabaseSetup.main Samples.access_denied
                                (fun _ => "not authorized") (Ok [Samples.aurora_cluster])))) =
    repeat "execute_statement" 8 ++ ["describe_db_clusters"].
Proof.
  destruct (client_errors_never_stop_the_setup Samples.access_denied
              (fun _ => "not authorized") (Ok [Samples.aurora_cluster]))
    as (Hres & Hsql & Hops & _).
  - intros n sql e H. injection H as <-. reflexivity.
  - intros e H. discriminate H.
  - split; [exact Hres | split]; [rewrite Hsql | rewrite Hops]; vm_compute; reflexivity.
Defined.

Lemma other_exception_leaves_the_setup_witness :
  result (RunDatabaseSetup.main Samples.third_statement_times_out (fun _ => "")
            (Ok [Samples.aurora_cluster])) =
    Raise (Exception "Read timeout on endpoint URL") /\
  sql_sent (effects (trace (RunDatabaseSetup.main Samples.third_statement_times_out
                              (fun _ => "") (Ok [Samples.aurora_cluster])))) =
    firstn 3 setup_commands.
Proof.
  destruct (other_exception_leaves_the_setup Samples.third_statement_times_out
              (fun _ => "") (Ok [Samples.aurora_cluster]) 2 _ _ eq_refl eq_refl eq_refl)
    as (Hres & Hsql & _).
  - intros j sql e' Hj H.
    destruct j as [|[|j]]; [discriminate H | discriminate H | lia].
  - split; [exact Hres | exact Hsql].
Defined.


End RunDatabaseSetupSpec.

(** ** create_knowledge_base_opensearch.py: the whole creation *)
Module BedrockKnowledgeBaseCreatorSpec.
Import BedrockKnowledgeBaseCreator ScriptFacts.
#[local] Set Warnings "-clear-no-such-hyp".

Lemma called_app (a b : list event) : called (a ++ b) = called a ++ called b.
Proof.
  induction a as [|ev a IH]; [reflexivity |].
  destruct ev as [[text|s|p|op args]|op kwargs|path|path content]; simpl; now rewrite IH.
Qed.

Lemma called_lift (t : list effect) : called (List.map Eff t) = operations t.
Proof.
  induction t as [|ev t IH]; [reflexivity |].
  destruct ev; simpl; now rewrite IH.
Qed.

(** [replace] changes nothing in a text that the old text does not occur in. *)
Lemma replace_absent (old new s : string) :
  Py.str_in old s = false -> str_replace old new s = s.
Proof.
  unfold str_replace. induction s as [|c rest IH]; [reflexivity |].
  cbn [Py.str_in replace_from]. intros H.
  apply orb_false_elim in H as [Hprefix Hrest].
  rewrite Hprefix. now rewrite IH.
Qed.

(** [replace] puts the new text where the old one occurs. *)
Lemma replace_present (old new s : string) :
  old <> "" -> Py.str_in old s = true -> Py.str_in new (str_replace old new s) = true.
Proof.
  intros Hold. unfold str_replace. induction s as [|c rest IH].
  - destruct old; [contradiction | discriminate].
  - cbn [Py.str_in replace_from]. intros H.
    destruct (String.prefix old (String c rest)) eqn:Hprefix.
    + apply PyFacts.str_in_prefix, PyFacts.prefix_app.
    + simpl in H. cbn [Py.str_in]. rewrite (IH H). apply orb_true_r.
Qed.

Section Creation.
Context (create_role_reply : reply string)
        (get_role_reply : reply string)
        (put_role_policy_reply : reply unit)
        (list_reply : reply (list collection_detail))
        (create_kb_reply : reply (string * string))
        (create_ds_reply : reply string)
        (start_reply : reply string)
        (get_ingestion_job : nat -> reply KbOpenSearch.ingestion_job)
        (read_reply : reply string)
        (write_reply : reply unit)
        (polls : nat).

Local Abbreviation create_iam_roles :=
  (BedrockKnowledgeBaseCreator.create_iam_roles
     create_role_reply get_role_reply put_role_policy_reply).
Local Abbreviation get_existing_collection :=
  (BedrockKnowledgeBaseCreator.get_existing_collection list_reply).
Local Abbreviation create_knowledge_base :=
  (BedrockKnowledgeBaseCreator.create_knowledge_base create_kb_reply).
Local Abbreviation create_data_source :=
  (BedrockKnowledgeBaseCreator.create_data_source create_ds_reply).
Local Abbreviation update_app_config :=
  (BedrockKnowledgeBaseCreator.update_app_config read_reply write_reply).
Local Abbreviation start_ingestion :=
  (KbOpenSearch.start_ingestion start_reply get_ingestion_job).
Local Abbreviation create_complete_knowledge_base :=
  (BedrockKnowledgeBaseCreator.create_complete_knowledge_base
     create_role_reply get_role_reply put_role_policy_reply list_reply create_kb_reply
     create_ds_reply start_reply get_ingestion_job read_reply write_reply polls).

(** The role, its policy, and what comes of the two. *)
Lemma create_iam_roles_cases :
  (forall arn, create_role_reply = Ok arn ->
     called (trace create_iam_roles) = ["create_role"; "put_role_policy"] /\
     result create_iam_roles =
       Return (match put_role_policy_reply with
               | Ok _ => Some {| kb_role_arn := arn |}
               | Err _ => None
               end)) /\
  (forall text, create_role_reply = Err (ClientError "EntityAlreadyExists" text) ->
     (forall arn, get_role_reply = Ok arn ->
        called (trace create_iam_roles) = ["create_role"; "get_role"; "put_role_policy"] /\
        result create_iam_roles =
          Return (match put_role_policy_reply with
                  | Ok _ => Some {| kb_role_arn := arn |}
                  | Err _ => None
                  end)) /\
     (forall e, get_role_reply = Err e ->
        called (trace create_iam_roles) = ["create_role"; "get_role"] /\
        result create_iam_roles = Return None)) /\
  (forall e, create_role_reply = Err e -> error_code e <> "EntityAlreadyExists" ->
     called (trace create_iam_roles) = ["create_role"] /\
     result create_iam_roles = Return None).
Proof.
  unfold BedrockKnowledgeBaseCreator.create_iam_roles, say.
  split; [| split].
  - intros arn ->. destruct put_role_policy_reply as [[]|e]; run_script; now split.
  - intros text ->. split.
    + intros arn ->. destruct put_role_policy_reply as [[]|e]; run_script; now split.
    + intros e ->. run_script. now split.
  - intros e -> Hcode. apply String.eqb_neq in Hcode.
    destruct e; run_script; try rewrite Hcode; now split.
Qed.

Lemma create_iam_roles_returns : exists made, result create_iam_roles = Return made.
Proof.
  destruct create_iam_roles_cases as (Hcreated & Hexists & Hother).
  destruct create_role_reply as [arn|e] eqn:Hcreate.
  - destruct (Hcreated arn eq_refl) as [_ ->]. eauto.
  - destruct (String.eqb_spec (error_code e) "EntityAlreadyExists") as [Hcode|Hcode].
    + destruct e as [code text| | | |]; try discriminate Hcode. simpl in Hcode. subst code.
      destruct (Hexists text eq_refl) as [Hfound Hmissing].
      destruct get_role_reply as [arn|e'].
      * destruct (Hfound arn eq_refl) as [_ ->]. eauto.
      * destruct (Hmissing e' eq_refl) as [_ ->]. eauto.
    + destruct (Hother e eq_refl Hcode) as [_ ->]. eauto.
Qed.

Lemma get_existing_collection_cases :
  called (trace get_existing_collection) = ["list_collections"] /\
  result get_existing_collection =
    Return (match list_reply with
            | Ok collections =>
                match List.find (fun c => String.eqb (col_name c) collection_name) collections with
                | Some c => Some {| OpenSearchSetup.collection_id := col_id c;
                                    OpenSearchSetup.collection_arn := col_arn c;
                                    OpenSearchSetup.endpoint := default "" (col_endpoint c) |}
                | None => None
                end
            | Err _ => None
            end).
Proof.
  unfold BedrockKnowledgeBaseCreator.get_existing_collection, say.
  destruct list_reply as [collections|e].
  - run_script.
    destruct (List.find (fun c => String.eqb (col_name c) collection_name) collections);
      now split.
  - run_script. now split.
Qed.

Lemma create_knowledge_base_cases (given : roles) (info : OpenSearchSetup.collection_info) :
  called (trace (create_knowledge_base given info)) = ["create_knowledge_base"] /\
  result (create_knowledge_base given info) =
    Return (match create_kb_reply with
            | Ok (id, arn) => Some {| kb_id := id; kb_arn := arn |}
            | Err _ => None
            end).
Proof.
  unfold BedrockKnowledgeBaseCreator.create_knowledge_base, say.
  destruct create_kb_reply as [[id arn]|e]; run_script; now split.
Qed.

Lemma create_data_source_cases (id : string) (given : roles) :
  called (trace (create_data_source id given)) = ["create_data_source"] /\
  result (create_data_source id given) =
    Return (match create_ds_reply with
            | Ok ds => Some {| ds_id := ds |}
            | Err _ => None
            end).
Proof.
  unfold BedrockKnowledgeBaseCreator.create_data_source, say.
  destruct create_ds_reply as [ds|e]; run_script; now split.
Qed.

Lemma update_app_config_quiet (id : string) :
  called (trace (update_app_config id)) = [] /\
  result (update_app_config id) = Return tt.
Proof.
  unfold BedrockKnowledgeBaseCreator.update_app_config, say.
  destruct read_reply as [content|e]; [destruct write_reply as [[]|e] |];
    run_script; now split.
Qed.

Lemma start_ingestion_no_raise (kb ds : string) (e : exn) :
  result (start_ingestion kb ds polls) <> Raise e.
Proof.
  unfold KbOpenSearch.start_ingestion.
  rewrite bind_emit. cbv beta. cbn [result snd].
  rewrite result_try_except.
  destruct (result _) as [a|e'|]; discriminate.
Qed.

Local Arguments BedrockKnowledgeBaseCreator.create_knowledge_base : simpl never.
Local Arguments BedrockKnowledgeBaseCreator.create_data_source : simpl never.
Local Arguments BedrockKnowledgeBaseCreator.update_app_config : simpl never.
Local Arguments KbOpenSearch.start_ingestion : simpl never.

(** X18: [create_iam_roles] never raises, and it hands on a role exactly
    when it has one with its policy attached: the role it created, or the
    existing one when the creation is refused with EntityAlreadyExists, and
    in both cases only when [put_role_policy] succeeds.  The existing role is
    looked up in no other case. *)
Theorem roles_need_role_and_policy (given : roles) :
  (forall e, result create_iam_roles <> Raise e) /\
  (result create_iam_roles = Return (Some given) <->
     (create_role_reply = Ok (kb_role_arn given) \/
      exists text, create_role_reply = Err (ClientError "EntityAlreadyExists" text) /\
                   get_role_reply = Ok (kb_role_arn given)) /\
     exists done, put_role_policy_reply = Ok done) /\
  (In "get_role" (called (trace create_iam_roles)) <->
     exists text, create_role_reply = Err (ClientError "EntityAlreadyExists" text)) /\
  (In "put_role_policy" (called (trace create_iam_roles)) <->
     exists arn,
       create_role_reply = Ok arn \/
       exists text, create_role_reply = Err (ClientError "EntityAlreadyExists" text) /\
                    get_role_reply = Ok arn).
Proof using create_role_reply get_role_reply put_role_policy_reply.
  clear list_reply create_kb_reply create_ds_reply start_reply get_ingestion_job
    read_reply write_reply polls.
  destruct create_iam_roles_cases as (Hcreated & Hexists & Hother).
  destruct given as [wanted]. cbn [kb_role_arn].
  destruct create_role_reply as [arn|e] eqn:Hcreate.
  - destruct (Hcreated arn eq_refl) as [-> ->]. clear Hcreated Hexists Hother.
    destruct put_role_policy_reply as [done|e']; simpl; naive_solver.
  - destruct (String.eqb_spec (error_code e) "EntityAlreadyExists") as [Hcode|Hcode].
    + destruct e as [code text| | | |]; try discriminate Hcode. simpl in Hcode. subst code.
      destruct (Hexists text eq_refl) as [Hfound Hmissing]. clear Hcreated Hexists Hother.
      destruct get_role_reply as [arn|e'].
      * destruct (Hfound arn eq_refl) as [-> ->]. clear Hfound Hmissing.
        destruct put_role_policy_reply as [done|e']; simpl; naive_solver.
      * destruct (Hmissing e' eq_refl) as [-> ->]. clear Hfound Hmissing.
        simpl. naive_solver.
    + destruct (Hother e eq_refl Hcode) as [-> ->]. clear Hcreated Hexists Hother.
      simpl. destruct e; simpl in Hcode; naive_solver.
Qed.

(** X19: the creation stops at the first step that hands on nothing, and
    it never raises.  The collections are listed only with a role, the
    knowledge base is created only with a collection, the data source only
    with a knowledge base, and the ingestion is started only with a data
    source.  Once the four steps are through, [True] is returned as soon as
    the ingestion is no longer watched: whether it could be started,
    completed or failed, and whether app.py could be rewritten, makes no
    difference. *)
Theorem creation_stops_at_first_failed_step :
  let steps := called (trace create_iam_roles) in
  (forall e, result create_complete_knowledge_base <> Raise e) /\
  (result create_iam_roles = Return None ->
     result create_complete_knowledge_base = Return false /\
     called (trace create_complete_knowledge_base) = steps) /\
  (forall given,
     result create_iam_roles = Return (Some given) ->
     result get_existing_collection = Return None ->
     result create_complete_knowledge_base = Return false /\
     called (trace create_complete_knowledge_base) = steps ++ ["list_collections"]) /\
  (forall given info e,
     result create_iam_roles = Return (Some given) ->
     result get_existing_collection = Return (Some info) ->
     create_kb_reply = Err e ->
     result create_complete_knowledge_base = Return false /\
     called (trace create_complete_knowledge_base) =
       steps ++ ["list_collections"; "create_knowledge_base"]) /\
  (forall given info id arn e,
     result create_iam_roles = Return (Some given) ->
     result get_existing_collection = Return (Some info) ->
     create_kb_reply = Ok (id, arn) ->
     create_ds_reply = Err e ->
     result create_complete_knowledge_base = Return false /\
     called (trace create_complete_knowledge_base) =
       steps ++ ["list_collections"; "create_knowledge_base"; "create_data_source"]) /\
  (forall given info id arn ds,
     result create_iam_roles = Return (Some given) ->
     result get_existing_collection = Return (Some info) ->
     create_kb_reply = Ok (id, arn) ->
     create_ds_reply = Ok ds ->
     called (trace create_complete_knowledge_base) =
       steps ++ ["list_collections"; "create_knowledge_base"; "create_data_source"]
             ++ operations (trace (start_ingestion id ds polls)) /\
     (result create_complete_knowledge_base = Return true <->
      result (start_ingestion id ds polls) <> Running) /\
     (result create_complete_knowledge_base = Running <->
      result (start_ingestion id ds polls) = Running)).
Proof.
  intros steps. subst steps.
  unfold BedrockKnowledgeBaseCreator.create_complete_knowledge_base, say.
  destruct create_iam_roles_returns as [made Hmade].
  destruct get_existing_collection_cases as [Hlist Hfound].
  destruct create_iam_roles as [t1 r1]. cbn [trace result fst snd] in *. subst r1.
  destruct get_existing_collection as [t2 r2]. cbn [trace result fst snd] in *. subst r2.
  destruct made as [given|].
  2:{ run_script. rewrite app_nil_r. repeat split; intros; try discriminate. }
  destruct list_reply as [collections|e2].
  2:{ run_script. rewrite ?app_nil_r, !called_app, Hlist.
      repeat split; intros; try discriminate. }
  destruct (List.find (fun c => String.eqb (col_name c) collection_name) collections)
    as [c|].
  2:{ run_script. rewrite ?app_nil_r, !called_app, Hlist.
      repeat split; intros; try discriminate. }
  set (info := {| OpenSearchSetup.collection_id := col_id c;
                  OpenSearchSetup.collection_arn := col_arn c;
                  OpenSearchSetup.endpoint := default "" (col_endpoint c) |}).
  destruct (create_knowledge_base_cases given info) as [Hkb_called Hkb].
  run_script.
  destruct (BedrockKnowledgeBaseCreator.create_knowledge_base create_kb_reply given info)
    as [t3 r3].
  cbn [trace result fst snd] in *. subst r3.
  destruct create_kb_reply as [[id arn]|e3].
  2:{ simpl. rewrite ?app_nil_r, !called_app, Hlist, Hkb_called.
      repeat split; intros; try discriminate. }
  destruct (create_data_source_cases id given) as [Hds_called Hds].
  simpl.
  destruct (BedrockKnowledgeBaseCreator.create_data_source create_ds_reply id given)
    as [t4 r4].
  cbn [trace result fst snd] in *. subst r4.
  destruct create_ds_reply as [ds|e4].
  2:{ simpl. rewrite ?app_nil_r, !called_app, Hlist, Hkb_called, Hds_called.
      repeat split; intros; try discriminate. }
  destruct (update_app_config_quiet id) as [Hup_called Hup].
  pose proof (start_ingestion_no_raise id ds) as Hno_raise.
  simpl. unfold lift.
  destruct (BedrockKnowledgeBaseCreator.update_app_config read_reply write_reply id)
    as [t6 r6].
  destruct (KbOpenSearch.start_ingestion start_reply get_ingestion_job id ds polls)
    as [t5 r5] eqn:Hingestion.
  cbn [trace result fst snd] in *. subst r6.
  destruct r5 as [job|e5|]; [| now contradiction (Hno_raise e5) |];
    simpl;
    repeat (progress (rewrite ?app_nil_r, ?called_app, ?called_lift, ?Hlist, ?Hkb_called,
                        ?Hds_called, ?Hup_called; simpl));
    repeat split; intros; try discriminate; try congruence.
  all: simplify_eq; rewrite ?Hingestion in *; simpl in *; try done.
Qed.

(** X20: [update_app_config] never raises, whatever the reading and the
    writing of app.py do.  When app.py cannot be read, nothing is handed to
    a write.  When it can, one write is attempted, of the text read with
    every occurrence of the marker line replaced; the update is reported as
    done exactly when this write goes through, and the advice to update by
    hand is the last print otherwise.  The text handed to the write is the
    text read when the marker does not occur in it, and holds the line with
    the new identifier when it does. *)
Theorem app_config_update_outcomes (id : string) :
  result (update_app_config id) = Return tt /\
  (forall e, read_reply = Err e ->
     handed_to_write "app.py" (trace (update_app_config id)) = [] /\
     last (trace (update_app_config id)) =
       Some (Eff (Print ("Please manually update KNOWLEDGE_BASE_ID to: " +:+ id)))) /\
  (forall content, read_reply = Ok content ->
     handed_to_write "app.py" (trace (update_app_config id)) =
       [str_replace config_marker (config_line id) content] /\
     last (trace (update_app_config id)) =
       Some (Eff (Print (match write_reply with
                         | Ok _ => "✅ Updated app.py with Knowledge Base ID: " +:+ id
                         | Err _ => "Please manually update KNOWLEDGE_BASE_ID to: " +:+ id
                         end)))) /\
  (forall content, Py.str_in config_marker content = false ->
     str_replace config_marker (config_line id) content = content) /\
  (forall content, Py.str_in config_marker content = true ->
     Py.str_in (config_line id)
       (str_replace config_marker (config_line id) content) = true).
Proof.
  split; [apply update_app_config_quiet |]. split; [| split; [| split]].
  - intros e Hread.
    unfold BedrockKnowledgeBaseCreator.update_app_config, say. rewrite Hread.
    split; reflexivity.
  - intros content Hread.
    unfold BedrockKnowledgeBaseCreator.update_app_config, say. rewrite Hread.
    destruct write_reply as [[]|e]; split; reflexivity.
  - intros content. apply replace_absent.
  - intros content. apply replace_present. discriminate.
Qed.

End Creation.
Lemma roles_need_role_and_policy_witness :
  result (BedrockKnowledgeBaseCreator.create_iam_roles
            (Err (ClientError "EntityAlreadyExists" "Role with name heavy-machinery-knowledge-base-service-role already exists."))
            (Ok "arn:aws:iam::133720367604:role/heavy-machinery-knowledge-base-service-role")
            (Ok tt)) =
    Return (Some {| kb_role_arn :=
                      "arn:aws:iam::133720367604:role/heavy-machinery-knowledge-base-service-role" |}).
Proof.
  destruct (roles_need_role_and_policy
              (Err (ClientError "EntityAlreadyExists" "Role with name heavy-machinery-knowledge-base-service-role already exists."))
              (Ok "arn:aws:iam::133720367604:role/heavy-machinery-knowledge-base-service-role")
              (Ok tt)
              {| kb_role_arn :=
                   "arn:aws:iam::133720367604:role/heavy-machinery-knowledge-base-service-role" |})
    as (_ & Hhanded & _).
  apply Hhanded. split; [right | now exists tt].
  now exists "Role with name heavy-machinery-knowledge-base-service-role already exists.".
Defined.

Lemma creation_stops_at_first_failed_step_witness :
  result (BedrockKnowledgeBaseCreator.create_complete_knowledge_base
            (Ok "arn:aws:iam::133720367604:role/kb") (Ok "") (Ok tt)
            (Ok [Samples.machinery_collection])
            (Ok ("KB12345678", "arn:aws:bedrock:us-west-2:133720367604:knowledge-base/KB12345678"))
            (Ok "DS12345678")
            (Err (ClientError "ValidationException" "The data source is not ready"))
            (fun _ => Err (Exception "not reached"))
            (Err (Exception "[Errno 2] No such file or directory: 'app.py'"))
            (Ok tt) 0) = Return true.
Proof.
  destruct (creation_stops_at_first_failed_step
              (Ok "arn:aws:iam::133720367604:role/kb") (Ok "") (Ok tt)
              (Ok [Samples.machinery_collection])
              (Ok ("KB12345678", "arn:aws:bedrock:us-west-2:133720367604:knowledge-base/KB12345678"))
              (Ok "DS12345678")
              (Err (ClientError "ValidationException" "The data source is not ready"))
              (fun _ => Err (Exception "not reached"))
              (Err (Exception "[Errno 2] No such file or directory: 'app.py'"))
              (Ok tt) 0) as (_ & _ & _ & _ & _ & Hall).
  destruct (Hall {| kb_role_arn := "arn:aws:iam::133720367604:role/kb" |}
              {| OpenSearchSetup.collection_id := "yrxx5shz6zuntva2zqlf";
                 OpenSearchSetup.collection_arn :=
                   "arn:aws:aoss:us-west-2:133720367604:collection/yrxx5shz6zuntva2zqlf";
                 OpenSearchSetup.endpoint := "" |}
              "KB12345678" "arn:aws:bedrock:us-west-2:133720367604:knowledge-base/KB12345678"
              "DS12345678" eq_refl eq_refl eq_refl eq_refl) as (_ & Hreturns & _).
  apply Hreturns. discriminate.
Defined.

Lemma app_config_update_outcomes_witness :
  handed_to_write "app.py"
    (trace (BedrockKnowledgeBaseCreator.update_app_config
              (Ok Samples.app_py_line) (Ok tt) "KB12345678")) = [Samples.app_py_line] /\
  handed_to_write "app.py"
    (trace (BedrockKnowledgeBaseCreator.update_app_config
              (Ok Samples.app_py_with_marker) (Ok tt) "KB12345678")) =
    [ "import streamlit as st" +:+ Py.nl +:+
      "KNOWLEDGE_BASE_ID = " +:+ Py.dq +:+ "KB12345678" +:+ Py.dq +:+ Py.nl ] /\
  result (BedrockKnowledgeBaseCreator.update_app_config
            (Err (Exception "[Errno 2] No such file or directory: 'app.py'")) (Ok tt)
            "KB12345678") = Return tt.
Proof.
  destruct (app_config_update_outcomes (Ok Samples.app_py_line) (Ok tt) "KB12345678")
    as (_ & _ & Hplain & Habsent & _).
  destruct (app_config_update_outcomes (Ok Samples.app_py_with_marker) (Ok tt) "KB12345678")
    as (_ & _ & Hmarked & _).
  destruct (app_config_update_outcomes
              (Err (Exception "[Errno 2] No such file or directory: 'app.py'")) (Ok tt)
              "KB12345678") as (Hreturns & _).
  split; [| split; [| exact Hreturns]].
  - destruct (Hplain Samples.app_py_line eq_refl) as [-> _].
    now rewrite (Habsent Samples.app_py_line eq_refl).
  - destruct (Hmarked Samples.app_py_with_marker eq_refl) as [-> _]. reflexivity.
Defined.

End BedrockKnowledgeBaseCreatorSpec.

(** ** enable_aurora_public.py and disable_aurora_public.py *)
Module AuroraPublicScriptsSpec.
Import AuroraPublicScripts.

(** X21: the two stand-alone scripts change the public access without
    asking.  Whatever the cluster replies, each of them reads no input,
    calls [modify_db_cluster] exactly once, with PubliclyAccessible set to
    True by the one and to False by the other, never raises, and returns
    whether the call succeeded. *)
Theorem standalone_scripts_never_ask (modify_reply : reply string) :
  let succeeded := match modify_reply with Ok _ => true | Err _ => false end in
  (List.filter is_input (trace (enable_public_access modify_reply)) = [] /\
   operations (trace (enable_public_access modify_reply)) = ["modify_db_cluster"] /\
   List.filter (is_api "modify_db_cluster") (trace (enable_public_access modify_reply)) =
     [Api "modify_db_cluster" (AuroraPublicAccess.modify_args "True")] /\
   result (enable_public_access modify_reply) = Return succeeded) /\
  (List.filter is_input (trace (disable_public_access modify_reply)) = [] /\
   operations (trace (disable_public_access modify_reply)) = ["modify_db_cluster"] /\
   List.filter (is_api "modify_db_cluster") (trace (disable_public_access modify_reply)) =
     [Api "modify_db_cluster" (AuroraPublicAccess.modify_args "False")] /\
   result (disable_public_access modify_reply) = Return succeeded).
Proof.
  unfold enable_public_access, disable_public_access.
  destruct modify_reply as [status|e]; run_script; now repeat split.
Qed.

End AuroraPublicScriptsSpec.
